(** * scylla-artifacts.py: installation-and-verification orchestration

    A shallow embedding of [scylla-artifacts.py] (the avocado test that
    installs Scylla packages, brings the services up and checks the host)
    together with the properties its specification states.

    The script is effectful throughout: every step runs a shell command or
    asks the operating system something.  The embedding threads an explicit
    [State] (the trace of calls made so far, the module-global
    [SCRIPTLET_FAILURE_LIST] and the software-manager object) through a
    state-and-exception monad; what the host answers to each call is given
    by an environment [Env] of oracles that may depend on the whole trace. *)

From Stdlib Require Import String Ascii List ZArith Bool Arith Lia.
Import ListNotations.
Open Scope list_scope.
Open Scope string_scope.

(** ** Python string primitives used by the script *)

Module Py.

Definition newline : ascii := "010"%char.
Definition dquote : ascii := "034"%char.

(** [str.isspace] on one byte (Python 2 [str]): tab, LF, VT, FF, CR, space. *)
Definition isspace (c : ascii) : bool :=
  let n := nat_of_ascii c in
  (((9 <=? n) && (n <=? 13)) || (n =? 32))%nat.

Definition isdigit (c : ascii) : bool :=
  let n := nat_of_ascii c in ((48 <=? n) && (n <=? 57))%nat.

(** [s.startswith(p)] *)
Fixpoint startswith (p s : string) : bool :=
  match p, s with
  | EmptyString, _ => true
  | String a p', String b s' => Ascii.eqb a b && startswith p' s'
  | String _ _, EmptyString => false
  end.

(** [p in s] for strings *)
Fixpoint contains (p s : string) : bool :=
  startswith p s ||
  match s with
  | EmptyString => false
  | String _ s' => contains p s'
  end.

(** One pending token of [str.split()]: dropped when empty. *)
Definition flush (cur : string) : list string :=
  match cur with
  | EmptyString => []
  | _ => [cur]
  end.

(** [s.split()]: maximal runs of non-whitespace characters. *)
Fixpoint split_go (cur s : string) : list string :=
  match s with
  | EmptyString => flush cur
  | String c s' =>
      if isspace c then (flush cur ++ split_go EmptyString s')%list
      else split_go (cur ++ String c EmptyString) s'
  end.

Definition split (s : string) : list string := split_go EmptyString s.

(** [s.lower()] on ASCII letters. *)
Definition lower_char (c : ascii) : ascii :=
  let n := nat_of_ascii c in
  if ((65 <=? n) && (n <=? 90))%nat then ascii_of_nat (n + 32) else c.

Fixpoint lower (s : string) : string :=
  match s with
  | EmptyString => EmptyString
  | String c s' => String (lower_char c) (lower s')
  end.

Fixpoint lstrip (f : ascii -> bool) (s : string) : string :=
  match s with
  | EmptyString => EmptyString
  | String c s' => if f c then lstrip f s' else s
  end.

Fixpoint rstrip (f : ascii -> bool) (s : string) : string :=
  match s with
  | EmptyString => EmptyString
  | String c s' =>
      match rstrip f s' with
      | EmptyString => if f c then EmptyString else String c EmptyString
      | r => String c r
      end
  end.

(** [s.strip()] and [s.strip(chars)] *)
Definition strip_by (f : ascii -> bool) (s : string) : string :=
  rstrip f (lstrip f s).
Definition strip (s : string) : string := strip_by isspace s.

(** The text up to, and excluding, the next line feed: what [.*] matches. *)
Fixpoint rest_of_line (s : string) : string :=
  match s with
  | EmptyString => EmptyString
  | String c s' =>
      if Ascii.eqb c newline then EmptyString else String c (rest_of_line s')
  end.

(** [re.search(lit + '.*', s)] is truthy exactly when the literal occurs. *)
Definition re_search_dotstar (lit s : string) : bool := contains lit s.

(** [re.findall(lit + '.*', s)] for a non-empty literal [lit]: scanning
    left to right, every leftmost occurrence of the literal is extended to
    the end of its line; the scan resumes where the match ended.  [skip]
    counts the characters of the current match still to be passed. *)
Fixpoint findall_dotstar_go (lit : string) (skip : nat) (s : string)
  : list string :=
  match s with
  | EmptyString => []
  | String _ s' =>
      match skip with
      | S k => findall_dotstar_go lit k s'
      | O =>
          if startswith lit s
          then let m := rest_of_line s in
               m :: findall_dotstar_go lit (String.length m - 1) s'
          else findall_dotstar_go lit 0 s'
      end
  end.

Definition re_findall_dotstar (lit s : string) : list string :=
  findall_dotstar_go lit 0 s.

(** The newline-delimited lines of a text ([k] line feeds give [k+1] lines). *)
Fixpoint lines (s : string) : list string :=
  match s with
  | EmptyString => [EmptyString]
  | String c s' =>
      if Ascii.eqb c newline then EmptyString :: lines s'
      else match lines s' with
           | l :: ls => String c l :: ls
           | [] => [String c EmptyString]
           end
  end.

Fixpoint join (sep : string) (l : list string) : string :=
  match l with
  | [] => EmptyString
  | [x] => x
  | x :: l' => x ++ sep ++ join sep l'
  end.

(** Number of (possibly overlapping) occurrences of [p] in [s]. *)
Fixpoint count_occ (p s : string) : nat :=
  (if startswith p s then 1 else 0) +
  match s with
  | EmptyString => 0
  | String _ s' => count_occ p s'
  end.

(** [s.endswith(p)] *)
Fixpoint endswith (p s : string) : bool :=
  String.eqb p s ||
  match s with
  | EmptyString => false
  | String _ s' => endswith p s'
  end.

(** The last whitespace-delimited token of a text (empty if none). *)
Definition last_token (l : string) : string :=
  List.last (split l) EmptyString.

Fixpoint no_newline (s : string) : bool :=
  match s with
  | EmptyString => true
  | String c s' => negb (Ascii.eqb c newline) && no_newline s'
  end.

(** Within one line: the text from the first occurrence of [lit] on. *)
Fixpoint first_match (lit l : string) : option string :=
  if startswith lit l then Some l
  else match l with
       | EmptyString => None
       | String _ l' => first_match lit l'
       end.

Definition opt_list (o : option string) : list string :=
  match o with
  | Some m => [m]
  | None => []
  end.

Fixpoint drop (n : nat) (s : string) : string :=
  match n, s with
  | O, _ => s
  | S _, EmptyString => EmptyString
  | S k, String _ s' => drop k s'
  end.

(** The longest prefix whose characters all satisfy [f]. *)
Fixpoint span (f : ascii -> bool) (s : string) : string :=
  match s with
  | EmptyString => EmptyString
  | String c s' => if f c then String c (span f s') else EmptyString
  end.

Definition dot : ascii := "."%char.
Definition is_dot (c : ascii) : bool := Ascii.eqb c dot.
Definition is_digit_or_dot (c : ascii) : bool := isdigit c || is_dot c.

(** [re.findall] for the pattern [Version: ] followed by a group of one
    or more digits and dots: the captured groups. *)
Fixpoint findall_version_go (skip : nat) (s : string) : list string :=
  match s with
  | EmptyString => []
  | String _ s' =>
      match skip with
      | S k => findall_version_go k s'
      | O =>
          if startswith "Version: " s
          then match span is_digit_or_dot (drop 9 s) with
               | EmptyString => findall_version_go 0 s'
               | cap => cap :: findall_version_go (8 + String.length cap) s'
               end
          else findall_version_go 0 s'
      end
  end.

Definition re_findall_version (s : string) : list string :=
  findall_version_go 0 s.

(** [re.findall] for the pattern [Version: ] followed by a group holding
    the rest of the line: the captured groups. *)
Definition re_findall_version_line (s : string) : list string :=
  List.map (drop 9) (re_findall_dotstar "Version: " s).

(** [s.split(sep)] for a one-character separator. *)
Fixpoint split_on (sep : ascii) (s : string) : list string :=
  match s with
  | EmptyString => [EmptyString]
  | String c s' =>
      if Ascii.eqb c sep then EmptyString :: split_on sep s'
      else match split_on sep s' with
           | x :: xs => String c x :: xs
           | [] => [String c EmptyString]
           end
  end.

(** [os.path.basename]: the text after the last slash. *)
Fixpoint basename (s : string) : string :=
  match s with
  | EmptyString => EmptyString
  | String c s' =>
      if contains "/" s then basename s' else s
  end.

End Py.

(** ** Values exchanged with the avocado library and the host *)

(** [process.CmdResult]: what running a command yields. *)
Record CmdResult := mkResult {
  exit_status : Z;
  stdout : string;
  stderr : string
}.

(** [distro.detect()]: the (name, version, release) triple of the host. *)
Record Distro := mkDistro {
  name : string;
  version : string;
  release : string
}.

(** The four classes of [backend_mapping]. *)
Inductive Backend :=
| ScyllaAptBackend
| ScyllaYumBackend
| ScyllaDnfBackend
| ZypperBackend.

(** Exceptions the script raises or lets through. *)
Inductive exn :=
| CmdError (cmd : string) (result : CmdResult)
| IndexError
| AttributeError
| IOError (path : string)
| AssertionError (msg : string)
| NotImplementedError (msg : string)
| StartServiceError (msg : string)
| StopServiceError (msg : string)
| RestartServiceError (msg : string)
| InstallPackageError (msg : string)
| TestSkipError (msg : string).

Inductive Result (A : Type) :=
| Ok (a : A)
| Raise (e : exn).
Arguments Ok {A} a.
Arguments Raise {A} e.

(** Every interaction with the outside world, as recorded in the trace. *)
Inductive Call :=
| c_run (cmd : string) (sudo : bool)    (* process.run / process.system *)
| c_start (srv : string)                (* ServiceManager().start *)
| c_stop (srv : string)
| c_restart (srv : string)
| c_status (srv : string)
| c_name_of_init                        (* service.get_name_of_init *)
| c_port_free (port : Z) (host : string)
| c_package_management                  (* SystemInspector().get_package_management *)
| c_sleep (secs : Z)                    (* time.sleep inside wait.wait_for *)
| c_exists (path : string)
| c_ismount (path : string)
| c_realpath (path : string)
| c_read (path : string)
| c_detect                              (* distro.detect *)
| c_mknod (path : string).

(** What the host answers.  Every oracle sees the calls made so far, so the
    host may change over time and in reaction to the script. *)
Record Env := mkEnv {
  run_out : list Call -> string -> bool -> CmdResult;
  status_out : list Call -> string -> bool;
  init_out : list Call -> string;
  port_free_out : list Call -> Z -> string -> bool;
  package_management_out : list Call -> string;
  exists_out : list Call -> string -> bool;
  ismount_out : list Call -> string -> bool;
  realpath_out : list Call -> string -> string;
  read_out : list Call -> string -> option string;
  detect_out : list Call -> Distro;
  distro_str : Distro -> string;
  setup_file_done : string;
  (* attributes and command lines of the avocado backends *)
  base_command : Backend -> string;
  dpkg_force_confdef : string;
  inherited_command : Backend -> string -> option string -> string;
  (* pkg_resources ordering outside dotted-numeric versions *)
  legacy_version_ge : string -> string -> bool
}.

(** [ScyllaSoftwareManager]: the lazily resolved backend. *)
Record ScyllaSoftwareManager := mkManager {
  initialized : bool;
  backend : option Backend
}.

(** [ScyllaSoftwareManager.__init__] *)
Definition new_manager : ScyllaSoftwareManager :=
  {| initialized := false; backend := None |}.

Record State := mkState {
  trace : list Call;
  SCRIPTLET_FAILURE_LIST : list string;
  sw_manager : ScyllaSoftwareManager
}.

(** The state of a fresh process. *)
Definition initial_state : State :=
  {| trace := []; SCRIPTLET_FAILURE_LIST := []; sw_manager := new_manager |}.

(** ** The state-and-exception monad *)

Definition M (A : Type) : Type := State -> Result A * State.

Definition ret {A} (a : A) : M A := fun st => (Ok a, st).

Definition bind {A B} (m : M A) (k : A -> M B) : M B :=
  fun st =>
    match m st with
    | (Ok a, st') => k a st'
    | (Raise e, st') => (Raise e, st')
    end.

Definition raise {A} (e : exn) : M A := fun st => (Raise e, st).

(** A pure computation that may raise. *)
Definition lift {A} (r : Result A) : M A := fun st => (r, st).

Declare Scope py_scope.
Delimit Scope py_scope with py.
Notation "x <- c ;; k" := (bind c (fun x => k))
  (at level 61, c at next level, right associativity) : py_scope.
Notation "c ;; k" := (bind c (fun _ => k))
  (at level 61, right associativity) : py_scope.
Open Scope py_scope.

(** [try: body except process.CmdError: handler] *)
Definition except_CmdError {A} (body handler : M A) : M A :=
  fun st =>
    match body st with
    | (Raise (CmdError _ _), st') => handler st'
    | r => r
    end.

(** [for x in l: body x] *)
Fixpoint for_each {A} (l : list A) (body : A -> M unit) : M unit :=
  match l with
  | [] => ret tt
  | x :: l' => body x ;; for_each l' body
  end.

(** [assert cond, msg] *)
Definition assert (cond : bool) (msg : string) : M unit :=
  if cond then ret tt else raise (AssertionError msg).

(** [l[-1]] *)
Definition last_item (l : list string) : Result string :=
  match l with
  | [] => Raise IndexError
  | _ => Ok (List.last l EmptyString)
  end.

(** [l[0]] *)
Definition first_item (l : list string) : Result string :=
  match l with
  | [] => Raise IndexError
  | x :: _ => Ok x
  end.

Definition record (c : Call) : M unit :=
  fun st => (Ok tt, {| trace := (trace st ++ [c])%list;
                       SCRIPTLET_FAILURE_LIST := SCRIPTLET_FAILURE_LIST st;
                       sw_manager := sw_manager st |}).

Definition get_trace : M (list Call) := fun st => (Ok (trace st), st).

(** ** Version ordering

    [pkg_resources.parse_version] is a library function; the script only
    compares its results.  Section 9 of the specification documents the
    ordering the script relies on as numeric segment comparison.  That
    ordering is defined here for versions made of dot-separated decimal
    numbers; for any other string the library's answer is left to the
    environment. *)

Module Version.

Fixpoint digits_value (acc : N) (s : string) : option N :=
  match s with
  | EmptyString => Some acc
  | String c s' =>
      if Py.isdigit c
      then digits_value (acc * 10 + N.of_nat (nat_of_ascii c - 48)) s'
      else None
  end.

Definition segment (s : string) : option N :=
  match s with
  | EmptyString => None
  | _ => digits_value 0 s
  end.

Fixpoint segments (l : list string) : option (list N) :=
  match l with
  | [] => Some []
  | x :: l' =>
      match segment x, segments l' with
      | Some n, Some ns => Some (n :: ns)
      | _, _ => None
      end
  end.

(** Modelled from the spec: the release numbers [parse_version] reads off
    a version made of dot-separated decimal numbers; [None] for any other
    string. *)
Definition parse_dotted (s : string) : option (list N) :=
  segments (Py.split_on Py.dot s).

Fixpoint all_zero (l : list N) : bool :=
  match l with
  | [] => true
  | n :: l' => N.eqb n 0 && all_zero l'
  end.

(** Modelled from the spec: numeric segment comparison, [a >= b] on
    release numbers, segment by segment; a missing trailing segment
    counts as zero. *)
Fixpoint release_ge (a b : list N) : bool :=
  match a, b with
  | _, [] => true
  | [], _ => all_zero b
  | x :: a', y :: b' =>
      if N.ltb y x then true
      else if N.ltb x y then false
      else release_ge a' b'
  end.

End Version.

(** ** The script *)

Section Program.

Variable env : Env.

(** *** Primitives of the avocado library *)

(** Make a call: the host answers from the calls made before it. *)
Definition ask {A} (c : Call) (answer : list Call -> A) : M A :=
  t <- get_trace ;; record c ;; ret (answer t).

(** [process.run(cmd, sudo=..., ignore_status=...)] and [process.system]:
    a non-zero exit status raises [CmdError] unless it is ignored. *)
Definition process_run (cmd : string) (sudo ignore_status : bool)
  : M CmdResult :=
  result <- ask (c_run cmd sudo) (fun t => run_out env t cmd sudo) ;;
  if ignore_status || Z.eqb (exit_status result) 0
  then ret result
  else raise (CmdError cmd result).

Definition srv_start (srv : string) : M unit := record (c_start srv).
Definition srv_stop (srv : string) : M unit := record (c_stop srv).
Definition srv_restart (srv : string) : M unit := record (c_restart srv).
Definition srv_status (srv : string) : M bool :=
  ask (c_status srv) (fun t => status_out env t srv).
Definition get_name_of_init : M string :=
  ask c_name_of_init (init_out env).
Definition is_port_free (port : Z) (host : string) : M bool :=
  ask (c_port_free port host) (fun t => port_free_out env t port host).
Definition path_exists (p : string) : M bool :=
  ask (c_exists p) (fun t => exists_out env t p).
Definition path_ismount (p : string) : M bool :=
  ask (c_ismount p) (fun t => ismount_out env t p).
Definition path_realpath (p : string) : M string :=
  ask (c_realpath p) (fun t => realpath_out env t p).
Definition read_file (p : string) : M string :=
  content <- ask (c_read p) (fun t => read_out env t p) ;;
  match content with
  | Some text => ret text
  | None => raise (IOError p)
  end.
Definition distro_detect : M Distro := ask c_detect (detect_out env).

(** Modelled from the spec: [wait.wait_for(func, timeout, step)] is a
    library function.  Section 5 gives its contract: the predicate is
    re-evaluated at each step until it holds or the timeout elapses.
    Time is virtual here: evaluating the predicate takes none and each
    sleep takes [step] seconds, so the predicate is polled at
    0, step, 2*step, ... while the elapsed time is below [timeout].
    The result is the predicate's truthy value, or [None] on timeout. *)
Fixpoint wait_for_loop (polls : nat) (func : M bool) (step : Z)
  : M (option bool) :=
  match polls with
  | O => ret None
  | S polls' =>
      output <- func ;;
      if (output : bool) then ret (Some output)
      else record (c_sleep step) ;; wait_for_loop polls' func step
  end.

Definition polls_within (timeout step : Z) : nat :=
  Z.to_nat ((timeout + step - 1) / step).

Definition wait_for (func : M bool) (timeout step : Z) : M (option bool) :=
  wait_for_loop (polls_within timeout step) func step.

(** *** Command Result Inspector *)

(** The literal part of [failure_pattern]; the pattern ends in [.*]. *)
Definition failure_pattern : string :=
  "scriptlet failure in rpm package scylla".

Definition SCRIPTLET_FAILURE_LIST_append (pkg : string) : M unit :=
  fun st => (Ok tt, {| trace := trace st;
                       SCRIPTLET_FAILURE_LIST :=
                         (SCRIPTLET_FAILURE_LIST st ++ [pkg])%list;
                       sw_manager := sw_manager st |}).

(** [_search_scriptlet_failure]; the local list [pkgs] is written and
    never read, so it is not carried. *)
Definition _search_scriptlet_failure (result : CmdResult) : M unit :=
  let output := stdout result ++ stderr result in
  if Py.re_search_dotstar failure_pattern output then
    let occurrences := Py.re_findall_dotstar failure_pattern output in
    for_each occurrences (fun occurrence =>
      pkg <- lift (last_item (Py.split occurrence)) ;;
      SCRIPTLET_FAILURE_LIST_append pkg)
  else ret tt.

(** *** Package backends *)

(** Modelled from the spec: the methods a backend inherits from the
    avocado classes ([AptBackend.install], [ZypperBackend.install],
    [YumBackend.upgrade], [remove], ...) are library code.  Section 4.2
    gives their contract: build the ecosystem's command, execute it with
    elevated privileges, and return whether it exited successfully; they
    do not raise.  The inspector and its registry are globals of the
    script, defined after the library is imported, so no inherited method
    reaches them. *)
Definition inherited (b : Backend) (method : string) (arg : option string)
  : M bool :=
  except_CmdError
    (process_run (inherited_command env b method arg) true false ;;
     ret true)
    (ret false).

(** [ScyllaYumBackend.install] and [ScyllaDnfBackend.install] (the same
    body in both classes). *)
Definition scylla_rpm_install (b : Backend) (name : string) : M bool :=
  let i_cmd := base_command env b ++ " " ++ "install" ++ " " ++ name in
  except_CmdError
    (result <- process_run i_cmd true false ;;
     _search_scriptlet_failure result ;;
     ret true)
    (ret false).

(** [backend.install(name)], by method resolution order. *)
Definition install (b : Backend) (name : string) : M bool :=
  match b with
  | ScyllaYumBackend => scylla_rpm_install ScyllaYumBackend name
  | ScyllaDnfBackend => scylla_rpm_install ScyllaDnfBackend name
  | ScyllaAptBackend => inherited ScyllaAptBackend "install" (Some name)
  | ZypperBackend => inherited ZypperBackend "install" (Some name)
  end.

(** [update_pkg_list], local to [ScyllaAptBackend.upgrade]. *)
Definition update_pkg_list : M bool :=
  let ud_command := "update" in
  let ud_cmd := base_command env ScyllaAptBackend ++ " " ++ ud_command in
  except_CmdError (process_run ud_cmd false false ;; ret true) (ret false).

(** Truthiness of an optional string argument. *)
Definition truthy (name : option string) : option string :=
  match name with
  | Some EmptyString => None
  | _ => name
  end.

(** [ScyllaAptBackend.upgrade] *)
Definition ScyllaAptBackend_upgrade (name : option string) : M bool :=
  wait_for update_pkg_list 300 30 ;;
  let up_cmd :=
    match truthy name with
    | Some n =>
        Py.join " " [base_command env ScyllaAptBackend;
                     dpkg_force_confdef env; "install --only-upgrade"; n]
    | None =>
        Py.join " " [base_command env ScyllaAptBackend;
                     dpkg_force_confdef env; "upgrade"]
    end in
  except_CmdError (process_run up_cmd true false ;; ret true) (ret false).

(** [backend.upgrade(name)], by method resolution order. *)
Definition upgrade (b : Backend) (name : option string) : M bool :=
  match b with
  | ScyllaAptBackend => ScyllaAptBackend_upgrade name
  | _ => inherited b "upgrade" name
  end.

(** [backend.remove(name)]: inherited by every class. *)
Definition remove (b : Backend) (name : string) : M bool :=
  inherited b "remove" (Some name).

(** *** ScyllaSoftwareManager *)

Definition backend_mapping (backend_type : string) : option Backend :=
  if String.eqb backend_type "apt-get" then Some ScyllaAptBackend
  else if String.eqb backend_type "yum" then Some ScyllaYumBackend
  else if String.eqb backend_type "dnf" then Some ScyllaDnfBackend
  else if String.eqb backend_type "zypper" then Some ZypperBackend
  else None.

Definition get_manager : M ScyllaSoftwareManager :=
  fun st => (Ok (sw_manager st), st).

Definition set_manager (m : ScyllaSoftwareManager) : M unit :=
  fun st => (Ok tt, {| trace := trace st;
                       SCRIPTLET_FAILURE_LIST := SCRIPTLET_FAILURE_LIST st;
                       sw_manager := m |}).

(** [ScyllaSoftwareManager._init_on_demand] *)
Definition _init_on_demand : M unit :=
  self <- get_manager ;;
  if negb (initialized self) then
    backend_type <- ask c_package_management (package_management_out env) ;;
    match backend_mapping backend_type with
    | None =>
        raise (NotImplementedError
                 ("Unimplemented package management system: "
                  ++ backend_type ++ "."))
    | Some b => set_manager {| initialized := true; backend := Some b |}
    end
  else ret tt.

(** [ScyllaSoftwareManager.__getattr__]: the backend whose attribute is
    then looked up. *)
Definition __getattr__ : M Backend :=
  _init_on_demand ;;
  self <- get_manager ;;
  match backend self with
  | Some b => ret b
  | None => raise AttributeError
  end.

Definition sw_manager_install (name : string) : M bool :=
  b <- __getattr__ ;; install b name.
Definition sw_manager_upgrade : M bool :=
  b <- __getattr__ ;; upgrade b None.
Definition sw_manager_remove (name : string) : M bool :=
  b <- __getattr__ ;; remove b name.

(** *** ScyllaServiceManager *)

Definition services : list string := ["scylla-server"; "scylla-jmx"].

(** [_scylla_service_is_up]: each unit's status is queried and the
    answer dropped; the result is whether port 9042 is taken. *)
Definition _scylla_service_is_up : M bool :=
  for_each services (fun srv => srv_status srv ;; ret tt) ;;
  free <- is_port_free 9042 "localhost" ;;
  ret (negb free).

Definition wait_services_up : M unit :=
  let service_start_timeout := 900%Z in
  output <- wait_for _scylla_service_is_up service_start_timeout 5 ;;
  match output with
  | None =>
      raise (StartServiceError
               "Scylla service does not appear to be up after 900 s")
  | Some _ => ret tt
  end.

(** The body shared by the three checks: dump the journal under systemd. *)
Definition dump_journal : M unit :=
  init <- get_name_of_init ;;
  if String.eqb init "systemd"
  then process_run "journalctl -xe" false true ;; ret tt
  else ret tt.

Definition start_services : M unit :=
  for_each services srv_start ;;
  for_each services (fun srv =>
    up <- srv_status srv ;;
    if negb up then
      dump_journal ;;
      raise (StartServiceError
               ("Failed to start service " ++ srv
                ++ " (see logs for details)"))
    else ret tt).

Definition stop_services : M unit :=
  for_each (rev services) srv_stop ;;
  for_each services (fun srv =>
    up <- srv_status srv ;;
    if (up : bool) then
      dump_journal ;;
      raise (StopServiceError
               ("Failed to stop service " ++ srv
                ++ " (see logs for details)"))
    else ret tt).

Definition restart_services : M unit :=
  for_each services srv_restart ;;
  for_each services (fun srv =>
    up <- srv_status srv ;;
    if negb up then
      dump_journal ;;
      raise (RestartServiceError
               ("Failed to restart service " ++ srv
                ++ " (see logs for details)"))
    else ret tt).

(** *** Installers *)

(** [is_systemd] *)
Definition is_systemd : M bool :=
  result <- process_run "cat /proc/1/comm" false false ;;
  ret (Py.contains "systemd" (stdout result)).

(** Modelled from the spec: [parse_version(a) >= parse_version(b)], by
    numeric segment comparison when both are dot-separated decimal
    numbers, and as the environment says otherwise. *)
Definition parse_version_ge (a b : string) : bool :=
  match Version.parse_dotted a, Version.parse_dotted b with
  | Some x, Some y => Version.release_ge x y
  | _, _ => legacy_version_ge env a b
  end.

(** An installer object: its attributes and the two methods a subclass
    of [ScyllaInstallGeneric] provides. *)
Record Installer := mkInstaller {
  mode : string;
  sw_repo_src : option string;
  sw_repo_dst : string;
  setup_ci : M (list string);
  setup_release : M (list string)
}.

(** ['%s' % sw_repo] *)
Definition fmt (sw_repo : option string) : string :=
  match sw_repo with
  | Some s => s
  | None => "None"
  end.

Definition curl (src dst : string) : M unit :=
  process_run ("sudo curl " ++ src ++ " -o " ++ dst) false false ;; ret tt.

Definition run_each (cmds : list string) : M unit :=
  for_each cmds (fun cmd => process_run cmd false false ;; ret tt).

Definition apt_list : string := "/etc/apt/sources.list.d/scylla.list".
Definition yum_repo : string := "/etc/yum.repos.d/scylla.repo".

(** The JRE provisioning of [ScyllaInstallUbuntu1404]. *)
Definition ubuntu1404_jre : list string :=
  ["sudo apt-get install software-properties-common -y";
   "sudo add-apt-repository -y ppa:openjdk-r/ppa";
   "sudo apt-get update";
   "sudo apt-get install -y openjdk-8-jre-headless";
   "sudo update-java-alternatives -s java-1.8.0-openjdk-amd64"].

(** The JRE provisioning of [ScyllaInstallDebian8]. *)
Definition debian8_jre : list string :=
  ["echo 'deb http://http.debian.net/debian jessie-backports main' > /etc/apt/sources.list.d/jessie-backports.list";
   "sudo apt-get update";
   "sudo apt-get install -y -t jessie-backports openjdk-8-jre-headless";
   "sudo update-java-alternatives -s java-1.8.0-openjdk-amd64"].

(** [ScyllaInstallUbuntu1404.setup_ci] *)
Definition ScyllaInstallUbuntu1404_setup_ci (sw_repo : option string)
  : M (list string) :=
  curl (fmt sw_repo) apt_list ;;
  process_run "sudo apt-get update" false false ;;
  result <- process_run "sudo apt-cache show scylla" false false ;;
  v <- lift (first_item (Py.re_findall_version (stdout result))) ;;
  let ver := Py.strip_by Py.is_dot v in
  (if parse_version_ge ver "1.7" then run_each ubuntu1404_jre else ret tt) ;;
  sw_manager_upgrade ;;
  ret ["scylla"].

(** The release set-up shared, up to the package and the JRE steps, by
    [ScyllaInstallUbuntu1404] and [ScyllaInstallDebian8] (and by
    [ScyllaInstallDebian8.setup_ci]). *)
Definition apt_gated_setup (sw_repo : option string) (pkg : string)
           (jre : list string) : M (list string) :=
  curl (fmt sw_repo) apt_list ;;
  process_run "sudo apt-get update" false false ;;
  result <- process_run ("sudo apt-cache show " ++ pkg) false false ;;
  ver <- lift (first_item (Py.re_findall_version_line (stdout result))) ;;
  (if parse_version_ge ver "1.7~rc0" then run_each jre else ret tt) ;;
  sw_manager_upgrade ;;
  ret [pkg].

(** Set-up that only registers the repository and upgrades. *)
Definition plain_setup (sw_repo : option string) (dst pkg : string)
  : M (list string) :=
  curl (fmt sw_repo) dst ;;
  sw_manager_upgrade ;;
  ret [pkg].

Definition new_ScyllaInstallUbuntu1404 (sw_repo : option string)
           (mode : string) : Installer :=
  {| mode := mode; sw_repo_src := sw_repo; sw_repo_dst := apt_list;
     setup_ci := ScyllaInstallUbuntu1404_setup_ci sw_repo;
     setup_release :=
       apt_gated_setup sw_repo "scylla-enterprise" ubuntu1404_jre |}.

Definition new_ScyllaInstallUbuntu1604 (sw_repo : option string)
           (mode : string) : Installer :=
  {| mode := mode; sw_repo_src := sw_repo; sw_repo_dst := apt_list;
     setup_ci := plain_setup sw_repo apt_list "scylla";
     setup_release := plain_setup sw_repo apt_list "scylla-enterprise" |}.

Definition new_ScyllaInstallDebian8 (sw_repo : option string)
           (mode : string) : Installer :=
  {| mode := mode; sw_repo_src := sw_repo; sw_repo_dst := apt_list;
     setup_ci := apt_gated_setup sw_repo "scylla" debian8_jre;
     setup_release :=
       apt_gated_setup sw_repo "scylla-enterprise" debian8_jre |}.

(** [ScyllaInstallFedora22.setup_release] *)
Definition ScyllaInstallFedora22_setup_release (mode : string)
  : M (list string) :=
  let repo_src_1_0 :=
    "http://downloads.scylladb.com/rpm/fedora/scylla-1.0.repo" in
  let repo_src_1_1 :=
    "http://downloads.scylladb.com/rpm/fedora/scylla-1.1.repo" in
  let repo_src_1_2 :=
    "http://downloads.scylladb.com/rpm/fedora/scylla-1.2.repo" in
  let repo_src_unstable :=
    "http://downloads.scylladb.com/rpm/unstable/fedora/master/latest/scylla.repo" in
  let '(repo_src, pkg_list) :=
    if String.eqb mode "1.0"
    then (repo_src_1_0, ["scylla-server"; "scylla-jmx"; "scylla-tools"])
    else if String.eqb mode "1.1"
    then (repo_src_1_1, ["scylla-server"; "scylla-jmx"; "scylla-tools"])
    else if String.eqb mode "1.2"
    then (repo_src_1_2, ["scylla"])
    else if String.eqb mode "unstable"
    then (repo_src_unstable, ["scylla"])
    else (repo_src_1_1, []) in
  curl repo_src yum_repo ;;
  sw_manager_upgrade ;;
  ret pkg_list.

Definition new_ScyllaInstallFedora22 (sw_repo : option string)
           (mode : string) : Installer :=
  {| mode := mode; sw_repo_src := sw_repo; sw_repo_dst := yum_repo;
     setup_ci := plain_setup sw_repo yum_repo "scylla";
     setup_release := ScyllaInstallFedora22_setup_release mode |}.

(** [ScyllaInstallCentOS._centos_remove_system_packages] *)
Definition _centos_remove_system_packages : M unit :=
  sw_manager_remove "boost-thread" ;;
  sw_manager_remove "boost-system" ;;
  sw_manager_remove "abrt" ;;
  ret tt.

Definition new_ScyllaInstallCentOS7 (sw_repo : option string)
           (mode : string) : Installer :=
  {| mode := mode; sw_repo_src := sw_repo; sw_repo_dst := yum_repo;
     setup_ci :=
       _centos_remove_system_packages ;;
       plain_setup sw_repo yum_repo "scylla";
     setup_release :=
       _centos_remove_system_packages ;;
       plain_setup sw_repo yum_repo "scylla-enterprise" |}.

(** [ScyllaInstallGeneric.try_report_uuid] *)
Definition try_report_uuid : M unit :=
  let uuid_path := "/var/lib/scylla-housekeeping/housekeeping.uuid" in
  let mark_path :=
    "/var/lib/scylla-housekeeping/housekeeping.uuid.marked" in
  let cmd (uuid : string) :=
    "curl " ++ String Py.dquote
      ("https://i6a5h9l1kl.execute-api.us-east-1.amazonaws.com/prod/check_version?uu="
       ++ uuid ++ "&mark=scylla" ++ String Py.dquote EmptyString) in
  wait_for (path_exists uuid_path) 30 5 ;;
  generated <- path_exists uuid_path ;;
  unmarked <- (if (generated : bool)
               then marked <- path_exists mark_path ;; ret (negb marked)
               else ret false) ;;
  if (unmarked : bool) then
    content <- read_file uuid_path ;;
    let uuid := Py.strip content in
    process_run (cmd uuid) false false ;;
    process_run ("sudo -u scylla touch " ++ mark_path) false false ;;
    ret tt
  else ret tt.

(** The loop of [run] over the resolved packages. *)
Definition install_packages (pkgs : list string) : M unit :=
  for_each pkgs (fun pkg =>
    installed <- sw_manager_install pkg ;;
    if negb installed then
      raise (InstallPackageError
               ("Package " ++ Py.basename pkg
                ++ " could not be installed (see logs for details)"))
    else ret tt).

(** What [run] does after the packages are installed: host set-up,
    service start and the verification pass. *)
Definition setup_and_verify : M unit :=
  (* enable raid setup when second disk exists *)
  let setup_cmd := "sudo /usr/lib/scylla/scylla_setup --nic eth0" in
  result <- process_run "ls /dev/[hvs]db" false true ;;
  let devlist := Py.split (stdout result) in
  with_disks <- match devlist with
                | [] => ret false
                | _ => mounted <- path_ismount "/var/lib/scylla" ;;
                       ret (negb mounted)
                end ;;
  let setup_cmd :=
    if (with_disks : bool)
    then setup_cmd ++ " --disks " ++ List.last devlist EmptyString
    else setup_cmd ++ " --no-raid-setup" in
  exporter <- path_exists "/usr/bin/node_exporter" ;;
  let setup_cmd :=
    if (exporter : bool) then setup_cmd ++ " --no-node-exporter"
    else setup_cmd in
  script_content <- read_file "/usr/lib/scylla/scylla_setup" ;;
  let setup_cmd :=
    if Py.contains "--no-cpuscaling-setup" script_content
    then setup_cmd ++ " --no-cpuscaling-setup" else setup_cmd in
  process_run setup_cmd false false ;;
  start_services ;;
  wait_services_up ;;
  try_report_uuid ;;
  (* verify SELinux setup on Red Hat variants *)
  detected_distro <- distro_detect ;;
  let distro_name := Py.lower (name detected_distro) in
  let is_debian_variant :=
    Py.contains "ubuntu" distro_name || Py.contains "debian" distro_name in
  (if negb is_debian_variant then
     result <- process_run "getenforce" false false ;;
     assert (negb (Py.contains "Enforcing" (stdout result)))
            "SELinux is still actived"
   else ret tt) ;;
  (* verify node_exporter install *)
  exporter <- path_exists "/usr/bin/node_exporter" ;;
  assert exporter "node_exporter isn't installed" ;;
  (* verify raid setup *)
  match devlist with
  | [] => ret tt
  | _ => mounted <- path_ismount "/var/lib/scylla" ;;
         assert mounted
           "RAID setup failed, scylla directory isn't mounted rightly"
  end ;;
  (* verify ntp *)
  (if is_debian_variant
   then process_run "service ntp status" false false
   else process_run "systemctl status ntpd" false false) ;;
  (* verify coredump setup *)
  systemd <- is_systemd ;;
  (if systemd && negb (Py.contains "debian" distro_name) then
     result <- process_run "coredumpctl info" false true ;;
     assert (String.eqb "No coredumps found." (Py.strip (stderr result)))
            "Coredump info doesn't work" ;;
     match devlist with
     | [] => ret tt
     | _ => real <- path_realpath "/var/lib/systemd/coredump" ;;
            assert (String.eqb real "/var/lib/scylla/coredump")
              "Coredump directory isn't pointed to raid disk"
     end
   else
     result <- process_run "sysctl kernel.core_pattern" false false ;;
     assert (Py.contains "scylla_save_coredump" (stdout result))
            EmptyString) ;;
  (* verify io and sysconfig setup *)
  systemd <- is_systemd ;;
  if (systemd : bool) then
    process_run "systemctl status scylla-server" false false ;;
    process_run "systemctl status collectd" false false ;;
    ret tt
  else
    result <- process_run "service scylla-server status" false false ;;
    assert (Py.contains "running" (stdout result)) EmptyString ;;
    result <- process_run "service collectd status" false false ;;
    assert (Py.contains "running" (stdout result)) EmptyString.

(** [ScyllaInstallGeneric.run]; [self.sw_manager.upgrade] is looked up
    once, before [wait_for] starts calling it. *)
Definition run (self : Installer) : M unit :=
  b <- __getattr__ ;;
  wait_for (upgrade b None) 300 30 ;;
  let get_packages :=
    if String.eqb (mode self) "ci" then setup_ci self
    else setup_release self in
  pkgs <- get_packages ;;
  install_packages pkgs ;;
  setup_and_verify.

(** *** ScyllaArtifactSanity: the dispatcher *)

(** The installer classes. *)
Inductive Variant :=
| ScyllaInstallAMI
| ScyllaInstallUbuntu1404
| ScyllaInstallUbuntu1604
| ScyllaInstallDebian8
| ScyllaInstallFedora22
| ScyllaInstallCentOS7.

(** The test parameters read by [scylla_setup]; [ami] is the outcome of
    [params.get('ami', default=False) is True]. *)
Record Params := mkParams {
  sw_repo : option string;
  param_mode : string;
  ami : bool
}.

(** The [if ami: ... elif ... else] chain of [scylla_setup]; [None] is
    its [else] branch. *)
Definition select_installer (ami : bool) (detected_distro : Distro)
  : option Variant :=
  let lname := Py.lower (name detected_distro) in
  let fedora_22 := String.eqb lname "fedora"
                   && String.eqb (version detected_distro) "22" in
  let ubuntu_14_04 := String.eqb lname "ubuntu"
                      && String.eqb (version detected_distro) "14"
                      && String.eqb (release detected_distro) "04" in
  let ubuntu_16_04 := String.eqb lname "ubuntu"
                      && String.eqb (version detected_distro) "16"
                      && String.eqb (release detected_distro) "04" in
  let debian_8 := String.eqb lname "debian"
                  && String.eqb (version detected_distro) "8" in
  let centos_7 := String.eqb lname "centos"
                  && String.eqb (version detected_distro) "7" in
  if ami then Some ScyllaInstallAMI
  else if ubuntu_14_04 then Some ScyllaInstallUbuntu1404
  else if ubuntu_16_04 then Some ScyllaInstallUbuntu1604
  else if debian_8 then Some ScyllaInstallDebian8
  else if fedora_22 then Some ScyllaInstallFedora22
  else if centos_7 then Some ScyllaInstallCentOS7
  else None.

(** [ScyllaInstallAMI.run] checks the network driver and the CPU pinning
    of a cloud image; it is kept abstract. *)
Variable ScyllaInstallAMI_run : M unit.

(** [installer.run()] for the selected class. *)
Definition installer_run (v : Variant) (sw_repo : option string)
           (mode : string) : M unit :=
  match v with
  | ScyllaInstallAMI => ScyllaInstallAMI_run
  | ScyllaInstallUbuntu1404 => run (new_ScyllaInstallUbuntu1404 sw_repo mode)
  | ScyllaInstallUbuntu1604 => run (new_ScyllaInstallUbuntu1604 sw_repo mode)
  | ScyllaInstallDebian8 => run (new_ScyllaInstallDebian8 sw_repo mode)
  | ScyllaInstallFedora22 => run (new_ScyllaInstallFedora22 sw_repo mode)
  | ScyllaInstallCentOS7 => run (new_ScyllaInstallCentOS7 sw_repo mode)
  end.

(** [ScyllaArtifactSanity.scylla_setup].  The log-collection thread is
    not part of the model.  [self.skip] raises avocado's skip
    exception, so the [installer.run()] after the chain is not reached
    on the [else] branch. *)
Definition scylla_setup (params : Params) : M unit :=
  detected_distro <- distro_detect ;;
  match select_installer (ami params) detected_distro with
  | Some installer =>
      installer_run installer (sw_repo params) (param_mode params) ;;
      record (c_mknod (setup_file_done env))
  | None =>
      raise (TestSkipError
               ("Unsupported OS: " ++ distro_str env detected_distro))
  end.

End Program.

(** ** Reading the specification

    What follows puts the wording of the specification into definitions,
    to be compared with the script, and gives the hosts used as concrete
    inputs. *)

Definition with_failures (st : State) (l : list string) : State :=
  {| trace := trace st; SCRIPTLET_FAILURE_LIST := l;
     sw_manager := sw_manager st |}.

Definition with_trace (st : State) (t : list Call) : State :=
  {| trace := t; SCRIPTLET_FAILURE_LIST := SCRIPTLET_FAILURE_LIST st;
     sw_manager := sw_manager st |}.

(** The marker of the specification's example. *)
Definition marker_foo : string :=
  "scriptlet failure in rpm package scylla-foo".

(** What the inspector records for an output, line by line: the last
    token of every line that holds the failure pattern. *)
Definition inspector_findings (output : string) : list string :=
  List.map Py.last_token
    (List.filter (Py.contains failure_pattern) (Py.lines output)).

(** The number of lines that hold the failure pattern. *)
Definition failure_lines (output : string) : nat :=
  List.length (List.filter (Py.contains failure_pattern) (Py.lines output)).

(** Every line that holds the failure pattern ends with the marker. *)
Definition marker_ends_lines (output : string) : bool :=
  List.forallb (fun l => implb (Py.contains failure_pattern l)
                               (Py.endswith marker_foo l))
               (Py.lines output).

(** The inspector as the specification words it: when the output holds
    the marker, [scylla-foo] is appended once per occurrence of the
    marker. *)
Definition inspector_as_stated : Prop :=
  forall (result : CmdResult) (st : State),
    let output := stdout result ++ stderr result in
    Py.contains marker_foo output = true ->
    exists added,
      _search_scriptlet_failure result st
      = (Ok tt,
         with_failures st (SCRIPTLET_FAILURE_LIST st ++ added)%list)
      /\ List.count_occ string_dec added "scylla-foo"
         = Py.count_occ marker_foo output.

(** The command an install call executes on a backend. *)
Definition install_command (env : Env) (b : Backend) (name : string)
  : string :=
  match b with
  | ScyllaYumBackend | ScyllaDnfBackend =>
      base_command env b ++ " install " ++ name
  | ScyllaAptBackend | ZypperBackend =>
      inherited_command env b "install" (Some name)
  end.

(** The classes of this script that override [install]. *)
Definition overrides_install (b : Backend) : bool :=
  match b with
  | ScyllaYumBackend | ScyllaDnfBackend => true
  | ScyllaAptBackend | ZypperBackend => false
  end.

(** What the host answers to an install call made in state [st]. *)
Definition install_result (env : Env) (b : Backend) (name : string)
           (st : State) : CmdResult :=
  run_out env (trace st) (install_command env b name) true.

(** The state after one more call. *)
Definition called (st : State) (c : Call) : State :=
  with_trace st (trace st ++ [c])%list.

(** Every install call as the specification words it: whatever the
    backend, when the command's output holds a scriptlet-failure marker
    the registry is appended to. *)
Definition every_install_inspected : Prop :=
  forall (env : Env) (b : Backend) (name : string) (st : State),
    let result := install_result env b name st in
    Py.contains failure_pattern (stdout result ++ stderr result) = true ->
    exists added,
      added <> []
      /\ SCRIPTLET_FAILURE_LIST (snd (install env b name st))
         = (SCRIPTLET_FAILURE_LIST st ++ added)%list.

(** The backend table of the specification: tool name to variant. *)
Inductive tool_backend : string -> Backend -> Prop :=
| tool_apt : tool_backend "apt-get" ScyllaAptBackend
| tool_yum : tool_backend "yum" ScyllaYumBackend
| tool_dnf : tool_backend "dnf" ScyllaDnfBackend
| tool_zypper : tool_backend "zypper" ZypperBackend.

Definition resolved (b : Backend) : ScyllaSoftwareManager :=
  {| initialized := true; backend := Some b |}.

Definition with_manager (st : State) (m : ScyllaSoftwareManager) : State :=
  {| trace := trace st; SCRIPTLET_FAILURE_LIST := SCRIPTLET_FAILURE_LIST st;
     sw_manager := m |}.

(** The first unit, in list order, whose status is not [want] when the
    units are asked one after the other from trace [t] on. *)
Definition first_unit_not (env : Env) (t : list Call) (want : bool)
  : option string :=
  if Bool.eqb (status_out env t "scylla-server") want then
    if Bool.eqb (status_out env (t ++ [c_status "scylla-server"])%list
                            "scylla-jmx") want
    then None else Some "scylla-jmx"
  else Some "scylla-server".

(** The outcome of a transition: success, or the operation's own error
    naming the unit. *)
Definition transition_outcome (error : string -> exn) (verb : string)
           (failing : option string) : Result unit :=
  match failing with
  | None => Ok tt
  | Some srv =>
      Raise (error ("Failed to " ++ verb ++ " service " ++ srv
                    ++ " (see logs for details)"))
  end.

(** The calls of one unsuccessful readiness poll. *)
Definition poll_calls : list Call :=
  [c_status "scylla-server"; c_status "scylla-jmx";
   c_port_free 9042 "localhost"; c_sleep 5].

(** The dispatcher's table as the specification lists it. *)
Inductive platform_variant : bool -> Distro -> Variant -> Prop :=
| pv_ami (d : Distro) :
    platform_variant true d ScyllaInstallAMI
| pv_ubuntu_14_04 (d : Distro) :
    Py.lower (name d) = "ubuntu" -> version d = "14" -> release d = "04" ->
    platform_variant false d ScyllaInstallUbuntu1404
| pv_ubuntu_16_04 (d : Distro) :
    Py.lower (name d) = "ubuntu" -> version d = "16" -> release d = "04" ->
    platform_variant false d ScyllaInstallUbuntu1604
| pv_debian_8 (d : Distro) :
    Py.lower (name d) = "debian" -> version d = "8" ->
    platform_variant false d ScyllaInstallDebian8
| pv_fedora_22 (d : Distro) :
    Py.lower (name d) = "fedora" -> version d = "22" ->
    platform_variant false d ScyllaInstallFedora22
| pv_centos_7 (d : Distro) :
    Py.lower (name d) = "centos" -> version d = "7" ->
    platform_variant false d ScyllaInstallCentOS7.

(** The first three commands of [ScyllaInstallUbuntu1404.setup_ci], up
    to the output of [apt-cache show]. *)
Definition ubuntu1404_show (env : Env) (sw_repo : option string)
  : M CmdResult :=
  curl env (fmt sw_repo) apt_list ;;
  process_run env "sudo apt-get update" false false ;;
  process_run env "sudo apt-cache show scylla" false false.

(** The version string [setup_ci] resolves from that output. *)
Definition resolved_version (out : string) : Result string :=
  match first_item (Py.re_findall_version out) with
  | Ok v => Ok (Py.strip_by Py.is_dot v)
  | Raise e => Raise e
  end.

(** Release numbers that denote version 1.7.0 or a higher one. *)
Definition at_least_1_7 (segs : list N) : Prop :=
  match segs with
  | [] => False
  | [major] => (1 < major)%N
  | major :: minor :: _ => (1 < major \/ (major = 1 /\ 7 <= minor))%N
  end.

(** The modes [ScyllaInstallFedora22.setup_release] knows. *)
Definition fedora22_release_modes : list string :=
  ["1.0"; "1.1"; "1.2"; "unstable"].

Definition fedora22_default_repo : string :=
  "http://downloads.scylladb.com/rpm/fedora/scylla-1.1.repo".

(** A run that installs no package: system upgrade, registration of the
    default repository, then host set-up and verification. *)
Definition run_without_installs (env : Env) : M unit :=
  b <- __getattr__ env ;;
  wait_for (upgrade env b None) 300 30 ;;
  curl env fedora22_default_repo yum_repo ;;
  sw_manager_upgrade env ;;
  setup_and_verify env.

(** The Fedora 22 run as first stated: for every mode outside the four
    release modes no package is installed. *)
Definition unknown_mode_installs_nothing : Prop :=
  forall (env : Env) (sw_repo : option string) (mode : string) (st : State),
    ~ In mode fedora22_release_modes ->
    run env (new_ScyllaInstallFedora22 env sw_repo mode) st
    = run_without_installs env st.

(** The trace in which the port is asked at poll [k] (counting from 0). *)
Definition port_query_trace (st : State) (k : nat) : list Call :=
  (trace st ++ List.concat (List.repeat poll_calls k)
   ++ [c_status "scylla-server"; c_status "scylla-jmx"])%list.

(** *** Sample hosts *)

Definition ok_result : CmdResult :=
  {| exit_status := 0; stdout := EmptyString; stderr := EmptyString |}.

Definition sample_base_command (b : Backend) : string :=
  match b with
  | ScyllaAptBackend => "apt-get -y"
  | ScyllaYumBackend => "yum -y"
  | ScyllaDnfBackend => "dnf -y"
  | ZypperBackend => "zypper -n"
  end.

Definition sample_inherited_command (b : Backend) (method : string)
           (arg : option string) : string :=
  match arg with
  | Some a => sample_base_command b ++ " " ++ method ++ " " ++ a
  | None => sample_base_command b ++ " " ++ method
  end.

Definition fedora22 : Distro :=
  {| name := "Fedora"; version := "22"; release := EmptyString |}.

(** Every command prints [out] and exits with [status]. *)
Definition always (status : Z) (out : string) (cmd : string) : CmdResult :=
  {| exit_status := status; stdout := out; stderr := EmptyString |}.

(** The answers of a configured systemd host without core dumps. *)
Definition systemd_answers (cmd : string) : CmdResult :=
  if String.eqb cmd "cat /proc/1/comm"
  then {| exit_status := 0; stdout := "systemd"; stderr := EmptyString |}
  else if String.eqb cmd "coredumpctl info"
  then {| exit_status := 1; stdout := EmptyString;
          stderr := "No coredumps found." |}
  else ok_result.

(** A host of the given distribution and package tool on which a command
    is answered by [answer], the units report [active] and port 9042 is
    free or not as [free] says. *)
Definition host (d : Distro) (tool : string) (answer : string -> CmdResult)
           (active free : bool) : Env :=
  {| run_out := fun _ cmd _ => answer cmd;
     status_out := fun _ _ => active;
     init_out := fun _ => "systemd";
     port_free_out := fun _ _ _ => free;
     package_management_out := fun _ => tool;
     exists_out := fun _ _ => true;
     ismount_out := fun _ _ => true;
     realpath_out := fun _ p => p;
     read_out := fun _ _ => Some EmptyString;
     detect_out := fun _ => d;
     distro_str := fun d => name d ++ " " ++ version d ++ " " ++ release d;
     setup_file_done := "/tmp/scylla-setup-done";
     base_command := sample_base_command;
     dpkg_force_confdef := "-o Dpkg::Options::=--force-confdef";
     inherited_command := sample_inherited_command;
     legacy_version_ge := fun _ _ => false |}.

Definition healthy_host : Env :=
  host fedora22 "yum" systemd_answers true false.

(** A host on which something else holds port 9042 while no unit is
    active. *)
Definition stalled_host : Env :=
  host fedora22 "yum" systemd_answers false false.

Definition arch : Distro :=
  {| name := "Arch"; version := "rolling"; release := EmptyString |}.

(** A host of a distribution the dispatcher does not know. *)
Definition arch_host : Env :=
  host arch "pacman" systemd_answers true false.

(** Test parameters of a release run on a plain host. *)
Definition release_params : Params :=
  {| sw_repo := None; param_mode := "release"; ami := false |}.

Definition ubuntu1404 : Distro :=
  {| name := "Ubuntu"; version := "14"; release := "04" |}.

(** An Ubuntu 14.04 host whose package index offers scylla [ver]. *)
Definition apt_answers (ver : string) (cmd : string) : CmdResult :=
  if String.eqb cmd "sudo apt-cache show scylla"
  then {| exit_status := 0;
          stdout := "Package: scylla" ++ String Py.newline
                    ("Version: " ++ ver ++ String Py.newline
                     "Architecture: amd64");
          stderr := EmptyString |}
  else ok_result.

Definition trusty_host (ver : string) : Env :=
  host ubuntu1404 "apt-get" (apt_answers ver) true false.

(** The state in which [apt-cache show] has just answered. *)
Definition after_show : State :=
  with_trace initial_state
    [c_run "sudo curl None -o /etc/apt/sources.list.d/scylla.list" false;
     c_run "sudo apt-get update" false;
     c_run "sudo apt-cache show scylla" false].

(** A host with an unknown package tool. *)
Definition pacman_host : Env :=
  host fedora22 "pacman" systemd_answers true false.

(** A host whose package tool is dnf. *)
Definition dnf_host : Env :=
  host fedora22 "dnf" systemd_answers true false.

(** A host whose commands succeed and print a scriptlet-failure marker. *)
Definition scriptlet_host : Env :=
  host fedora22 "yum" (always 0 ("Non-fatal POSTIN " ++ marker_foo))
       true false.

(** A host whose commands fail, printing a scriptlet-failure marker. *)
Definition failing_host : Env :=
  host fedora22 "yum" (always 1 ("Non-fatal POSTIN " ++ marker_foo))
       true false.

(** Two markers on one line. *)
Definition two_markers_one_line : CmdResult :=
  {| exit_status := 0;
     stdout := marker_foo ++ " " ++ marker_foo;
     stderr := EmptyString |}.

(** Two lines that end with the marker, among other lines. *)
Definition two_marker_lines : CmdResult :=
  {| exit_status := 0;
     stdout := "Installing : scylla-foo" ++ String Py.newline
               ("Non-fatal POSTIN " ++ marker_foo) ++ String Py.newline
               "Verifying : scylla-foo";
     stderr := "warning: " ++ marker_foo ++ String Py.newline EmptyString |}.

(** ** Further readings of the code

    Names for what the remaining theorems talk about: command lines, the
    calls a step makes, and what a step may change. *)

(** The command [ScyllaAptBackend.upgrade] ends with. *)
Definition apt_upgrade_command (env : Env) (name : option string) : string :=
  match truthy name with
  | Some n =>
      Py.join " " [base_command env ScyllaAptBackend;
                   dpkg_force_confdef env; "install --only-upgrade"; n]
  | None =>
      Py.join " " [base_command env ScyllaAptBackend;
                   dpkg_force_confdef env; "upgrade"]
  end.

(** The command [update_pkg_list] runs. *)
Definition apt_update_command (env : Env) : string :=
  base_command env ScyllaAptBackend ++ " update".

(** The calls of one failed refresh of the package list. *)
Definition refresh_calls (env : Env) : list Call :=
  [c_run (apt_update_command env) false; c_sleep 30].

(** The install calls for a list of packages, in order. *)
Definition install_calls (env : Env) (b : Backend) (pkgs : list string)
  : list Call :=
  List.map (fun pkg => c_run (install_command env b pkg) true) pkgs.

Definition uuid_path : string :=
  "/var/lib/scylla-housekeeping/housekeeping.uuid".
Definition mark_path : string :=
  "/var/lib/scylla-housekeeping/housekeeping.uuid.marked".

(** The calls of one poll for the identifier file that finds nothing. *)
Definition uuid_poll_calls : list Call := [c_exists uuid_path; c_sleep 5].

(** A state whose manager already holds backend [b]. *)
Definition resolved_state (b : Backend) : State :=
  with_manager initial_state (resolved b).

(** A host on which the refresh of the package list always fails while
    every other command succeeds. *)
Definition no_refresh_answers (cmd : string) : CmdResult :=
  if String.eqb cmd "apt-get -y update"
  then {| exit_status := 100; stdout := EmptyString;
          stderr := "E: Could not get lock" |}
  else ok_result.

Definition no_refresh_host : Env :=
  host ubuntu1404 "apt-get" no_refresh_answers true false.

(** A host on which nothing exists on disk. *)
Definition bare_host : Env :=
  {| run_out := run_out healthy_host;
     status_out := status_out healthy_host;
     init_out := init_out healthy_host;
     port_free_out := port_free_out healthy_host;
     package_management_out := package_management_out healthy_host;
     exists_out := fun _ _ => false;
     ismount_out := ismount_out healthy_host;
     realpath_out := realpath_out healthy_host;
     read_out := fun _ _ => None;
     detect_out := detect_out healthy_host;
     distro_str := distro_str healthy_host;
     setup_file_done := setup_file_done healthy_host;
     base_command := base_command healthy_host;
     dpkg_force_confdef := dpkg_force_confdef healthy_host;
     inherited_command := inherited_command healthy_host;
     legacy_version_ge := legacy_version_ge healthy_host |}.

(** The first commands of an apt set-up with a version gate, up to the
    output of [apt-cache show] for [pkg]. *)
Definition apt_show (env : Env) (sw_repo : option string) (pkg : string)
  : M CmdResult :=
  curl env (fmt sw_repo) apt_list ;;
  process_run env "sudo apt-get update" false false ;;
  process_run env ("sudo apt-cache show " ++ pkg) false false.

(** Some position of the text holds [Version: ] followed by a digit or a
    dot. *)
Fixpoint version_field (s : string) : bool :=
  (Py.startswith "Version: " s
   && match Py.drop 9 s with
      | String c _ => Py.is_digit_or_dot c
      | EmptyString => false
      end)
  || match s with
     | EmptyString => false
     | String _ s' => version_field s'
     end.

(** An Ubuntu 14.04 host whose package index does not know scylla. *)
Definition unknown_package_answers (cmd : string) : CmdResult :=
  if String.eqb cmd "sudo apt-cache show scylla"
  then {| exit_status := 0; stdout := EmptyString;
          stderr := "N: Unable to locate package scylla" |}
  else ok_result.

Definition unknown_package_host : Env :=
  host ubuntu1404 "apt-get" unknown_package_answers true false.

(** *** What a step may change *)

Definition is_mknod (c : Call) : bool :=
  match c with
  | c_mknod _ => true
  | _ => false
  end.

Definition is_inspection (c : Call) : bool :=
  match c with
  | c_package_management => true
  | _ => false
  end.

(** How often the package-management tooling is inspected in [calls]. *)
Definition inspections (calls : list Call) : nat :=
  List.length (List.filter is_inspection calls).

(** [st'] is reached from [st] by calls that neither write the sentinel
    nor inspect the tooling, with the registry and the manager as they
    were. *)
Definition steady (st st' : State) : Prop :=
  SCRIPTLET_FAILURE_LIST st' = SCRIPTLET_FAILURE_LIST st
  /\ sw_manager st' = sw_manager st
  /\ exists calls,
      trace st' = (trace st ++ calls)%list
      /\ List.existsb is_mknod calls = false
      /\ List.existsb is_inspection calls = false.

Definition steadyM {A} (m : M A) : Prop :=
  forall st, steady st (snd (m st)).

(** The computation stopped on an unknown package tool. *)
Definition halted {A} (r : Result A) : bool :=
  match r with
  | Raise (NotImplementedError _) => true
  | _ => false
  end.

(** The outcome [out] is reached from [st] by calls that do not write the
    sentinel; the registry has only grown; and either the manager is as
    it was and the tooling was not inspected, or the manager held no
    backend, the tooling was inspected once, and a backend is now stored
    (unless the tool was unknown and the computation stopped there). *)
Definition advances {A} (st : State) (out : Result A * State) : Prop :=
  (exists added,
      SCRIPTLET_FAILURE_LIST (snd out)
      = (SCRIPTLET_FAILURE_LIST st ++ added)%list)
  /\ exists calls,
      trace (snd out) = (trace st ++ calls)%list
      /\ List.existsb is_mknod calls = false
      /\ ((sw_manager (snd out) = sw_manager st /\ inspections calls = 0)
          \/ (initialized (sw_manager st) = false
              /\ inspections calls = 1
              /\ ((exists b, sw_manager (snd out) = resolved b)
                  \/ (sw_manager (snd out) = sw_manager st
                      /\ halted (fst out) = true)))).

Definition advancesM {A} (m : M A) : Prop :=
  forall st, advances st (m st).

(** ** More Python text primitives *)

Module PyText.

Definition cr : ascii := "013"%char.

Definition is_break (c : ascii) : bool :=
  Ascii.eqb c Py.newline || Ascii.eqb c cr.

(** [s.splitlines()] on a Python 2 [str]: lines end at LF, CR or CR LF;
    the line ends are dropped and a final line end opens no empty line. *)
Fixpoint splitlines (s : string) : list string :=
  match s with
  | EmptyString => []
  | String c s' =>
      if Ascii.eqb c Py.newline then EmptyString :: splitlines s'
      else if Ascii.eqb c cr then
        EmptyString ::
        match s' with
        | String c' s'' =>
            if Ascii.eqb c' Py.newline then splitlines s'' else splitlines s'
        | EmptyString => splitlines s'
        end
      else match splitlines s' with
           | l :: ls => String c l :: ls
           | [] => [String c EmptyString]
           end
  end.

Fixpoint no_break (s : string) : bool :=
  match s with
  | EmptyString => true
  | String c s' => negb (is_break c) && no_break s'
  end.

(** [re.findall] for the pattern [^driver:] followed by one whitespace
    character and a group holding the rest of the line; without the
    multi-line flag the pattern can only match at the start of the text. *)
Definition re_findall_driver (s : string) : list string :=
  if Py.startswith "driver:" s then
    match Py.drop 7 s with
    | String c rest => if Py.isspace c then [Py.rest_of_line rest] else []
    | EmptyString => []
    end
  else [].

Definition starts_with_digit (s : string) : bool :=
  match s with
  | String d _ => Py.isdigit d
  | EmptyString => false
  end.

(** The match of [\d+.\d+] that starts at the head of [s], if any.  The
    first [\d+] takes the whole run of digits when a character other than
    a line feed and then a digit follow; otherwise it gives back two
    digits, which a run of three or more allows. *)
Definition version_match_at (s : string) : option string :=
  let run := Py.span Py.isdigit s in
  let k := String.length run in
  match run with
  | EmptyString => None
  | _ =>
      match Py.drop k s with
      | String c rest =>
          if negb (Ascii.eqb c Py.newline) && starts_with_digit rest
          then Some (run ++ String c (Py.span Py.isdigit rest))
          else if (3 <=? k)%nat then Some run else None
      | EmptyString => if (3 <=? k)%nat then Some run else None
      end
  end.

(** [re.findall] for the pattern [(\d+.\d+)]. *)
Fixpoint findall_number_go (skip : nat) (s : string) : list string :=
  match s with
  | EmptyString => []
  | String _ s' =>
      match skip with
      | S k => findall_number_go k s'
      | O =>
          match version_match_at s with
          | Some m => m :: findall_number_go (String.length m - 1) s'
          | None => findall_number_go 0 s'
          end
      end
  end.

Definition re_findall_number (s : string) : list string :=
  findall_number_go 0 s.

End PyText.

(** ** The test class and the cloud-image installer

    The test methods can fail in ways the installers cannot: a missing
    executable, a failed test, a failed unpacking.  Their outcomes extend
    those of the installer code. *)

Inductive Failure :=
| Propagated (e : exn)               (* raised by the code above *)
| ValueError                         (* unpacking the wrong number of values *)
| CmdNotFoundError (cmd : string)    (* path.find_command *)
| TestFail (msg : string).           (* self.fail *)

Inductive Outcome (A : Type) :=
| Done (a : A)
| Fails (f : Failure).
Arguments Done {A} a.
Arguments Fails {A} f.

Definition T (A : Type) : Type := State -> Outcome A * State.

Definition done {A} (a : A) : T A := fun st => (Done a, st).

Definition fail_with {A} (f : Failure) : T A := fun st => (Fails f, st).

Definition and_then {A B} (m : T A) (k : A -> T B) : T B :=
  fun st =>
    match m st with
    | (Done a, st') => k a st'
    | (Fails f, st') => (Fails f, st')
    end.

(** Installer code called from a test method. *)
Definition from_M {A} (m : M A) : T A :=
  fun st =>
    match m st with
    | (Ok a, st') => (Done a, st')
    | (Raise e, st') => (Fails (Propagated e), st')
    end.

Declare Scope test_scope.
Delimit Scope test_scope with test.
Notation "x <- c ;; k" := (and_then c (fun x => k))
  (at level 61, c at next level, right associativity) : test_scope.
Notation "c ;; k" := (and_then c (fun _ => k))
  (at level 61, right associativity) : test_scope.

(** [for x in l: body x] *)
Fixpoint each {A} (l : list A) (body : A -> T unit) : T unit :=
  match l with
  | [] => done tt
  | x :: l' => (body x ;; each l' body)%test
  end.

Definition get_registry : T (list string) :=
  fun st => (Done (SCRIPTLET_FAILURE_LIST st), st).

(** [check_output], local to [run_cassandra_stress]. *)
Definition check_output (result : CmdResult) : T unit :=
  let output := stdout result ++ stderr result in
  let lines := PyText.splitlines output in
  each lines (fun line =>
    if Py.contains "java.io.IOException" line
    then fail_with (TestFail ("cassandra-stress: " ++ Py.strip line))
    else done tt).

Section Suite.

Variable env : Env.

(** [path.find_command]: where the executable is, if anywhere, given the
    calls made so far. *)
Variable find_command_out : list Call -> string -> option string.

Definition find_command (cmd : string) : T string :=
  fun st =>
    match find_command_out (trace st) cmd with
    | Some path => (Done path, st)
    | None => (Fails (CmdNotFoundError cmd), st)
    end.

(** [ScyllaArtifactSanity.run_cassandra_stress]; whether a command
    outlives its timeout shows in the result the host gives. *)
Definition run_cassandra_stress : T unit :=
  (cassandra_stress_exec <- find_command "cassandra-stress" ;;
   let stress_populate :=
     cassandra_stress_exec
     ++ " write n=10000 -mode cql3 native -pop seq=1..10000" in
   result_populate <- from_M (process_run env stress_populate false false) ;;
   check_output result_populate ;;
   let stress_mixed :=
     cassandra_stress_exec
     ++ " mixed duration=1m -mode cql3 native "
     ++ "-rate threads=10 -pop seq=1..10000" in
   result_mixed <- from_M (process_run env stress_mixed false false) ;;
   check_output result_mixed)%test.

(** [ScyllaArtifactSanity.run_nodetool] *)
Definition run_nodetool : T unit :=
  (nodetool_exec <- find_command "nodetool" ;;
   let nodetool := nodetool_exec ++ " status" in
   from_M (process_run env nodetool false false) ;;
   done tt)%test.

(** [ScyllaArtifactSanity.test_after_install] *)
Definition test_after_install : T unit :=
  (run_nodetool ;;
   run_cassandra_stress ;;
   failures <- get_registry ;;
   match failures with
   | [] => done tt
   | _ =>
       fail_with
         (TestFail ("RPM scriptlet failure reported for package(s): "
                    ++ Py.join "," failures))
   end)%test.

(** [ScyllaArtifactSanity.test_after_stop_start] *)
Definition test_after_stop_start : T unit :=
  (from_M (stop_services env) ;;
   from_M (start_services env) ;;
   from_M (wait_services_up env) ;;
   run_nodetool ;;
   run_cassandra_stress)%test.

(** [ScyllaArtifactSanity.test_after_restart] *)
Definition test_after_restart : T unit :=
  (from_M (restart_services env) ;;
   from_M (wait_services_up env) ;;
   run_nodetool ;;
   run_cassandra_stress)%test.

(** [ScyllaInstallAMI.check_used_driver] *)
Definition check_used_driver (expected_driver : string) : M unit :=
  content <- read_file env "/sys/class/net/eth0/address" ;;
  let address := Py.strip content in
  result <- process_run env
              ("curl -s http://169.254.169.254/latest/meta-data/network/interfaces/macs/"
               ++ address ++ "/") false false ;;
  assert (Py.contains "vpc-id" (stdout result))
         ("VPC is not enabled! debug: " ++ stdout result) ;;
  (* check driver information *)
  result <- process_run env "ethtool -i eth0" false false ;;
  used_driver <- lift (first_item (PyText.re_findall_driver (stdout result))) ;;
  let err :=
    "Enhanced networking isn't enabled, current driver: " ++ used_driver
    ++ ", expected: " ++ expected_driver in
  assert (String.eqb expected_driver used_driver) err.

Definition one_of (x : string) (l : list string) : bool :=
  List.existsb (String.eqb x) l.

(** [ScyllaInstallAMI.enhanced_net_enabled].  The attribute
    [is_enterprise] is read but no class sets it, so the method ends
    there with [AttributeError]; the statements after that line are never
    reached. *)
Definition enhanced_net_enabled : T unit :=
  (result <- from_M (process_run env
               "curl -s http://169.254.169.254/latest/meta-data/instance-type"
               false false) ;;
   types <- (if Py.contains "." (stdout result) then
               match Py.split_on Py.dot (stdout result) with
               | [maintype; subtype] => done (maintype, subtype)
               | _ => fail_with ValueError
               end
             else done (stdout result, EmptyString)) ;;
   let maintype := fst types in
   let subtype := snd types in
   (if one_of maintype ["i3"; "p2"; "r4"; "x1"]
       || (String.eqb maintype "m4" && String.eqb subtype "16xlarge")
    then from_M (check_used_driver "ena")
    else if one_of maintype ["c3"; "c4"; "d2"; "i2"; "r3"]
            || String.eqb maintype "m4"
    then from_M (check_used_driver "ixgbevf")
    else done tt) ;;
   result <- from_M (process_run env "scylla --version" false false) ;;
   ver <- from_M (lift (first_item
                          (PyText.re_findall_number (stdout result)))) ;;
   fail_with (Propagated AttributeError))%test.

(** [ScyllaInstallAMI.run] *)
Definition ScyllaInstallAMI_run : T unit :=
  (enhanced_net_enabled ;;
   from_M (wait_services_up env) ;;
   from_M (try_report_uuid env))%test.

End Suite.

(** An executable is found under [/usr/bin]. *)
Definition in_usr_bin (t : list Call) (cmd : string) : option string :=
  Some ("/usr/bin/" ++ cmd).

(** A result of cassandra-stress that reports an I/O error. *)
Definition stress_io_error : CmdResult :=
  {| exit_status := 0;
     stdout := "Connected to cluster" ++ String PyText.cr
               (String Py.newline
                  ("   java.io.IOException: Operation x10 on key(s) [31]  "
                   ++ String Py.newline "END"));
     stderr := EmptyString |}.

(** A test step that leaves the registry and the manager alone. *)
Definition keeps {A} (m : T A) : Prop :=
  forall st, steady st (snd (m st)).

(** A state in which two scriptlet failures are on record. *)
Definition two_failures : State :=
  with_failures initial_state ["scylla-server"; "scylla-jmx"].

(** The calls of one failed attempt at the inherited upgrade. *)
Definition upgrade_poll_calls (env : Env) (b : Backend) : list Call :=
  [c_run (inherited_command env b "upgrade" None) true; c_sleep 30].

(** A Fedora host on which the system upgrade always fails. *)
Definition no_upgrade_answers (cmd : string) : CmdResult :=
  if String.eqb cmd "yum -y upgrade"
  then {| exit_status := 1; stdout := EmptyString;
          stderr := "Error: Cannot retrieve metalink for repository" |}
  else systemd_answers cmd.

Definition no_upgrade_host : Env :=
  host fedora22 "yum" no_upgrade_answers true false.

(** The packages [_centos_remove_system_packages] removes, in order. *)
Definition centos_conflicts : list string :=
  ["boost-thread"; "boost-system"; "abrt"].

(** The remove calls for a list of packages, in order. *)
Definition remove_calls (env : Env) (b : Backend) (pkgs : list string)
  : list Call :=
  List.map (fun pkg => c_run (inherited_command env b "remove" (Some pkg)) true)
           pkgs.

(** The five JRE provisioning steps of Ubuntu 14.04 as the host sees
    them, in the order of [setup_ci]. *)
Definition ubuntu1404_jre_calls : list Call :=
  [c_run "sudo apt-get install software-properties-common -y" false;
   c_run "sudo add-apt-repository -y ppa:openjdk-r/ppa" false;
   c_run "sudo apt-get update" false;
   c_run "sudo apt-get install -y openjdk-8-jre-headless" false;
   c_run "sudo update-java-alternatives -s java-1.8.0-openjdk-amd64" false].

(** Every command among [calls], made one after the other from trace [t]
    on, exits with status 0. *)
Fixpoint all_succeed (env : Env) (t : list Call) (calls : list Call) : Prop :=
  match calls with
  | [] => True
  | c :: rest =>
      match c with
      | c_run cmd sudo => exit_status (run_out env t cmd sudo) = 0%Z
      | _ => True
      end
      /\ all_succeed env (t ++ [c])%list rest
  end.

(** The state a run is in once a fresh manager has resolved backend [b]
    and the inherited upgrade has failed at each of its ten attempts. *)
Definition after_failed_upgrades (env : Env) (b : Backend) (st : State)
  : State :=
  with_manager
    (with_trace st
       (trace st ++ c_package_management
        :: List.concat (List.repeat (upgrade_poll_calls env b) 10))%list)
    (resolved b).

(** * Properties *)

(** ** Facts about the string primitives *)

Module PyFacts.
Import Py.

Lemma append_assoc (a b c : string) : (a ++ b) ++ c = a ++ (b ++ c).
Proof. induction a as [|x a IH]; simpl; [reflexivity | now rewrite IH]. Qed.

Lemma append_empty_r (a : string) : a ++ EmptyString = a.
Proof. induction a as [|x a IH]; simpl; [reflexivity | now rewrite IH]. Qed.

Lemma flush_nonempty (cur : string) : cur <> EmptyString -> flush cur = [cur].
Proof. destruct cur; [congruence | reflexivity]. Qed.

Lemma append_char_nonempty (cur : string) (c : ascii) :
  cur ++ String c EmptyString <> EmptyString.
Proof. destruct cur; discriminate. Qed.

(** A pending token always comes out. *)
Lemma split_go_pending (s cur : string) :
  cur <> EmptyString -> split_go cur s <> [].
Proof.
  revert cur; induction s as [|c s IH]; intros cur Hcur; simpl.
  - rewrite flush_nonempty by assumption. discriminate.
  - destruct (isspace c).
    + rewrite flush_nonempty by assumption. discriminate.
    + apply IH, append_char_nonempty.
Qed.

Lemma split_starts_with_token (c : ascii) (s : string) :
  isspace c = false -> split (String c s) <> [].
Proof.
  intros Hc. unfold split; simpl. rewrite Hc.
  apply split_go_pending. discriminate.
Qed.

Lemma last_app_nonempty {A} (l1 l2 : list A) (d : A) :
  l2 <> [] -> List.last (l1 ++ l2)%list d = List.last l2 d.
Proof.
  intros H. induction l1 as [|x l1 IH]; [reflexivity|].
  simpl. destruct (l1 ++ l2)%list eqn:E.
  - destruct l1; simpl in E; [congruence | discriminate].
  - exact IH.
Qed.

Lemma app_nonempty_r {A} (l1 l2 : list A) : l2 <> [] -> (l1 ++ l2)%list <> [].
Proof. destruct l1; simpl; [auto | discriminate]. Qed.

Lemma split_go_before_token (y : string) :
  forall (cur : string) (w : ascii) (s : string),
    isspace w = true -> split s <> [] ->
    split_go cur (y ++ String w s) <> [].
Proof.
  induction y as [|c y IH]; intros cur w s Hw Hs; simpl.
  - rewrite Hw. now apply app_nonempty_r.
  - destruct (isspace c).
    + apply app_nonempty_r. now apply IH.
    + now apply IH.
Qed.

(** The last token only depends on what follows the last separator that
    still has a token after it. *)
Lemma last_split_after_space (y : string) :
  forall (cur : string) (w : ascii) (s : string),
    isspace w = true -> split s <> [] ->
    List.last (split_go cur (y ++ String w s)) EmptyString
    = List.last (split s) EmptyString.
Proof.
  induction y as [|c y IH]; intros cur w s Hw Hs; simpl.
  - rewrite Hw. now apply last_app_nonempty.
  - destruct (isspace c) eqn:Hc.
    + rewrite last_app_nonempty by now apply split_go_before_token.
      now apply IH.
    + now apply IH.
Qed.

(** *** Matches of a literal followed by [.*] *)

Lemma startswith_app (p s : string) : startswith p (p ++ s) = true.
Proof.
  induction p as [|a p IH]; simpl; [reflexivity|].
  now rewrite Ascii.eqb_refl.
Qed.

Lemma startswith_split (p s : string) :
  startswith p s = true -> exists t, s = p ++ t.
Proof.
  revert s; induction p as [|a p IH]; intros s H; simpl in *.
  - now exists s.
  - destruct s as [|b s]; [discriminate|].
    apply andb_true_iff in H as [Hab Hp].
    apply Ascii.eqb_eq in Hab; subst b.
    destruct (IH _ Hp) as [t ->]. now exists t.
Qed.

(** A literal without line feed cannot see past the end of the line. *)
Lemma startswith_within_line (p l rest : string) :
  no_newline p = true ->
  startswith p (l ++ String newline rest) = startswith p l.
Proof.
  revert l; induction p as [|a p IH]; intros l Hp; [reflexivity|].
  simpl in Hp. apply andb_true_iff in Hp as [Ha Hp].
  destruct l as [|b l]; simpl.
  - apply negb_true_iff in Ha. now rewrite Ha.
  - now rewrite IH.
Qed.

Lemma rest_of_line_line (l rest : string) :
  no_newline l = true -> rest_of_line (l ++ String newline rest) = l.
Proof.
  induction l as [|c l IH]; simpl; intros H.
  - reflexivity.
  - apply andb_true_iff in H as [Hc Hl]. apply negb_true_iff in Hc.
    rewrite Hc. now rewrite IH.
Qed.

Lemma rest_of_line_whole (l : string) :
  no_newline l = true -> rest_of_line l = l.
Proof.
  induction l as [|c l IH]; simpl; intros H; [reflexivity|].
  apply andb_true_iff in H as [Hc Hl]. apply negb_true_iff in Hc.
  rewrite Hc. now rewrite IH.
Qed.

Lemma findall_skip (lit l x : string) :
  findall_dotstar_go lit (String.length l) (l ++ x)
  = findall_dotstar_go lit 0 x.
Proof.
  induction l as [|c l IH]; simpl.
  - destruct x; reflexivity.
  - exact IH.
Qed.

Lemma findall_skip_all (lit l : string) :
  findall_dotstar_go lit (String.length l) l = [].
Proof.
  rewrite <- (append_empty_r l) at 2. now rewrite findall_skip.
Qed.

Lemma no_newline_snoc (pre : string) (c : ascii) :
  no_newline pre = true -> Ascii.eqb c newline = false ->
  no_newline (pre ++ String c EmptyString) = true.
Proof.
  intros Hp Hc. induction pre as [|a pre IH]; simpl.
  - now rewrite Hc.
  - simpl in Hp. apply andb_true_iff in Hp as [Ha Hp].
    now rewrite Ha, IH.
Qed.

(** Induction over a text line by line. *)
Lemma line_ind (P : string -> Prop) :
  (forall l, no_newline l = true -> P l) ->
  (forall l rest, no_newline l = true -> P rest ->
                  P (l ++ String newline rest)) ->
  forall s, P s.
Proof.
  intros Hone Hmore s.
  enough (H : forall pre, no_newline pre = true -> P (pre ++ s))
    by exact (H EmptyString eq_refl).
  induction s as [|c s IH]; intros pre Hpre.
  - rewrite append_empty_r. now apply Hone.
  - destruct (Ascii.eqb c newline) eqn:Hc.
    + apply Ascii.eqb_eq in Hc; subst c.
      apply Hmore; [assumption|]. exact (IH EmptyString eq_refl).
    + change (String c s) with (String c EmptyString ++ s).
      rewrite <- append_assoc. apply IH. now apply no_newline_snoc.
Qed.

Lemma lines_one (l : string) : no_newline l = true -> lines l = [l].
Proof.
  induction l as [|c l IH]; simpl; intros H; [reflexivity|].
  apply andb_true_iff in H as [Hc Hl]. apply negb_true_iff in Hc.
  now rewrite Hc, IH.
Qed.

Lemma lines_first (l rest : string) :
  no_newline l = true ->
  lines (l ++ String newline rest) = l :: lines rest.
Proof.
  induction l as [|c l IH]; simpl; intros H; [reflexivity|].
  apply andb_true_iff in H as [Hc Hl]. apply negb_true_iff in Hc.
  now rewrite Hc, IH.
Qed.

Section Literal.
Variable lit : string.
Hypothesis lit_line : no_newline lit = true.
Hypothesis lit_nonempty : lit <> EmptyString.

Lemma lit_not_at_newline (rest : string) :
  startswith lit (String newline rest) = false.
Proof.
  destruct lit as [|a p]; [congruence|].
  simpl in *. apply andb_true_iff in lit_line as [Ha _].
  apply negb_true_iff in Ha. now rewrite Ha.
Qed.

Lemma findall_one_line (l : string) :
  no_newline l = true ->
  findall_dotstar_go lit 0 l = opt_list (first_match lit l).
Proof.
  induction l as [|c l IH]; intros Hl.
  - simpl. destruct lit; [congruence | reflexivity].
  - cbn [findall_dotstar_go first_match].
    destruct (startswith lit (String c l)) eqn:Hs.
    + cbv zeta. rewrite rest_of_line_whole by assumption.
      replace (String.length (String c l) - 1) with (String.length l)
        by (simpl; lia).
      now rewrite findall_skip_all.
    + apply IH. simpl in Hl. now apply andb_true_iff in Hl as [_ Hl].
Qed.

Lemma findall_first_line (l rest : string) :
  no_newline l = true ->
  findall_dotstar_go lit 0 (l ++ String newline rest)
  = (opt_list (first_match lit l) ++ findall_dotstar_go lit 0 rest)%list.
Proof.
  induction l as [|c l IH]; intros Hl.
  - simpl append. cbn [findall_dotstar_go].
    rewrite lit_not_at_newline.
    simpl. destruct lit; [congruence | reflexivity].
  - change (String c l ++ String newline rest)
      with (String c (l ++ String newline rest)).
    cbn [findall_dotstar_go first_match].
    change (String c (l ++ String newline rest))
      with (String c l ++ String newline rest).
    rewrite startswith_within_line by assumption.
    destruct (startswith lit (String c l)) eqn:Hs.
    + cbv zeta. rewrite rest_of_line_line by assumption.
      replace (String.length (String c l) - 1) with (String.length l)
        by (simpl; lia).
      rewrite findall_skip. cbn [findall_dotstar_go].
      rewrite lit_not_at_newline. reflexivity.
    + apply IH. simpl in Hl. now apply andb_true_iff in Hl as [_ Hl].
Qed.

Lemma first_match_contains (l : string) :
  first_match lit l = None <-> contains lit l = false.
Proof.
  induction l as [|c l IH]; simpl.
  - destruct (startswith lit EmptyString); simpl; split; congruence.
  - destruct (startswith lit (String c l)); simpl; [split; congruence|].
    exact IH.
Qed.

Lemma first_match_suffix (l m : string) :
  first_match lit l = Some m ->
  exists x, l = x ++ m /\ startswith lit m = true.
Proof.
  induction l as [|c l IH]; simpl.
  - destruct (startswith lit EmptyString) eqn:E; [|discriminate].
    intros [= <-]. now exists EmptyString.
  - destruct (startswith lit (String c l)) eqn:E.
    + intros [= <-]. now exists EmptyString.
    + intros H. destruct (IH H) as [x [-> Hm]].
      now exists (String c x).
Qed.

Lemma first_match_starts (l m : string) :
  first_match lit l = Some m -> startswith lit m = true.
Proof.
  intros H. now destruct (first_match_suffix _ _ H) as [x [_ Hm]].
Qed.

(** [re.findall] works line by line: one match per line that holds the
    literal. *)
Lemma findall_by_lines (s : string) :
  re_findall_dotstar lit s
  = List.concat (List.map (fun l => opt_list (first_match lit l)) (lines s)).
Proof.
  unfold re_findall_dotstar.
  induction s as [l Hl | l rest Hl IH] using line_ind.
  - rewrite lines_one by assumption. simpl. rewrite app_nil_r.
    now apply findall_one_line.
  - rewrite lines_first by assumption. simpl. rewrite <- IH.
    now apply findall_first_line.
Qed.

Lemma findall_starts (s m : string) :
  In m (re_findall_dotstar lit s) -> startswith lit m = true.
Proof.
  rewrite findall_by_lines. intros H.
  apply in_concat in H as [ms [Hms Hm]].
  apply in_map_iff in Hms as [l [<- _]].
  destruct (first_match lit l) as [m'|] eqn:E; simpl in Hm; [|contradiction].
  destruct Hm as [<- | []]. eapply first_match_starts; eassumption.
Qed.

Lemma search_false_findall (s : string) :
  re_search_dotstar lit s = false -> re_findall_dotstar lit s = [].
Proof.
  unfold re_search_dotstar, re_findall_dotstar. generalize 0.
  induction s as [|c s IH]; intros k H; [reflexivity|].
  simpl in H. apply orb_false_iff in H as [Hs Hc].
  cbn [findall_dotstar_go]. destruct k; [rewrite Hs|]; now apply IH.
Qed.

(** The literal has a separator inside, with a token after it. *)
Variables (p1 p2 : string) (w c2 : ascii).
Hypothesis lit_shape : lit = p1 ++ String w (String c2 p2).
Hypothesis w_space : isspace w = true.
Hypothesis c2_token : isspace c2 = false.

Lemma match_has_token (m : string) :
  startswith lit m = true -> split m <> [].
Proof.
  intros H. apply startswith_split in H as [t ->].
  rewrite lit_shape, append_assoc. simpl.
  apply split_go_before_token; [assumption|].
  now apply split_starts_with_token.
Qed.

Lemma last_token_of_match (x m : string) :
  startswith lit m = true ->
  last_token (x ++ m) = last_token m.
Proof.
  intros H. apply startswith_split in H as [t ->].
  unfold last_token, split.
  rewrite lit_shape, !append_assoc. simpl.
  rewrite <- append_assoc.
  rewrite !last_split_after_space; auto using split_starts_with_token.
Qed.

Lemma tokens_by_lines (s : string) :
  List.map last_token (re_findall_dotstar lit s)
  = List.map last_token (List.filter (contains lit) (lines s)).
Proof.
  rewrite findall_by_lines.
  induction (lines s) as [|l ls IH]; [reflexivity|].
  simpl. rewrite map_app, IH. clear IH.
  destruct (first_match lit l) as [m|] eqn:E.
  - destruct (contains lit l) eqn:Hc.
    + destruct (first_match_suffix _ _ E) as [x [-> Hm]].
      simpl. now rewrite last_token_of_match.
    + apply first_match_contains in Hc. congruence.
  - apply first_match_contains in E. now rewrite E.
Qed.
End Literal.
End PyFacts.

(** ** The Command Result Inspector *)

Module Inspector.
Import PyFacts.

Lemma pattern_line : Py.no_newline failure_pattern = true.
Proof. reflexivity. Qed.

Lemma pattern_nonempty : failure_pattern <> EmptyString.
Proof. discriminate. Qed.

Lemma pattern_shape :
  failure_pattern
  = "scriptlet" ++ String " "%char (String "f"%char "ailure in rpm package scylla").
Proof. reflexivity. Qed.

Lemma occurrence_has_token (m : string) :
  Py.startswith failure_pattern m = true -> Py.split m <> [].
Proof.
  apply (match_has_token failure_pattern _ _ _ _ pattern_shape);
    reflexivity.
Qed.

(** The loop over the occurrences appends one token each and cannot
    fail on an occurrence that has a token. *)
Lemma record_occurrences (occurrences : list string) :
  forall st,
    Forall (fun m => Py.split m <> []) occurrences ->
    for_each occurrences (fun occurrence =>
      pkg <- lift (last_item (Py.split occurrence)) ;;
      SCRIPTLET_FAILURE_LIST_append pkg) st
    = (Ok tt,
       with_failures st
         (SCRIPTLET_FAILURE_LIST st
          ++ List.map Py.last_token occurrences)%list).
Proof.
  induction occurrences as [|m ms IH]; intros st H.
  - simpl. unfold ret, with_failures. rewrite app_nil_r. now destruct st.
  - inversion H as [|? ? Hm Hms]; subst.
    cbn [for_each]. unfold bind at 1. unfold bind at 1.
    unfold lift, last_item.
    destruct (Py.split m) as [|t ts] eqn:E; [congruence|].
    unfold SCRIPTLET_FAILURE_LIST_append at 1.
    rewrite IH by assumption. unfold with_failures; simpl.
    unfold Py.last_token. rewrite E. now rewrite <- app_assoc.
Qed.

(** What the inspector does, for every result. *)
Lemma inspector_run (result : CmdResult) (st : State) :
  _search_scriptlet_failure result st
  = (Ok tt,
     with_failures st
       (SCRIPTLET_FAILURE_LIST st
        ++ inspector_findings (stdout result ++ stderr result))%list).
Proof.
  unfold _search_scriptlet_failure, inspector_findings.
  rewrite <- (tokens_by_lines failure_pattern pattern_line pattern_nonempty
                _ _ _ _ pattern_shape eq_refl eq_refl).
  destruct (Py.re_search_dotstar failure_pattern _) eqn:Hs.
  - apply record_occurrences. apply Forall_forall. intros m Hm.
    apply occurrence_has_token.
    eapply findall_starts; eauto using pattern_line, pattern_nonempty.
  - rewrite (search_false_findall _ _ Hs). simpl.
    unfold ret, with_failures. rewrite app_nil_r. now destruct st.
Qed.

Lemma endswith_split (p s : string) :
  Py.endswith p s = true -> exists x, s = x ++ p.
Proof.
  induction s as [|c s IH]; simpl; intros H.
  - apply orb_true_iff in H as [H | H]; [|discriminate].
    apply String.eqb_eq in H; subst. now exists EmptyString.
  - apply orb_true_iff in H as [H | H].
    + apply String.eqb_eq in H; subst. now exists EmptyString.
    + destruct (IH H) as [x ->]. now exists (String c x).
Qed.

Lemma marker_line_token (l : string) :
  Py.endswith marker_foo l = true -> Py.last_token l = "scylla-foo".
Proof.
  intros H. apply endswith_split in H as [x ->].
  rewrite (last_token_of_match failure_pattern _ _ _ _ pattern_shape)
    by reflexivity.
  reflexivity.
Qed.

Lemma findings_of_marker_lines (output : string) :
  marker_ends_lines output = true ->
  inspector_findings output
  = List.repeat "scylla-foo" (failure_lines output).
Proof.
  unfold marker_ends_lines, inspector_findings, failure_lines.
  induction (Py.lines output) as [|l ls IH]; intros H; [reflexivity|].
  simpl in H. apply andb_true_iff in H as [Hl Hls].
  simpl. destruct (Py.contains failure_pattern l); simpl.
  - simpl in Hl. rewrite marker_line_token by assumption.
    now rewrite IH.
  - now apply IH.
Qed.

Lemma findings_without_pattern (output : string) :
  Py.contains failure_pattern output = false ->
  inspector_findings output = [].
Proof.
  intros H. unfold inspector_findings.
  rewrite <- (tokens_by_lines failure_pattern pattern_line pattern_nonempty
                _ _ _ _ pattern_shape eq_refl eq_refl).
  now rewrite (search_false_findall _ _ H).
Qed.

(** C4 (as amended).  The inspector never raises.  For each line of
    stdout+stderr that holds the pattern
    [scriptlet failure in rpm package scylla] it appends exactly one
    entry, the last whitespace-delimited token of that line, in output
    order.  Hence, when every such line ends with the marker
    [scriptlet failure in rpm package scylla-foo], it appends
    [scylla-foo] once per such line; and when the output holds no
    pattern the list is unchanged. *)
Theorem inspector_records_last_token_of_each_failure_line
        (result : CmdResult) (st : State) :
  let output := stdout result ++ stderr result in
  _search_scriptlet_failure result st
  = (Ok tt,
     with_failures st
       (SCRIPTLET_FAILURE_LIST st ++ inspector_findings output)%list)
  /\ (marker_ends_lines output = true ->
      inspector_findings output
      = List.repeat "scylla-foo" (failure_lines output))
  /\ (Py.contains failure_pattern output = false ->
      inspector_findings output = []).
Proof.
  intros output. split; [apply inspector_run|].
  split; [apply findings_of_marker_lines | apply findings_without_pattern].
Qed.

Lemma inspector_records_witness :
  marker_ends_lines (stdout two_marker_lines ++ stderr two_marker_lines)
  = true
  /\ _search_scriptlet_failure two_marker_lines initial_state
     = (Ok tt, with_failures initial_state ["scylla-foo"; "scylla-foo"])
  /\ Py.contains failure_pattern (stdout ok_result ++ stderr ok_result)
     = false
  /\ _search_scriptlet_failure ok_result initial_state
     = (Ok tt, initial_state).
Proof.
  destruct (inspector_records_last_token_of_each_failure_line
              two_marker_lines initial_state) as [Hrun [Hmarker _]].
  destruct (inspector_records_last_token_of_each_failure_line
              ok_result initial_state) as [Hrun' [_ Hnone]].
  split; [reflexivity|]. split.
  - rewrite Hrun, (Hmarker eq_refl). reflexivity.
  - split; [reflexivity|].
    rewrite Hrun', (Hnone eq_refl). reflexivity.
Defined.

(** C4 as stated fails: two markers on one line are one match, so
    [scylla-foo] is recorded once for two occurrences. *)
Lemma inspector_counterexample :
  let output := stdout two_markers_one_line ++ stderr two_markers_one_line in
  Py.count_occ marker_foo output = 2
  /\ _search_scriptlet_failure two_markers_one_line initial_state
     = (Ok tt, with_failures initial_state ["scylla-foo"])
  /\ ~ inspector_as_stated.
Proof.
  split; [reflexivity|]. split; [reflexivity|].
  intros H.
  destruct (H two_markers_one_line initial_state eq_refl)
    as [added [Hrun Hcount]].
  assert (Hadded : added = ["scylla-foo"]).
  { vm_compute in Hrun. now injection Hrun as <-. }
  subst added. vm_compute in Hcount. discriminate Hcount.
Qed.
End Inspector.

(** ** Package backends *)

Module Backends.

Lemma process_run_ok (env : Env) (cmd : string) (sudo ign : bool) (st : State) :
  (ign || Z.eqb (exit_status (run_out env (trace st) cmd sudo)) 0) = true ->
  process_run env cmd sudo ign st
  = (Ok (run_out env (trace st) cmd sudo), called st (c_run cmd sudo)).
Proof.
  intros H. unfold process_run, ask, bind, get_trace, record, ret.
  simpl. rewrite H. reflexivity.
Qed.

Lemma process_run_fails (env : Env) (cmd : string) (sudo : bool) (st : State) :
  Z.eqb (exit_status (run_out env (trace st) cmd sudo)) 0 = false ->
  process_run env cmd sudo false st
  = (Raise (CmdError cmd (run_out env (trace st) cmd sudo)),
     called st (c_run cmd sudo)).
Proof.
  intros H. unfold process_run, ask, bind, get_trace, record, ret.
  simpl. rewrite H. reflexivity.
Qed.

(** The overriding [install] of the Yum and Dnf classes, in full. *)
Lemma rpm_install_run (env : Env) (b : Backend) (name : string) (st : State) :
  overrides_install b = true ->
  let result := install_result env b name st in
  let st1 := called st (c_run (install_command env b name) true) in
  install env b name st
  = if Z.eqb (exit_status result) 0
    then (Ok true,
          with_failures st1
            (SCRIPTLET_FAILURE_LIST st
             ++ inspector_findings (stdout result ++ stderr result))%list)
    else (Ok false, st1).
Proof.
  intros Hb result st1.
  assert (E : install env b name st = scylla_rpm_install env b name st)
    by (destruct b; try discriminate; reflexivity).
  rewrite E. unfold scylla_rpm_install, except_CmdError.
  assert (Hcmd : base_command env b ++ " " ++ "install" ++ " " ++ name
                 = install_command env b name)
    by (destruct b; try discriminate; reflexivity).
  rewrite Hcmd. unfold bind at 1.
  destruct (Z.eqb (exit_status result) 0) eqn:Hexit.
  - rewrite process_run_ok by exact Hexit.
    unfold bind. rewrite Inspector.inspector_run. reflexivity.
  - rewrite process_run_fails by exact Hexit. reflexivity.
Qed.

(** The inherited [install] of the Apt and Zypper classes, in full. *)
Lemma inherited_install_run (env : Env) (b : Backend) (name : string) (st : State) :
  overrides_install b = false ->
  let result := install_result env b name st in
  install env b name st
  = (Ok (Z.eqb (exit_status result) 0),
     called st (c_run (install_command env b name) true)).
Proof.
  intros Hb result.
  assert (E : install env b name st = inherited env b "install" (Some name) st)
    by (destruct b; try discriminate; reflexivity).
  rewrite E. unfold inherited, except_CmdError.
  assert (Hcmd : inherited_command env b "install" (Some name)
                 = install_command env b name)
    by (destruct b; try discriminate; reflexivity).
  rewrite Hcmd. unfold bind at 1.
  destruct (Z.eqb (exit_status result) 0) eqn:Hexit.
  - rewrite process_run_ok by exact Hexit. reflexivity.
  - rewrite process_run_fails by exact Hexit. reflexivity.
Qed.


(** C3.  [install] never raises: it returns [True] exactly when the
    command exits with status 0 and [False] otherwise.  On the classes
    that inspect the output, a successful call returns [True] also when
    the inspector recorded scriptlet failures from that call. *)
Theorem install_returns_command_success
        (env : Env) (b : Backend) (name : string) (st : State) :
  let result := install_result env b name st in
  exists st',
    install env b name st = (Ok (Z.eqb (exit_status result) 0), st')
    /\ (overrides_install b = true -> exit_status result = 0%Z ->
        SCRIPTLET_FAILURE_LIST st'
        = (SCRIPTLET_FAILURE_LIST st
           ++ inspector_findings (stdout result ++ stderr result))%list).
Proof.
  intros result. destruct (overrides_install b) eqn:Hb.
  - pose proof (rpm_install_run env b name st Hb) as H. cbv zeta in H.
    fold result in H. rewrite H.
    destruct (Z.eqb (exit_status result) 0) eqn:Hexit.
    + eexists; split; [reflexivity|]. intros _ _. reflexivity.
    + eexists; split; [reflexivity|]. intros _ H0.
      rewrite H0 in Hexit. discriminate.
  - pose proof (inherited_install_run env b name st Hb) as H.
    cbv zeta in H. fold result in H. rewrite H.
    eexists; split; [reflexivity|]. intros H0. discriminate.
Qed.

Lemma install_returns_command_success_witness :
  overrides_install ScyllaYumBackend = true
  /\ exit_status (install_result scriptlet_host ScyllaYumBackend "scylla"
                                 initial_state) = 0%Z
  /\ exists st',
      install scriptlet_host ScyllaYumBackend "scylla" initial_state
      = (Ok true, st')
      /\ SCRIPTLET_FAILURE_LIST st' = ["scylla-foo"].
Proof.
  split; [reflexivity|]. split; [reflexivity|].
  destruct (install_returns_command_success
              scriptlet_host ScyllaYumBackend "scylla" initial_state)
    as [st' [Hrun Hlist]].
  exists st'. split; [exact Hrun|].
  rewrite (Hlist eq_refl eq_refl). reflexivity.
Defined.

(** C9.  When the install command fails, [install] returns [False] and
    the registry is left as it was, whatever the command printed: the
    inspector runs on the success path only. *)
Theorem failed_install_records_nothing
        (env : Env) (b : Backend) (name : string) (st : State) :
  exit_status (install_result env b name st) <> 0%Z ->
  install env b name st
  = (Ok false, called st (c_run (install_command env b name) true))
  /\ SCRIPTLET_FAILURE_LIST (snd (install env b name st))
     = SCRIPTLET_FAILURE_LIST st.
Proof.
  intros Hexit. apply Z.eqb_neq in Hexit.
  assert (E : install env b name st
              = (Ok false,
                 called st (c_run (install_command env b name) true))).
  { destruct (overrides_install b) eqn:Hb.
    - pose proof (rpm_install_run env b name st Hb) as H. cbv zeta in H.
      now rewrite Hexit in H.
    - pose proof (inherited_install_run env b name st Hb) as H.
      cbv zeta in H. now rewrite Hexit in H. }
  split; [exact E|]. rewrite E. reflexivity.
Qed.

Lemma failed_install_records_nothing_witness :
  exit_status (install_result failing_host ScyllaYumBackend "scylla"
                              initial_state) <> 0%Z
  /\ inspector_findings
       (stdout (install_result failing_host ScyllaYumBackend "scylla"
                               initial_state)) = ["scylla-foo"]
  /\ install failing_host ScyllaYumBackend "scylla" initial_state
     = (Ok false,
        called initial_state (c_run "yum -y install scylla" true))
  /\ SCRIPTLET_FAILURE_LIST
       (snd (install failing_host ScyllaYumBackend "scylla" initial_state))
     = [].
Proof.
  assert (Hexit : exit_status (install_result failing_host ScyllaYumBackend
                                              "scylla" initial_state)
                  <> 0%Z) by discriminate.
  split; [exact Hexit|]. split; [reflexivity|].
  exact (failed_install_records_nothing
           failing_host ScyllaYumBackend "scylla" initial_state Hexit).
Defined.

(** C2 (as amended).  An install call passes the command result through
    the inspector exactly on the [ScyllaYumBackend] and
    [ScyllaDnfBackend] classes and when the command exits successfully:
    then the registry grows by the inspector's findings on the output.
    On the Apt and Zypper classes, whose [install] is the inherited one,
    and on a failed command, the registry is unchanged. *)
Theorem install_inspects_on_rpm_success
        (env : Env) (b : Backend) (name : string) (st : State) :
  let result := install_result env b name st in
  SCRIPTLET_FAILURE_LIST (snd (install env b name st))
  = if overrides_install b && Z.eqb (exit_status result) 0
    then (SCRIPTLET_FAILURE_LIST st
          ++ inspector_findings (stdout result ++ stderr result))%list
    else SCRIPTLET_FAILURE_LIST st.
Proof.
  intros result. destruct (overrides_install b) eqn:Hb.
  - pose proof (rpm_install_run env b name st Hb) as H. cbv zeta in H.
    fold result in H. rewrite H.
    now destruct (Z.eqb (exit_status result) 0).
  - pose proof (inherited_install_run env b name st Hb) as H.
    cbv zeta in H. rewrite H. reflexivity.
Qed.

(** C2 as stated fails on the Apt class: the command succeeds, its
    output holds a scriptlet-failure marker, and nothing is recorded. *)
Lemma apt_install_not_inspected :
  let result := install_result scriptlet_host ScyllaAptBackend "scylla"
                               initial_state in
  inspector_findings (stdout result ++ stderr result) = ["scylla-foo"]
  /\ install scriptlet_host ScyllaAptBackend "scylla" initial_state
     = (Ok true,
        called initial_state (c_run "apt-get -y install scylla" true))
  /\ ~ every_install_inspected.
Proof.
  split; [reflexivity|]. split; [reflexivity|].
  intros H.
  destruct (H scriptlet_host ScyllaAptBackend "scylla" initial_state eq_refl)
    as [added [Hadded Hlist]].
  vm_compute in Hlist. now subst added.
Qed.

End Backends.

(** ** The software manager *)

Module Manager.

Lemma backend_mapping_table (tool : string) (b : Backend) :
  backend_mapping tool = Some b <-> tool_backend tool b.
Proof.
  unfold backend_mapping. split.
  - destruct (String.eqb tool "apt-get") eqn:E1;
      [apply String.eqb_eq in E1; subst; intros [= <-]; constructor|].
    destruct (String.eqb tool "yum") eqn:E2;
      [apply String.eqb_eq in E2; subst; intros [= <-]; constructor|].
    destruct (String.eqb tool "dnf") eqn:E3;
      [apply String.eqb_eq in E3; subst; intros [= <-]; constructor|].
    destruct (String.eqb tool "zypper") eqn:E4;
      [apply String.eqb_eq in E4; subst; intros [= <-]; constructor|].
    discriminate.
  - intros []; reflexivity.
Qed.

(** The table maps a tool name to at most one variant. *)
Lemma tool_backend_functional (tool : string) (b b' : Backend) :
  tool_backend tool b -> tool_backend tool b' -> b = b'.
Proof.
  intros H H'. apply backend_mapping_table in H, H'. congruence.
Qed.

Lemma unrecognized_tool (tool : string) :
  (forall b, ~ tool_backend tool b) -> backend_mapping tool = None.
Proof.
  intros H. destruct (backend_mapping tool) as [b|] eqn:E; [|reflexivity].
  apply backend_mapping_table in E. now apply H in E.
Qed.

(** First use on a host with a known tool. *)
Lemma getattr_resolves (env : Env) (st : State) (b : Backend) :
  initialized (sw_manager st) = false ->
  backend_mapping (package_management_out env (trace st)) = Some b ->
  __getattr__ env st
  = (Ok b, with_manager (called st c_package_management) (resolved b)).
Proof.
  intros Hinit Hmap.
  unfold __getattr__, _init_on_demand, bind, get_manager, ask, get_trace,
    record, ret, set_manager.
  simpl. rewrite Hinit. simpl. rewrite Hmap. reflexivity.
Qed.

(** First use on a host with an unknown tool. *)
Lemma getattr_unrecognized (env : Env) (st : State) :
  initialized (sw_manager st) = false ->
  backend_mapping (package_management_out env (trace st)) = None ->
  __getattr__ env st
  = (Raise (NotImplementedError
              ("Unimplemented package management system: "
               ++ package_management_out env (trace st) ++ ".")),
     called st c_package_management).
Proof.
  intros Hinit Hmap.
  unfold __getattr__, _init_on_demand, bind, get_manager, ask, get_trace,
    record, ret, raise.
  simpl. rewrite Hinit. simpl. rewrite Hmap. reflexivity.
Qed.

(** Any later use. *)
Lemma getattr_cached (env : Env) (st : State) (b : Backend) :
  sw_manager st = resolved b -> __getattr__ env st = (Ok b, st).
Proof.
  intros H.
  unfold __getattr__, _init_on_demand, bind, get_manager, ret.
  rewrite H. simpl. rewrite H. reflexivity.
Qed.

(** An install call leaves the manager object alone. *)
Lemma install_keeps_manager (env : Env) (b : Backend) (name : string)
      (st : State) :
  sw_manager (snd (install env b name st)) = sw_manager st.
Proof.
  destruct (overrides_install b) eqn:Hb.
  - pose proof (Backends.rpm_install_run env b name st Hb) as H.
    cbv zeta in H. rewrite H.
    now destruct (Z.eqb (exit_status (install_result env b name st)) 0).
  - pose proof (Backends.inherited_install_run env b name st Hb) as H.
    cbv zeta in H. now rewrite H.
Qed.

(** After a first install through the manager, the next use finds the
    same backend, whatever tool the host would report by then. *)
Lemma second_use_same_backend (env env' : Env) (name : string) (st : State)
      (b : Backend) :
  initialized (sw_manager st) = false ->
  tool_backend (package_management_out env (trace st)) b ->
  let st' := snd (sw_manager_install env name st) in
  __getattr__ env' st' = (Ok b, st').
Proof.
  intros Hinit Htool st'. apply getattr_cached.
  unfold st', sw_manager_install, bind.
  rewrite (getattr_resolves env st b Hinit)
    by now apply backend_mapping_table.
  now rewrite install_keeps_manager.
Qed.

(** C7.  The backend is resolved lazily and once.  On first use the
    detected tool name is mapped through the table to exactly one of the
    four variants, which is stored; a tool name outside the table raises
    [NotImplementedError] and stores nothing; once a backend is stored,
    every later use, on whatever host, returns it without inspecting
    the system again. *)
Theorem backend_resolved_once (env : Env) (st : State) :
  let tool := package_management_out env (trace st) in
  (initialized (sw_manager st) = false ->
   (forall b, tool_backend tool b ->
      (forall b', tool_backend tool b' -> b' = b)
      /\ __getattr__ env st
         = (Ok b, with_manager (called st c_package_management)
                               (resolved b)))
   /\ ((forall b, ~ tool_backend tool b) ->
       __getattr__ env st
       = (Raise (NotImplementedError
                   ("Unimplemented package management system: "
                    ++ tool ++ ".")),
          called st c_package_management)))
  /\ (forall b env', sw_manager st = resolved b ->
        __getattr__ env' st = (Ok b, st)).
Proof.
  intros tool. split.
  - intros Hinit. split.
    + intros b Hb. split.
      * intros b' Hb'. eapply tool_backend_functional; eassumption.
      * apply getattr_resolves; [assumption|].
        now apply backend_mapping_table.
    + intros Hnone. apply getattr_unrecognized; [assumption|].
      now apply unrecognized_tool.
  - intros b env' H. now apply getattr_cached.
Qed.

Lemma backend_resolved_once_witness :
  (* a known tool is resolved on first use ... *)
  __getattr__ healthy_host initial_state
  = (Ok ScyllaYumBackend,
     with_manager (called initial_state c_package_management)
                  (resolved ScyllaYumBackend))
  (* ... and stays, also if the host would now answer dnf *)
  /\ __getattr__ dnf_host
       (with_manager (called initial_state c_package_management)
                     (resolved ScyllaYumBackend))
     = (Ok ScyllaYumBackend,
        with_manager (called initial_state c_package_management)
                     (resolved ScyllaYumBackend))
  (* an unknown tool is an error *)
  /\ __getattr__ pacman_host initial_state
     = (Raise (NotImplementedError
                 "Unimplemented package management system: pacman."),
        called initial_state c_package_management).
Proof.
  split; [|split].
  - destruct (backend_resolved_once healthy_host initial_state)
      as [Hfirst _].
    destruct (Hfirst eq_refl) as [Hknown _].
    exact (proj2 (Hknown ScyllaYumBackend tool_yum)).
  - destruct (backend_resolved_once dnf_host
                (with_manager (called initial_state c_package_management)
                              (resolved ScyllaYumBackend)))
      as [_ Hlater].
    exact (Hlater ScyllaYumBackend dnf_host eq_refl).
  - destruct (backend_resolved_once pacman_host initial_state)
      as [Hfirst _].
    destruct (Hfirst eq_refl) as [_ Hunknown].
    apply Hunknown. intros b Hb. inversion Hb.
Defined.

End Manager.

(** ** The service manager *)

Module Services.

(** Run the monadic code of the service manager symbolically. *)
Ltac run_monad :=
  cbv beta iota zeta delta
    [_scylla_service_is_up for_each bind srv_start srv_stop srv_restart
     srv_status is_port_free dump_journal get_name_of_init process_run ask
     get_trace record ret raise first_unit_not transition_outcome
     orb negb Bool.eqb];
  cbn [trace SCRIPTLET_FAILURE_LIST sw_manager].

Ltac run_services :=
  unfold start_services, stop_services, restart_services, services;
  cbn [rev app]; run_monad.

Ltac settle :=
  do 2 eexists; split;
  [reflexivity | cbn [trace]; repeat rewrite <- app_assoc; reflexivity].

Ltac by_status env :=
  repeat match goal with
         | |- context [status_out env ?t ?u] =>
             destruct (status_out env t u); run_monad
         | |- context [String.eqb (init_out env ?t) ?s] =>
             destruct (String.eqb (init_out env t) s); run_monad
         end.

Lemma start_services_run (env : Env) (st : State) :
  let t1 := (trace st ++ [c_start "scylla-server"; c_start "scylla-jmx"])%list in
  exists rest st',
    start_services env st
    = (transition_outcome StartServiceError "start"
         (first_unit_not env t1 true), st')
    /\ trace st' = (t1 ++ c_status "scylla-server" :: rest)%list.
Proof.
  run_services. repeat rewrite <- app_assoc. cbn [app].
  by_status env; settle.
Qed.

Lemma stop_services_run (env : Env) (st : State) :
  let t1 := (trace st ++ [c_stop "scylla-jmx"; c_stop "scylla-server"])%list in
  exists rest st',
    stop_services env st
    = (transition_outcome StopServiceError "stop"
         (first_unit_not env t1 false), st')
    /\ trace st' = (t1 ++ c_status "scylla-server" :: rest)%list.
Proof.
  run_services. repeat rewrite <- app_assoc. cbn [app].
  by_status env; settle.
Qed.

Lemma restart_services_run (env : Env) (st : State) :
  let t1 := (trace st
             ++ [c_restart "scylla-server"; c_restart "scylla-jmx"])%list in
  exists rest st',
    restart_services env st
    = (transition_outcome RestartServiceError "restart"
         (first_unit_not env t1 true), st')
    /\ trace st' = (t1 ++ c_status "scylla-server" :: rest)%list.
Proof.
  run_services. repeat rewrite <- app_assoc. cbn [app].
  by_status env; settle.
Qed.

(** C6.  [start_services] starts the units in list order, then asks
    each unit's status in list order and raises [StartServiceError]
    naming the first one that is not active.  [stop_services] stops
    them in reverse order and raises [StopServiceError] naming the
    first one still active.  [restart_services] restarts them in list
    order and raises [RestartServiceError] naming the first one that is
    not active.  The three errors are different exceptions. *)
Theorem transitions_ordered_with_own_errors (env : Env) (st : State) :
  (let t1 := (trace st
              ++ [c_start "scylla-server"; c_start "scylla-jmx"])%list in
   exists rest st',
     start_services env st
     = (transition_outcome StartServiceError "start"
          (first_unit_not env t1 true), st')
     /\ trace st' = (t1 ++ c_status "scylla-server" :: rest)%list)
  /\ (let t1 := (trace st
                 ++ [c_stop "scylla-jmx"; c_stop "scylla-server"])%list in
      exists rest st',
        stop_services env st
        = (transition_outcome StopServiceError "stop"
             (first_unit_not env t1 false), st')
        /\ trace st' = (t1 ++ c_status "scylla-server" :: rest)%list)
  /\ (let t1 := (trace st
                 ++ [c_restart "scylla-server";
                     c_restart "scylla-jmx"])%list in
      exists rest st',
        restart_services env st
        = (transition_outcome RestartServiceError "restart"
             (first_unit_not env t1 true), st')
        /\ trace st' = (t1 ++ c_status "scylla-server" :: rest)%list)
  /\ (forall m1 m2 m3,
        StartServiceError m1 <> StopServiceError m2
        /\ StartServiceError m1 <> RestartServiceError m3
        /\ StopServiceError m2 <> RestartServiceError m3).
Proof.
  split; [apply start_services_run|].
  split; [apply stop_services_run|].
  split; [apply restart_services_run|].
  intros m1 m2 m3. repeat split; discriminate.
Qed.

(** *** Readiness *)

Lemma polls_900_5 : polls_within 900 5 = 180.
Proof. reflexivity. Qed.

(** One poll only looks at the port. *)
Lemma service_is_up_run (env : Env) (st : State) :
  let t2 := (trace st
             ++ [c_status "scylla-server"; c_status "scylla-jmx"])%list in
  _scylla_service_is_up env st
  = (Ok (negb (port_free_out env t2 9042%Z "localhost")),
     with_trace st (t2 ++ [c_port_free 9042 "localhost"])%list).
Proof.
  unfold _scylla_service_is_up, services. run_monad.
  repeat rewrite <- app_assoc. reflexivity.
Qed.

(** While the port stays free the loop polls to the end. *)
Lemma wait_loop_port_free (env : Env) (polls : nat) :
  (forall t, port_free_out env t 9042%Z "localhost" = true) ->
  forall st,
    wait_for_loop polls (_scylla_service_is_up env) 5 st
    = (Ok None,
       with_trace st
         (trace st ++ List.concat (List.repeat poll_calls polls))%list).
Proof.
  intros Hfree. induction polls as [|n IH]; intros st.
  - simpl. unfold ret, with_trace. rewrite app_nil_r. now destruct st.
  - cbn [wait_for_loop]. unfold bind at 1.
    rewrite service_is_up_run. cbv zeta. rewrite Hfree.
    cbn [negb]. unfold bind at 1. unfold record at 1.
    rewrite IH. unfold with_trace. cbn [trace SCRIPTLET_FAILURE_LIST sw_manager].
    cbn [List.repeat List.concat]. unfold poll_calls at 2.
    repeat rewrite <- app_assoc. reflexivity.
Qed.

(** The wait is bounded: a port that never opens gives
    [StartServiceError] after 180 polls, 900 seconds of sleep. *)
Lemma wait_services_up_timeout (env : Env) (st : State) :
  (forall t, port_free_out env t 9042%Z "localhost" = true) ->
  wait_services_up env st
  = (Raise (StartServiceError
              "Scylla service does not appear to be up after 900 s"),
     with_trace st
       (trace st ++ List.concat (List.repeat poll_calls 180))%list).
Proof.
  intros Hfree. unfold wait_services_up, wait_for. cbv zeta.
  rewrite polls_900_5. unfold bind.
  now rewrite wait_loop_port_free.
Qed.

(** A taken port ends the wait at once, whatever the units report. *)
Lemma wait_services_up_port_taken (env : Env) (st : State) :
  let t2 := (trace st
             ++ [c_status "scylla-server"; c_status "scylla-jmx"])%list in
  port_free_out env t2 9042%Z "localhost" = false ->
  wait_services_up env st
  = (Ok tt, with_trace st (t2 ++ [c_port_free 9042 "localhost"])%list).
Proof.
  intros t2 Hport. unfold wait_services_up, wait_for. cbv zeta.
  rewrite polls_900_5. cbn [wait_for_loop]. unfold bind.
  rewrite service_is_up_run. cbv zeta. fold t2. rewrite Hport.
  reflexivity.
Qed.

Lemma port_query_trace_next (st : State) (k : nat) :
  port_query_trace
    (called (with_trace st
               (trace st ++ [c_status "scylla-server"; c_status "scylla-jmx";
                             c_port_free 9042 "localhost"])%list)
            (c_sleep 5)) k
  = port_query_trace st (S k).
Proof.
  unfold port_query_trace, called, with_trace.
  cbn [trace List.repeat List.concat]. unfold poll_calls at 2.
  repeat rewrite <- app_assoc. reflexivity.
Qed.

Lemma existsb_map_ext {A B} (f : B -> bool) (g : A -> B) (h : A -> bool)
      (l : list A) :
  (forall x, f (g x) = h x) -> existsb f (map g l) = existsb h l.
Proof.
  intros H. induction l as [|x l IH]; [reflexivity|].
  cbn [map existsb]. now rewrite H, IH.
Qed.

(** The loop ends with success exactly when some poll finds the port taken. *)
Lemma wait_loop_result (env : Env) (polls : nat) :
  forall st,
    fst (wait_for_loop polls (_scylla_service_is_up env) 5 st)
    = if existsb (fun k => negb (port_free_out env (port_query_trace st k)
                                               9042%Z "localhost"))
                 (seq 0 polls)
      then Ok (Some true) else Ok None.
Proof.
  induction polls as [|n IH]; intros st; [reflexivity|].
  cbn [wait_for_loop]. unfold bind at 1. rewrite service_is_up_run.
  cbv zeta. cbn [seq existsb].
  replace (port_query_trace st 0)
    with (trace st ++ [c_status "scylla-server"; c_status "scylla-jmx"])%list
    by reflexivity.
  destruct (port_free_out env _ 9042%Z "localhost"); cbn [negb orb].
  - unfold bind at 1. unfold record at 1.
    fold (called (with_trace st
                    ((trace st ++ [c_status "scylla-server"; c_status "scylla-jmx"])
                     ++ [c_port_free 9042 "localhost"])%list) (c_sleep 5)).
    rewrite IH. rewrite <- seq_shift.
    rewrite <- app_assoc. cbn [app].
    erewrite existsb_map_ext; [reflexivity|].
    intros k. cbv beta. rewrite <- port_query_trace_next. reflexivity.
  - reflexivity.
Qed.

(** What the wait does, in general: it returns normally exactly when one
    of the 180 polls finds port 9042 taken, and raises
    [StartServiceError] otherwise.  The units' answers play no part. *)
Lemma wait_services_up_result (env : Env) (st : State) :
  fst (wait_services_up env st)
  = if existsb (fun k => negb (port_free_out env (port_query_trace st k)
                                             9042%Z "localhost"))
               (seq 0 180)
    then Ok tt
    else Raise (StartServiceError
                  "Scylla service does not appear to be up after 900 s").
Proof.
  unfold wait_services_up, wait_for. cbv zeta. rewrite polls_900_5.
  pose proof (wait_loop_result env 180 st) as H.
  unfold bind.
  destruct (wait_for_loop 180 (_scylla_service_is_up env) 5 st) as [r st'].
  cbn [fst] in H. rewrite H.
  now destruct (existsb _ _).
Qed.

(** C1 (the code differs).  On a host where no unit is active while
    port 9042 is taken, [wait_services_up] returns normally at the
    first poll: the status answers are asked for and dropped. *)
Theorem wait_services_up_ignores_unit_status :
  (forall t unit, status_out stalled_host t unit = false)
  /\ wait_services_up stalled_host initial_state
     = (Ok tt,
        with_trace initial_state
          [c_status "scylla-server"; c_status "scylla-jmx";
           c_port_free 9042 "localhost"]).
Proof.
  split; [reflexivity|].
  now rewrite wait_services_up_port_taken.
Qed.
End Services.

(** ** The dispatcher *)

Module Dispatcher.

(** Decide every string comparison of the chain. *)
Ltac compare_strings :=
  repeat match goal with
         | |- context [String.eqb ?a ?b] =>
             destruct (String.eqb_spec a b)
         end;
  cbn [andb].

Lemma select_sound (ami : bool) (d : Distro) (v : Variant) :
  select_installer ami d = Some v -> platform_variant ami d v.
Proof.
  unfold select_installer. destruct ami; [intros [= <-]; constructor|].
  compare_strings; intros [= <-]; now constructor.
Qed.

Lemma select_complete (ami : bool) (d : Distro) (v : Variant) :
  platform_variant ami d v -> select_installer ami d = Some v.
Proof.
  intros H. unfold select_installer.
  destruct H as [d | d Hn Hv Hr | d Hn Hv Hr | d Hn Hv | d Hn Hv | d Hn Hv];
    [reflexivity | rewrite Hn, Hv, ?Hr; reflexivity ..].
Qed.

Lemma select_table (ami : bool) (d : Distro) (v : Variant) :
  select_installer ami d = Some v <-> platform_variant ami d v.
Proof. split; [apply select_sound | apply select_complete]. Qed.

Lemma unsupported_none (ami : bool) (d : Distro) :
  (forall v, ~ platform_variant ami d v) -> select_installer ami d = None.
Proof.
  intros H. destruct (select_installer ami d) as [v|] eqn:E; [|reflexivity].
  apply select_sound in E. now apply H in E.
Qed.

Lemma distro_detect_run (env : Env) (st : State) :
  distro_detect env st = (Ok (detect_out env (trace st)), called st c_detect).
Proof. reflexivity. Qed.

(** C5.  The dispatcher follows the table: with the [ami] flag the AMI
    installer, otherwise the installer of Ubuntu 14.04, Ubuntu 16.04,
    Debian 8, Fedora 22 or CentOS 7 for a host of that distribution, and
    never two of them.  [scylla_setup] runs the installer selected; on
    any other host it stops with the skip exception labelled
    [Unsupported OS] after detecting the distribution, without running
    an installer. *)
Theorem dispatcher_follows_table
        (env : Env) (ami_run : M unit) (params : Params) (st : State) :
  let d := detect_out env (trace st) in
  (forall v, select_installer (ami params) d = Some v
             <-> platform_variant (ami params) d v)
  /\ (forall v v', platform_variant (ami params) d v ->
                   platform_variant (ami params) d v' -> v = v')
  /\ (forall v, platform_variant (ami params) d v ->
        scylla_setup env ami_run params st
        = (installer_run env ami_run v (sw_repo params) (param_mode params) ;;
           record (c_mknod (setup_file_done env)))
            (called st c_detect))
  /\ ((forall v, ~ platform_variant (ami params) d v) ->
        scylla_setup env ami_run params st
        = (Raise (TestSkipError ("Unsupported OS: " ++ distro_str env d)),
           called st c_detect)).
Proof.
  intros d. split; [intros v; apply select_table|].
  split.
  { intros v v' Hv Hv'. apply select_complete in Hv, Hv'. congruence. }
  split.
  - intros v Hv. apply select_complete in Hv.
    unfold scylla_setup. unfold bind at 1. rewrite distro_detect_run.
    fold d. now rewrite Hv.
  - intros Hnone. apply unsupported_none in Hnone.
    unfold scylla_setup. unfold bind at 1. rewrite distro_detect_run.
    fold d. now rewrite Hnone.
Qed.

Lemma dispatcher_follows_table_witness :
  platform_variant false fedora22 ScyllaInstallFedora22
  /\ scylla_setup healthy_host (ret tt) release_params initial_state
     = (run healthy_host (new_ScyllaInstallFedora22 healthy_host None "release") ;;
        record (c_mknod "/tmp/scylla-setup-done"))
         (called initial_state c_detect)
  /\ (forall v, ~ platform_variant false arch v)
  /\ scylla_setup arch_host (ret tt) release_params initial_state
     = (Raise (TestSkipError "Unsupported OS: Arch rolling "),
        called initial_state c_detect).
Proof.
  assert (Hfedora : platform_variant false fedora22 ScyllaInstallFedora22)
    by (constructor; reflexivity).
  assert (Harch : forall v, ~ platform_variant false arch v).
  { intros v Hv.
    apply (proj1 (dispatcher_follows_table
                    arch_host (ret tt) release_params initial_state)) in Hv.
    discriminate Hv. }
  split; [exact Hfedora|]. split.
  - destruct (dispatcher_follows_table
                healthy_host (ret tt) release_params initial_state)
      as [_ [_ [Hrun _]]].
    exact (Hrun ScyllaInstallFedora22 Hfedora).
  - split; [exact Harch|].
    destruct (dispatcher_follows_table
                arch_host (ret tt) release_params initial_state)
      as [_ [_ [_ Hskip]]].
    exact (Hskip Harch).
Defined.
End Dispatcher.

(** ** The installers *)

Module Installers.

(** *** Pointwise monad laws *)

Lemma bind_assoc {A B C} (m : M A) (f : A -> M B) (g : B -> M C) (st : State) :
  bind (bind m f) g st = bind m (fun a => bind (f a) g) st.
Proof. unfold bind. destruct (m st) as [[a|e] st']; reflexivity. Qed.

Lemma bind_cong {A B} (m : M A) (f g : A -> M B) (st : State) :
  (forall a st', f a st' = g a st') -> bind m f st = bind m g st.
Proof.
  intros H. unfold bind. destruct (m st) as [[a|e] st']; [apply H | reflexivity].
Qed.

Lemma bind_ok {A B} (m : M A) (f : A -> M B) (st st' : State) (a : A) :
  m st = (Ok a, st') -> bind m f st = f a st'.
Proof. intros H. unfold bind. now rewrite H. Qed.

(** *** The version gate of Ubuntu 14.04 *)

Lemma gate_1_6_3 (env : Env) : parse_version_ge env "1.6.3" "1.7" = false.
Proof. reflexivity. Qed.

Lemma gate_opens (env : Env) (ver : string) (segs : list N) :
  Version.parse_dotted ver = Some segs -> at_least_1_7 segs ->
  parse_version_ge env ver "1.7" = true.
Proof.
  intros Hparse Hge. unfold parse_version_ge. rewrite Hparse.
  change (Version.parse_dotted "1.7") with (Some [1%N; 7%N]).
  destruct segs as [|major [|minor rest]]; cbn [at_least_1_7] in Hge.
  - contradiction.
  - cbn [Version.release_ge]. apply N.ltb_lt in Hge. now rewrite Hge.
  - cbn [Version.release_ge].
    destruct (N.ltb_spec 1 major) as [|Hmaj]; [reflexivity|].
    destruct Hge as [Hlt | [-> Hmin]]; [lia|].
    cbn [N.ltb N.compare Pos.compare Pos.compare_cont].
    destruct (N.ltb_spec 7 minor) as [|Hm]; [reflexivity|].
    destruct (N.ltb_spec minor 7); [lia|]. now destruct rest.
Qed.

(** [setup_ci] once [apt-cache show] has answered. *)
Lemma setup_ci_after_show (env : Env) (sw_repo : option string)
      (st st1 : State) (result : CmdResult) (ver : string) :
  ubuntu1404_show env sw_repo st = (Ok result, st1) ->
  resolved_version (stdout result) = Ok ver ->
  ScyllaInstallUbuntu1404_setup_ci env sw_repo st
  = ((if parse_version_ge env ver "1.7"
      then run_each env ubuntu1404_jre else ret tt) ;;
     sw_manager_upgrade env ;;
     ret ["scylla"]) st1.
Proof.
  intros Hshow Hver.
  transitivity
    (bind (ubuntu1404_show env sw_repo)
       (fun result =>
          v <- lift (first_item (Py.re_findall_version (stdout result))) ;;
          (if parse_version_ge env (Py.strip_by Py.is_dot v) "1.7"
           then run_each env ubuntu1404_jre else ret tt) ;;
          sw_manager_upgrade env ;; ret ["scylla"]) st).
  - unfold ScyllaInstallUbuntu1404_setup_ci, ubuntu1404_show.
    rewrite bind_assoc. apply bind_cong; intros ? ?.
    rewrite bind_assoc. reflexivity.
  - rewrite (bind_ok _ _ _ _ _ Hshow).
    unfold resolved_version in Hver. unfold bind at 1, lift.
    destruct (first_item (Py.re_findall_version (stdout result)));
      [|discriminate].
    injection Hver as <-. reflexivity.
Qed.

(** *** Fedora 22 release modes *)

Lemma mode_outside (mode : string) :
  ~ In mode fedora22_release_modes ->
  String.eqb mode "1.0" = false /\ String.eqb mode "1.1" = false
  /\ String.eqb mode "1.2" = false /\ String.eqb mode "unstable" = false.
Proof.
  intros H. unfold fedora22_release_modes in H. cbn [In] in H.
  repeat split; apply String.eqb_neq; intros ->; apply H; tauto.
Qed.

Lemma setup_release_unknown_mode (env : Env) (mode : string) (st : State) :
  ~ In mode fedora22_release_modes ->
  ScyllaInstallFedora22_setup_release env mode st
  = (curl env fedora22_default_repo yum_repo ;;
     sw_manager_upgrade env ;;
     ret []) st.
Proof.
  intros H. destruct (mode_outside mode H) as [H0 [H1 [H2 Hu]]].
  unfold ScyllaInstallFedora22_setup_release.
  cbv zeta. now rewrite H0, H1, H2, Hu.
Qed.

Lemma install_packages_nil (env : Env) (st : State) :
  install_packages env [] st = (Ok tt, st).
Proof. reflexivity. Qed.

(** [run] outside the [ci] mode. *)
Lemma run_release (env : Env) (self : Installer) (st : State) :
  String.eqb (mode self) "ci" = false ->
  run env self st
  = (b <- __getattr__ env ;;
     wait_for (upgrade env b None) 300 30 ;;
     pkgs <- setup_release self ;;
     install_packages env pkgs ;;
     setup_and_verify env) st.
Proof. intros H. unfold run. now rewrite H. Qed.

(** C10 (as amended).  For every mode outside 1.0, 1.1, 1.2 and unstable,
    [ScyllaInstallFedora22.setup_release] registers the default 1.1
    repository, upgrades and returns the empty package list.  For every
    such mode other than [ci], [run] therefore installs no package: after
    the system upgrade and that set-up it goes on to host set-up and
    verification, and no error about the mode is raised. *)
Theorem fedora22_unknown_release_mode_installs_nothing
        (env : Env) (sw_repo : option string) (mode : string) (st : State) :
  ~ In mode fedora22_release_modes ->
  ScyllaInstallFedora22_setup_release env mode st
  = (curl env fedora22_default_repo yum_repo ;;
     sw_manager_upgrade env ;;
     ret []) st
  /\ (mode <> "ci" ->
      run env (new_ScyllaInstallFedora22 env sw_repo mode) st
      = run_without_installs env st).
Proof.
  intros Hmode. split; [now apply setup_release_unknown_mode|].
  intros Hci. apply String.eqb_neq in Hci.
  rewrite run_release by exact Hci.
  unfold run_without_installs.
  cbn [setup_release new_ScyllaInstallFedora22].
  apply bind_cong; intros b st1. apply bind_cong; intros _ st2.
  unfold bind at 1. rewrite setup_release_unknown_mode by assumption.
  fold (bind (curl env fedora22_default_repo yum_repo ;;
              sw_manager_upgrade env ;; ret [])
             (fun pkgs => install_packages env pkgs ;; setup_and_verify env)
             st2).
  rewrite bind_assoc. apply bind_cong; intros _ st3.
  rewrite bind_assoc. apply bind_cong; intros _ st4.
  reflexivity.
Qed.

Lemma release_not_a_known_mode : ~ In "release" fedora22_release_modes.
Proof. intros [H | [H | [H | [H | []]]]]; discriminate H. Qed.

Lemma fedora22_unknown_release_mode_witness :
  ~ In "release" fedora22_release_modes
  /\ "release" <> "ci"
  /\ ScyllaInstallFedora22_setup_release healthy_host "release" initial_state
     = (curl healthy_host fedora22_default_repo yum_repo ;;
        sw_manager_upgrade healthy_host ;;
        ret []) initial_state
  /\ run healthy_host (new_ScyllaInstallFedora22 healthy_host None "release")
         initial_state
     = run_without_installs healthy_host initial_state.
Proof.
  assert (Hci : "release" <> "ci") by discriminate.
  split; [exact release_not_a_known_mode|]. split; [exact Hci|].
  destruct (fedora22_unknown_release_mode_installs_nothing
              healthy_host None "release" initial_state
              release_not_a_known_mode) as [Hsetup Hrun].
  split; [exact Hsetup | exact (Hrun Hci)].
Defined.

Lemma ci_not_a_release_mode : ~ In "ci" fedora22_release_modes.
Proof. intros [H | [H | [H | [H | []]]]]; discriminate H. Qed.

(** C10 as stated fails for the mode [ci], which is outside the four
    release modes: [run] then takes the packages from [setup_ci] and
    installs [scylla]. *)
Lemma ci_mode_installs_scylla :
  ~ In "ci" fedora22_release_modes
  /\ nth_error
       (trace (snd (run healthy_host
                        (new_ScyllaInstallFedora22 healthy_host None "ci")
                        initial_state))) 4
     = Some (c_run "yum -y install scylla" true)
  /\ ~ unknown_mode_installs_nothing.
Proof.
  split; [exact ci_not_a_release_mode|]. split; [reflexivity|].
  intros H.
  specialize (H healthy_host None "ci" initial_state ci_not_a_release_mode).
  vm_compute in H. discriminate H.
Qed.
End Installers.

(** ** Refreshing and upgrading with apt *)

Module AptUpgrade.

Lemma update_pkg_list_run (env : Env) (st : State) :
  update_pkg_list env st
  = (Ok (Z.eqb (exit_status (run_out env (trace st)
                                     (apt_update_command env) false)) 0),
     called st (c_run (apt_update_command env) false)).
Proof.
  unfold update_pkg_list, except_CmdError. cbv zeta.
  fold (apt_update_command env). unfold bind at 1.
  destruct (Z.eqb (exit_status (run_out env (trace st)
                                        (apt_update_command env) false)) 0)
    eqn:E.
  - now rewrite Backends.process_run_ok by exact E.
  - now rewrite Backends.process_run_fails by exact E.
Qed.

(** While the refresh fails it is retried until the polls are used up. *)
Lemma refresh_never_succeeds (env : Env) (polls : nat) :
  (forall t, exit_status (run_out env t (apt_update_command env) false)
             <> 0%Z) ->
  forall st,
    wait_for_loop polls (update_pkg_list env) 30 st
    = (Ok None,
       with_trace st
         (trace st ++ List.concat (List.repeat (refresh_calls env) polls))%list).
Proof.
  intros Hfail. induction polls as [|n IH]; intros st.
  - simpl. unfold ret, with_trace. rewrite app_nil_r. now destruct st.
  - cbn [wait_for_loop]. unfold bind at 1. rewrite update_pkg_list_run.
    rewrite (proj2 (Z.eqb_neq _ _) (Hfail (trace st))).
    unfold bind at 1. unfold record at 1. rewrite IH.
    cbv [with_trace called].
    cbn [trace SCRIPTLET_FAILURE_LIST sw_manager List.repeat List.concat].
    unfold refresh_calls at 2.
    repeat rewrite <- app_assoc. reflexivity.
Qed.

Lemma upgrade_command_run (env : Env) (name : option string) (st : State) :
  except_CmdError
    (process_run env (apt_upgrade_command env name) true false ;; ret true)
    (ret false) st
  = (Ok (Z.eqb (exit_status (run_out env (trace st)
                                     (apt_upgrade_command env name) true)) 0),
     called st (c_run (apt_upgrade_command env name) true)).
Proof.
  unfold except_CmdError. unfold bind at 1.
  destruct (Z.eqb (exit_status (run_out env (trace st)
                                        (apt_upgrade_command env name) true)) 0)
    eqn:E.
  - now rewrite Backends.process_run_ok by exact E.
  - now rewrite Backends.process_run_fails by exact E.
Qed.

(** X2.  [ScyllaAptBackend.upgrade] does not depend on the refresh of the
    package list: when [apt-get update] fails at every attempt, it is
    tried ten times, thirty seconds apart, and the upgrade command is run
    all the same; the call returns whether that command succeeded and
    never raises. *)
Theorem apt_upgrade_after_failed_refresh
        (env : Env) (name : option string) (st : State) :
  (forall t, exit_status (run_out env t (apt_update_command env) false)
             <> 0%Z) ->
  let st1 :=
    with_trace st
      (trace st ++ List.concat (List.repeat (refresh_calls env) 10))%list in
  ScyllaAptBackend_upgrade env name st
  = (Ok (Z.eqb (exit_status (run_out env (trace st1)
                                     (apt_upgrade_command env name) true)) 0),
     called st1 (c_run (apt_upgrade_command env name) true)).
Proof.
  intros Hfail st1. unfold ScyllaAptBackend_upgrade, wait_for.
  change (polls_within 300 30) with 10. unfold bind at 1.
  rewrite (refresh_never_succeeds env 10 Hfail st). fold st1.
  exact (upgrade_command_run env name st1).
Qed.

Lemma apt_upgrade_after_failed_refresh_witness :
  (forall t, exit_status (run_out no_refresh_host t
                                  (apt_update_command no_refresh_host) false)
             <> 0%Z)
  /\ exists st',
      ScyllaAptBackend_upgrade no_refresh_host None initial_state
      = (Ok true, st')
      /\ List.length (trace st') = 21.
Proof.
  assert (Hfail : forall t,
             exit_status (run_out no_refresh_host t
                                  (apt_update_command no_refresh_host) false)
             <> 0%Z) by (intros t; discriminate).
  split; [exact Hfail|].
  eexists. split.
  - exact (apt_upgrade_after_failed_refresh
             no_refresh_host None initial_state Hfail).
  - reflexivity.
Defined.

End AptUpgrade.

(** ** Installing the resolved packages *)

Module InstallLoop.

(** One install through a manager that holds a backend. *)
Lemma manager_install_run (env : Env) (b : Backend) (pkg : string)
      (st : State) :
  sw_manager st = resolved b ->
  exists st',
    sw_manager_install env pkg st
    = (Ok (Z.eqb (exit_status (install_result env b pkg st)) 0), st')
    /\ sw_manager st' = resolved b
    /\ trace st' = (trace st ++ [c_run (install_command env b pkg) true])%list.
Proof.
  intros Hm. unfold sw_manager_install, bind.
  rewrite (Manager.getattr_cached env st b Hm).
  destruct (overrides_install b) eqn:Hb.
  - pose proof (Backends.rpm_install_run env b pkg st Hb) as H.
    cbv zeta in H. rewrite H.
    destruct (Z.eqb (exit_status (install_result env b pkg st)) 0);
      eexists; repeat split; assumption.
  - pose proof (Backends.inherited_install_run env b pkg st Hb) as H.
    cbv zeta in H. rewrite H.
    eexists; repeat split; assumption.
Qed.

(** X3.  The install loop of [run] stops at the first package whose
    install command fails: the packages before it are installed in
    order, [InstallPackageError] names the base name of the failed one,
    and no later package is attempted. *)
Theorem install_loop_stops_at_first_failure
        (env : Env) (b : Backend) (done rest : list string) (bad : string)
        (st : State) :
  sw_manager st = resolved b ->
  (forall t pkg, In pkg done ->
     exit_status (run_out env t (install_command env b pkg) true) = 0%Z) ->
  (forall t,
     exit_status (run_out env t (install_command env b bad) true) <> 0%Z) ->
  exists st',
    install_packages env (done ++ bad :: rest)%list st
    = (Raise (InstallPackageError
                ("Package " ++ Py.basename bad
                 ++ " could not be installed (see logs for details)")),
       st')
    /\ trace st' = (trace st ++ install_calls env b (done ++ [bad]))%list.
Proof.
  revert st. induction done as [|pkg done IH]; intros st Hm Hdone Hbad.
  - cbn [app install_packages for_each]. unfold install_packages.
    cbn [for_each]. unfold bind at 1. unfold bind at 1.
    destruct (manager_install_run env b bad st Hm) as [st' [-> [_ Ht]]].
    unfold install_result.
    rewrite (proj2 (Z.eqb_neq _ _) (Hbad (trace st))). cbn [negb].
    exists st'. split; [reflexivity | exact Ht].
  - cbn [app]. unfold install_packages. cbn [for_each].
    unfold bind at 1. unfold bind at 1.
    destruct (manager_install_run env b pkg st Hm) as [st1 [-> [Hm1 Ht1]]].
    unfold install_result.
    rewrite (Hdone (trace st) pkg (or_introl eq_refl)). cbn [Z.eqb negb].
    destruct (IH st1 Hm1) as [st' [Hrun Ht]];
      [intros t p Hp; apply Hdone; now right | assumption |].
    unfold install_packages in Hrun. unfold ret at 1.
    rewrite Hrun. exists st'. split; [reflexivity|].
    rewrite Ht, Ht1. unfold install_calls. cbn [map app].
    now rewrite <- app_assoc.
Qed.

Lemma install_loop_stops_witness :
  exists st',
    install_packages failing_host ["scylla"; "scylla-tools"]
                     (resolved_state ScyllaYumBackend)
    = (Raise (InstallPackageError
                "Package scylla could not be installed (see logs for details)"),
       st')
    /\ trace st' = [c_run "yum -y install scylla" true].
Proof.
  refine (install_loop_stops_at_first_failure
            failing_host ScyllaYumBackend [] ["scylla-tools"] "scylla"
            (resolved_state ScyllaYumBackend) eq_refl _ _).
  - intros t pkg [].
  - intros t. discriminate.
Defined.

End InstallLoop.

(** ** Reporting the housekeeping identifier *)

Module ReportUuid.

Lemma uuid_never_appears (env : Env) (polls : nat) :
  (forall t, exists_out env t uuid_path = false) ->
  forall st,
    wait_for_loop polls (path_exists env uuid_path) 5 st
    = (Ok None,
       with_trace st
         (trace st ++ List.concat (List.repeat uuid_poll_calls polls))%list).
Proof.
  intros Hnone. induction polls as [|n IH]; intros st.
  - simpl. unfold ret, with_trace. rewrite app_nil_r. now destruct st.
  - cbn [wait_for_loop]. unfold bind at 1.
    unfold path_exists at 1, ask, bind, get_trace, record, ret.
    cbn [trace SCRIPTLET_FAILURE_LIST sw_manager].
    rewrite Hnone. rewrite IH.
    cbv [with_trace].
    cbn [trace SCRIPTLET_FAILURE_LIST sw_manager List.repeat List.concat].
    unfold uuid_poll_calls at 2.
    repeat rewrite <- app_assoc. reflexivity.
Qed.

(** X4.  [try_report_uuid] tolerates a missing identifier and never
    reports twice.  When the identifier file never appears, it polls six
    times, five seconds apart, and returns normally without running any
    command.  When the file and its marker both exist, it returns
    normally after three look-ups, again without running any command. *)
Theorem report_uuid_skips_quietly (env : Env) (st : State) :
  ((forall t, exists_out env t uuid_path = false) ->
   try_report_uuid env st
   = (Ok tt,
      with_trace st
        (trace st ++ List.concat (List.repeat uuid_poll_calls 6)
         ++ [c_exists uuid_path])%list))
  /\ ((forall t, exists_out env t uuid_path = true) ->
      (forall t, exists_out env t mark_path = true) ->
      try_report_uuid env st
      = (Ok tt,
         with_trace st
           (trace st ++ [c_exists uuid_path; c_exists uuid_path;
                         c_exists mark_path])%list)).
Proof.
  split.
  - intros Hnone. unfold try_report_uuid, wait_for. cbv zeta.
    change (polls_within 30 5) with 6. fold uuid_path mark_path.
    unfold bind at 1. rewrite (uuid_never_appears env 6 Hnone st).
    unfold bind at 1.
    unfold path_exists at 1, ask, bind, get_trace, record, ret.
    cbv [with_trace]. cbn [trace SCRIPTLET_FAILURE_LIST sw_manager].
    rewrite Hnone. repeat rewrite <- app_assoc. reflexivity.
  - intros Huuid Hmark. unfold try_report_uuid, wait_for. cbv zeta.
    change (polls_within 30 5) with 6. fold uuid_path mark_path.
    cbn [wait_for_loop].
    unfold path_exists, ask, bind, get_trace, record, ret.
    cbv [with_trace].
    repeat (cbn [trace SCRIPTLET_FAILURE_LIST sw_manager negb];
            rewrite ?Huuid, ?Hmark).
    repeat rewrite <- app_assoc. reflexivity.
Qed.

Lemma report_uuid_skips_witness :
  fst (try_report_uuid bare_host initial_state) = Ok tt
  /\ List.length (trace (snd (try_report_uuid bare_host initial_state))) = 13
  /\ try_report_uuid healthy_host initial_state
     = (Ok tt,
        with_trace initial_state
          [c_exists uuid_path; c_exists uuid_path; c_exists mark_path]).
Proof.
  destruct (report_uuid_skips_quietly bare_host initial_state)
    as [Hmissing _].
  destruct (report_uuid_skips_quietly healthy_host initial_state)
    as [_ Hmarked].
  rewrite (Hmissing (fun t => eq_refl)).
  split; [reflexivity|]. split; [reflexivity|].
  exact (Hmarked (fun t => eq_refl) (fun t => eq_refl)).
Defined.

End ReportUuid.

(** ** What the steps of a run may change *)

Module Invariants.

Lemma steady_refl (st : State) : steady st st.
Proof.
  repeat split. exists []. now rewrite app_nil_r.
Qed.

Lemma steady_trans (st1 st2 st3 : State) :
  steady st1 st2 -> steady st2 st3 -> steady st1 st3.
Proof.
  intros [Hr1 [Hm1 [c1 [Ht1 [Hk1 Hi1]]]]] [Hr2 [Hm2 [c2 [Ht2 [Hk2 Hi2]]]]].
  split; [congruence|]. split; [congruence|].
  exists (c1 ++ c2)%list. rewrite Ht2, Ht1, <- app_assoc.
  rewrite !existsb_app, Hk1, Hk2, Hi1, Hi2. now repeat split.
Qed.

Lemma steadyM_ret {A} (a : A) : steadyM (ret a).
Proof. intros st. apply steady_refl. Qed.

Lemma steadyM_raise {A} (e : exn) : steadyM (@raise A e).
Proof. intros st. apply steady_refl. Qed.

Lemma steadyM_lift {A} (r : Result A) : steadyM (lift r).
Proof. intros st. apply steady_refl. Qed.

Lemma steadyM_assert (cond : bool) (msg : string) : steadyM (assert cond msg).
Proof. intros st. destruct cond; apply steady_refl. Qed.

Lemma steadyM_get_trace : steadyM get_trace.
Proof. intros st. apply steady_refl. Qed.

Lemma steadyM_bind {A B} (m : M A) (k : A -> M B) :
  steadyM m -> (forall a, steadyM (k a)) -> steadyM (bind m k).
Proof.
  intros Hm Hk st. unfold bind. specialize (Hm st).
  destruct (m st) as [[a|e] st1]; cbn [snd] in *.
  - eapply steady_trans; [exact Hm | apply Hk].
  - exact Hm.
Qed.

Lemma steadyM_record (c : Call) :
  is_mknod c = false -> is_inspection c = false -> steadyM (record c).
Proof.
  intros Hk Hi st. repeat split. exists [c]. cbn [existsb].
  rewrite Hk, Hi. now repeat split.
Qed.

Lemma steadyM_ask {A} (c : Call) (answer : list Call -> A) :
  is_mknod c = false -> is_inspection c = false -> steadyM (ask c answer).
Proof.
  intros Hk Hi. unfold ask.
  apply steadyM_bind; [apply steadyM_get_trace | intros t].
  apply steadyM_bind; [now apply steadyM_record | intros _].
  apply steadyM_ret.
Qed.

Lemma steadyM_except {A} (body handler : M A) :
  steadyM body -> steadyM handler -> steadyM (except_CmdError body handler).
Proof.
  intros Hb Hh st. unfold except_CmdError. specialize (Hb st).
  destruct (body st) as [[a|[]] st1]; cbn [snd] in *; try exact Hb.
  eapply steady_trans; [exact Hb | apply Hh].
Qed.

Lemma steadyM_for_each {A} (l : list A) (body : A -> M unit) :
  (forall x, steadyM (body x)) -> steadyM (for_each l body).
Proof.
  intros Hb. induction l as [|x l IH]; cbn [for_each].
  - apply steadyM_ret.
  - apply steadyM_bind; [apply Hb | intros _; exact IH].
Qed.

Lemma steadyM_wait_for_loop (func : M bool) (step : Z) (polls : nat) :
  steadyM func -> steadyM (wait_for_loop polls func step).
Proof.
  intros Hf. induction polls as [|n IH]; cbn [wait_for_loop].
  - apply steadyM_ret.
  - apply steadyM_bind; [exact Hf | intros [|]].
    + apply steadyM_ret.
    + apply steadyM_bind; [now apply steadyM_record | intros _; exact IH].
Qed.

Lemma steadyM_wait_for (func : M bool) (timeout step : Z) :
  steadyM func -> steadyM (wait_for func timeout step).
Proof. intros Hf. now apply steadyM_wait_for_loop. Qed.

(** Take a computation apart along its binds, loops and branches. *)
Ltac steady_step :=
  first
    [ apply steadyM_ret
    | apply steadyM_raise
    | apply steadyM_lift
    | apply steadyM_assert
    | apply steadyM_record; reflexivity
    | apply steadyM_ask; reflexivity
    | apply steadyM_wait_for
    | apply steadyM_except
    | apply steadyM_for_each; intros ?
    | apply steadyM_bind; [ | intros ? ]
    | match goal with
      | |- steadyM (if ?c then _ else _) => destruct c
      | |- steadyM (match ?x with _ => _ end) => destruct x
      end
    | progress cbv zeta ].

Ltac steady_all := repeat steady_step.

Lemma steadyM_process_run (env : Env) (cmd : string) (sudo ign : bool) :
  steadyM (process_run env cmd sudo ign).
Proof. unfold process_run. steady_all. Qed.

Lemma steadyM_srv_status (env : Env) (srv : string) :
  steadyM (srv_status env srv).
Proof. unfold srv_status. steady_all. Qed.

Lemma steadyM_path_exists (env : Env) (p : string) :
  steadyM (path_exists env p).
Proof. unfold path_exists. steady_all. Qed.

Lemma steadyM_path_ismount (env : Env) (p : string) :
  steadyM (path_ismount env p).
Proof. unfold path_ismount. steady_all. Qed.

Lemma steadyM_path_realpath (env : Env) (p : string) :
  steadyM (path_realpath env p).
Proof. unfold path_realpath. steady_all. Qed.

Lemma steadyM_read_file (env : Env) (p : string) :
  steadyM (read_file env p).
Proof. unfold read_file. steady_all. Qed.

Lemma steadyM_distro_detect (env : Env) : steadyM (distro_detect env).
Proof. unfold distro_detect. steady_all. Qed.

Lemma steadyM_dump_journal (env : Env) : steadyM (dump_journal env).
Proof.
  unfold dump_journal, get_name_of_init. steady_all.
Qed.

Ltac steady_known :=
  first
    [ apply steadyM_process_run
    | apply steadyM_srv_status
    | apply steadyM_path_exists
    | apply steadyM_path_ismount
    | apply steadyM_path_realpath
    | apply steadyM_read_file
    | apply steadyM_distro_detect
    | apply steadyM_dump_journal
    | steady_step ].

Ltac steady_prog := repeat steady_known.

Lemma steadyM_start_services (env : Env) : steadyM (start_services env).
Proof. unfold start_services, srv_start. steady_prog. Qed.

Lemma steadyM_stop_services (env : Env) : steadyM (stop_services env).
Proof. unfold stop_services, srv_stop. steady_prog. Qed.

Lemma steadyM_restart_services (env : Env) : steadyM (restart_services env).
Proof. unfold restart_services, srv_restart. steady_prog. Qed.

Lemma steadyM_wait_services_up (env : Env) : steadyM (wait_services_up env).
Proof.
  unfold wait_services_up, _scylla_service_is_up, is_port_free. steady_prog.
Qed.

Lemma steadyM_try_report_uuid (env : Env) : steadyM (try_report_uuid env).
Proof. unfold try_report_uuid. steady_prog. Qed.

Lemma steadyM_is_systemd (env : Env) : steadyM (is_systemd env).
Proof. unfold is_systemd. steady_prog. Qed.

Lemma steadyM_setup_and_verify (env : Env) : steadyM (setup_and_verify env).
Proof.
  unfold setup_and_verify.
  repeat first
    [ apply steadyM_start_services
    | apply steadyM_wait_services_up
    | apply steadyM_try_report_uuid
    | apply steadyM_is_systemd
    | steady_known ].
Qed.

Lemma steadyM_inherited (env : Env) (b : Backend) (method : string)
      (arg : option string) :
  steadyM (inherited env b method arg).
Proof. unfold inherited. steady_prog. Qed.

Lemma steadyM_upgrade (env : Env) (b : Backend) (name : option string) :
  steadyM (upgrade env b name).
Proof.
  unfold upgrade.
  destruct b; try apply steadyM_inherited.
  unfold ScyllaAptBackend_upgrade, update_pkg_list. steady_prog.
Qed.

Lemma steadyM_remove (env : Env) (b : Backend) (name : string) :
  steadyM (remove env b name).
Proof. apply steadyM_inherited. Qed.

Lemma steadyM_curl (env : Env) (src dst : string) : steadyM (curl env src dst).
Proof. unfold curl. steady_prog. Qed.

Lemma steadyM_run_each (env : Env) (cmds : list string) :
  steadyM (run_each env cmds).
Proof. unfold run_each. steady_prog. Qed.

(** *** Steps that resolve the backend or record failures *)

Lemma no_inspection (calls : list Call) :
  existsb is_inspection calls = false -> inspections calls = 0.
Proof.
  unfold inspections. induction calls as [|c calls IH]; [reflexivity|].
  cbn [existsb filter]. intros H. apply orb_false_iff in H as [Hc Hl].
  rewrite Hc. now apply IH.
Qed.

Lemma inspections_app (c1 c2 : list Call) :
  inspections (c1 ++ c2) = inspections c1 + inspections c2.
Proof. unfold inspections. now rewrite filter_app, length_app. Qed.

Lemma advances_of_steady {A} (st : State) (out : Result A * State) :
  steady st (snd out) -> advances st out.
Proof.
  intros [Hr [Hm [calls [Ht [Hk Hi]]]]]. split.
  - exists []. now rewrite app_nil_r.
  - exists calls. repeat split; try assumption.
    left. split; [assumption | now apply no_inspection].
Qed.

(** One outcome after the other, when the first did not stop on an
    unknown tool. *)
Lemma advances_then {A B} (st st1 : State) (r1 : Result A)
      (out : Result B * State) :
  advances st (r1, st1) -> halted r1 = false -> advances st1 out ->
  advances st out.
Proof.
  intros [[a1 Hr1] [c1 [Ht1 [Hk1 Hm1]]]] Hgo [[a2 Hr2] [c2 [Ht2 [Hk2 Hm2]]]].
  cbn [fst snd] in *. split.
  - exists (a1 ++ a2)%list. now rewrite Hr2, Hr1, <- app_assoc.
  - exists (c1 ++ c2)%list. rewrite Ht2, Ht1, <- app_assoc.
    rewrite existsb_app, Hk1, Hk2, inspections_app.
    repeat split.
    destruct Hm1 as [[Hs1 Hi1] | [Hu1 [Hi1 [[b Hb] | [Hs1 Hh]]]]].
    + destruct Hm2 as [[Hs2 Hi2] | [Hu2 [Hi2 Hm2]]].
      * left. split; [congruence | lia].
      * right. rewrite Hs1 in Hu2. split; [assumption|].
        split; [lia|].
        destruct Hm2 as [[b Hb] | [Hs2 Hh]];
          [left; now exists b | right; split; [congruence | assumption]].
    + destruct Hm2 as [[Hs2 Hi2] | [Hu2 _]].
      * right. split; [assumption|]. split; [lia|].
        left. exists b. congruence.
      * rewrite Hb in Hu2. discriminate Hu2.
    + congruence.
Qed.

Lemma advancesM_steady {A} (m : M A) : steadyM m -> advancesM m.
Proof. intros H st. apply advances_of_steady, H. Qed.

Lemma advancesM_bind {A B} (m : M A) (k : A -> M B) :
  advancesM m -> (forall a, advancesM (k a)) -> advancesM (bind m k).
Proof.
  intros Hm Hk st. unfold bind. specialize (Hm st).
  destruct (m st) as [[a|e] st1].
  - eapply advances_then; [exact Hm | reflexivity | apply Hk].
  - destruct Hm as [Hr [calls [Ht [Hmk Hmgr]]]]. split; [exact Hr|].
    exists calls. repeat split; assumption.
Qed.

Lemma advancesM_for_each {A} (l : list A) (body : A -> M unit) :
  (forall x, advancesM (body x)) -> advancesM (for_each l body).
Proof.
  intros Hb. induction l as [|x l IH]; cbn [for_each].
  - apply advancesM_steady, steadyM_ret.
  - apply advancesM_bind; [apply Hb | intros _; exact IH].
Qed.

(** Looking up a backend method inspects the tooling only when no backend
    is stored yet. *)
Lemma advancesM_getattr (env : Env) : advancesM (__getattr__ env).
Proof.
  intros st. destruct (initialized (sw_manager st)) eqn:Hinit.
  - apply advances_of_steady.
    unfold __getattr__, _init_on_demand, bind, get_manager, ret, raise.
    rewrite Hinit. cbn [negb fst snd].
    destruct (backend (sw_manager st)); apply steady_refl.
  - destruct (backend_mapping (package_management_out env (trace st)))
      as [b|] eqn:Hmap.
    + rewrite (Manager.getattr_resolves env st b Hinit Hmap).
      split; [exists []; now rewrite app_nil_r|].
      exists [c_package_management]. repeat split.
      right. repeat split; [assumption|]. left. now exists b.
    + rewrite (Manager.getattr_unrecognized env st Hinit Hmap).
      split; [exists []; now rewrite app_nil_r|].
      exists [c_package_management]. repeat split.
      right. repeat split; [assumption|]. right. now split.
Qed.

(** An install call may only add to the registry. *)
Lemma advancesM_install (env : Env) (b : Backend) (name : string) :
  advancesM (install env b name).
Proof.
  intros st. destruct (overrides_install b) eqn:Hb.
  - pose proof (Backends.rpm_install_run env b name st Hb) as H.
    cbv zeta in H. rewrite H.
    destruct (Z.eqb (exit_status (install_result env b name st)) 0).
    + split; [eexists; reflexivity|].
      exists [c_run (install_command env b name) true]. repeat split.
      left. now split.
    + split; [exists []; now rewrite app_nil_r|].
      exists [c_run (install_command env b name) true]. repeat split.
      left. now split.
  - pose proof (Backends.inherited_install_run env b name st Hb) as H.
    cbv zeta in H. rewrite H.
    split; [exists []; now rewrite app_nil_r|].
    exists [c_run (install_command env b name) true]. repeat split.
    left. now split.
Qed.

Ltac adv_step :=
  first
    [ apply advancesM_getattr
    | apply advancesM_install
    | apply advancesM_steady;
      first [ apply steadyM_upgrade | apply steadyM_remove
            | apply steadyM_curl | apply steadyM_run_each
            | apply steadyM_setup_and_verify
            | apply steadyM_wait_for; apply steadyM_upgrade
            | apply steadyM_process_run
            | apply steadyM_ret | apply steadyM_raise | apply steadyM_lift ]
    | apply advancesM_for_each; intros ?
    | apply advancesM_bind; [ | intros ? ]
    | match goal with
      | |- advancesM (if ?c then _ else _) => destruct c
      | |- advancesM (match ?x with _ => _ end) => destruct x
      | |- advancesM (let (_, _) := ?x in _) => destruct x
      end
    | progress cbv zeta ].

Ltac adv_all := repeat adv_step.

Lemma advancesM_sw_manager_upgrade (env : Env) :
  advancesM (sw_manager_upgrade env).
Proof. unfold sw_manager_upgrade. adv_all. Qed.

Lemma advancesM_sw_manager_remove (env : Env) (name : string) :
  advancesM (sw_manager_remove env name).
Proof. unfold sw_manager_remove. adv_all. Qed.

Lemma advancesM_sw_manager_install (env : Env) (name : string) :
  advancesM (sw_manager_install env name).
Proof. unfold sw_manager_install. adv_all. Qed.

Lemma advancesM_install_packages (env : Env) (pkgs : list string) :
  advancesM (install_packages env pkgs).
Proof.
  unfold install_packages. apply advancesM_for_each; intros pkg.
  apply advancesM_bind; [apply advancesM_sw_manager_install | intros ok].
  adv_all.
Qed.

Ltac adv_prog :=
  repeat first
    [ apply advancesM_sw_manager_upgrade
    | apply advancesM_sw_manager_remove
    | apply advancesM_install_packages
    | adv_step ].

Lemma advancesM_plain_setup (env : Env) (sw_repo : option string)
      (dst pkg : string) :
  advancesM (plain_setup env sw_repo dst pkg).
Proof. unfold plain_setup. adv_prog. Qed.

Lemma advancesM_apt_gated_setup (env : Env) (sw_repo : option string)
      (pkg : string) (jre : list string) :
  advancesM (apt_gated_setup env sw_repo pkg jre).
Proof. unfold apt_gated_setup. adv_prog. Qed.

Lemma advancesM_ubuntu1404_setup_ci (env : Env) (sw_repo : option string) :
  advancesM (ScyllaInstallUbuntu1404_setup_ci env sw_repo).
Proof. unfold ScyllaInstallUbuntu1404_setup_ci. adv_prog. Qed.

Lemma advancesM_fedora22_setup_release (env : Env) (mode : string) :
  advancesM (ScyllaInstallFedora22_setup_release env mode).
Proof. unfold ScyllaInstallFedora22_setup_release. adv_prog. Qed.

Lemma advancesM_centos_remove (env : Env) :
  advancesM (_centos_remove_system_packages env).
Proof. unfold _centos_remove_system_packages. adv_prog. Qed.

(** [run] advances when the two set-up methods of the installer do. *)
Lemma advancesM_run (env : Env) (self : Installer) :
  advancesM (setup_ci self) -> advancesM (setup_release self) ->
  advancesM (run env self).
Proof.
  intros Hci Hrel. unfold run.
  apply advancesM_bind; [apply advancesM_getattr | intros b].
  apply advancesM_bind;
    [apply advancesM_steady, steadyM_wait_for, steadyM_upgrade | intros _].
  cbv zeta.
  apply advancesM_bind;
    [destruct (String.eqb (mode self) "ci"); assumption | intros pkgs].
  apply advancesM_bind; [apply advancesM_install_packages | intros _].
  apply advancesM_steady, steadyM_setup_and_verify.
Qed.

End Invariants.

(** ** The JRE steps of Ubuntu 14.04 in the trace *)

Module JreGate.

Lemma trace_grows {A} (m : M A) (st : State) :
  advancesM m ->
  exists rest, trace (snd (m st)) = (trace st ++ rest)%list.
Proof.
  intros H. destruct (H st) as [_ [calls [Ht _]]]. now exists calls.
Qed.

Lemma steps_then_upgrade_advance (env : Env) (cmds : list string) :
  advancesM (run_each env cmds ;; sw_manager_upgrade env ;; ret ["scylla"]).
Proof.
  apply Invariants.advancesM_bind;
    [apply Invariants.advancesM_steady, Invariants.steadyM_run_each|].
  intros _. apply Invariants.advancesM_bind;
    [apply Invariants.advancesM_sw_manager_upgrade|].
  intros _. apply Invariants.advancesM_steady, Invariants.steadyM_ret.
Qed.

(** One step that exits with status 0. *)
Lemma step_ok (env : Env) (cmd : string) (st : State) :
  exit_status (run_out env (trace st) cmd false) = 0%Z ->
  (process_run env cmd false false ;; ret tt) st
  = (Ok tt, called st (c_run cmd false)).
Proof.
  intros H. unfold bind.
  rewrite Backends.process_run_ok
    by (apply Z.eqb_eq in H; now rewrite H).
  reflexivity.
Qed.

(** The five steps, when each exits with status 0. *)
Lemma jre_steps_run (env : Env) (st : State) :
  all_succeed env (trace st) ubuntu1404_jre_calls ->
  run_each env ubuntu1404_jre st
  = (Ok tt, with_trace st (trace st ++ ubuntu1404_jre_calls)%list).
Proof.
  intros [H1 [H2 [H3 [H4 [H5 _]]]]].
  unfold run_each, ubuntu1404_jre. cbn [for_each].
  unfold bind at 1. rewrite (step_ok env _ st H1).
  unfold bind at 1. rewrite step_ok by exact H2.
  unfold bind at 1. rewrite step_ok by exact H3.
  unfold bind at 1. rewrite step_ok by exact H4.
  unfold bind at 1. rewrite step_ok by exact H5.
  unfold ret, ubuntu1404_jre_calls. cbv [called with_trace].
  cbn [trace SCRIPTLET_FAILURE_LIST sw_manager].
  rewrite <- !app_assoc. reflexivity.
Qed.

(** C8.  In the Ubuntu 14.04 CI set-up, once [apt-cache show] has
    answered: for the resolved version 1.6.3 the JRE steps are skipped
    and the set-up goes straight from that state to the upgrade; for
    every resolved version whose release numbers denote 1.7.0 or higher
    the first JRE step is the next call made, and when each step exits
    with status 0 the five steps are the next five calls, in order, and
    the upgrade follows them.  The comparison is on release numbers, not
    on characters. *)
Theorem jre_gate_compares_release_numbers
        (env : Env) (sw_repo : option string) (st st1 : State)
        (result : CmdResult) (ver : string) :
  ubuntu1404_show env sw_repo st = (Ok result, st1) ->
  resolved_version (stdout result) = Ok ver ->
  let out := ScyllaInstallUbuntu1404_setup_ci env sw_repo st in
  (ver = "1.6.3" ->
   out = (sw_manager_upgrade env ;; ret ["scylla"]) st1)
  /\ (forall segs,
        Version.parse_dotted ver = Some segs -> at_least_1_7 segs ->
        (exists rest,
            trace (snd out)
            = (trace st1
               ++ c_run "sudo apt-get install software-properties-common -y"
                        false
               :: rest)%list)
        /\ (all_succeed env (trace st1) ubuntu1404_jre_calls ->
            out = (sw_manager_upgrade env ;; ret ["scylla"])
                    (with_trace st1
                       (trace st1 ++ ubuntu1404_jre_calls)%list)
            /\ exists rest,
                trace (snd out)
                = (trace st1 ++ ubuntu1404_jre_calls ++ rest)%list)).
Proof.
  intros Hshow Hver out. subst out. split.
  - intros ->.
    rewrite (Installers.setup_ci_after_show _ _ _ _ _ _ Hshow Hver).
    rewrite Installers.gate_1_6_3. reflexivity.
  - intros segs Hparse Hge.
    rewrite (Installers.setup_ci_after_show _ _ _ _ _ _ Hshow Hver).
    rewrite (Installers.gate_opens env ver segs Hparse Hge).
    split.
    + unfold run_each, ubuntu1404_jre. cbn [for_each].
      rewrite Installers.bind_assoc. unfold bind at 1.
      destruct (Z.eqb (exit_status
                         (run_out env (trace st1)
                            "sudo apt-get install software-properties-common -y"
                            false)) 0) eqn:E.
      * rewrite (step_ok env _ st1 (proj1 (Z.eqb_eq _ _) E)).
        destruct (trace_grows _ (called st1
                    (c_run "sudo apt-get install software-properties-common -y"
                           false))
                    (steps_then_upgrade_advance env
                       ["sudo add-apt-repository -y ppa:openjdk-r/ppa";
                        "sudo apt-get update";
                        "sudo apt-get install -y openjdk-8-jre-headless";
                        "sudo update-java-alternatives -s java-1.8.0-openjdk-amd64"]))
          as [rest Hrest].
        exists rest. unfold run_each in Hrest. cbn [for_each] in Hrest.
        rewrite Hrest.
        cbv [called with_trace]. cbn [trace].
        now rewrite <- app_assoc.
      * unfold bind at 1. rewrite Backends.process_run_fails by exact E.
        exists []. reflexivity.
    + intros Hall.
      assert (E : (run_each env ubuntu1404_jre ;;
                   sw_manager_upgrade env ;; ret ["scylla"]) st1
                  = (sw_manager_upgrade env ;; ret ["scylla"])
                      (with_trace st1
                         (trace st1 ++ ubuntu1404_jre_calls)%list))
        by (unfold bind at 1; now rewrite (jre_steps_run env st1 Hall)).
      rewrite E. split; [reflexivity|].
      destruct (trace_grows (sw_manager_upgrade env ;; ret ["scylla"])
                  (with_trace st1 (trace st1 ++ ubuntu1404_jre_calls)%list))
        as [rest Hrest].
      { apply Invariants.advancesM_bind;
          [apply Invariants.advancesM_sw_manager_upgrade|].
        intros _. apply Invariants.advancesM_steady, Invariants.steadyM_ret. }
      exists rest. rewrite Hrest. cbv [with_trace]. cbn [trace].
      now rewrite <- app_assoc.
Qed.

Lemma jre_gate_witness :
  (* 1.6.3: no JRE step between the look-up and the upgrade *)
  trace (snd (ScyllaInstallUbuntu1404_setup_ci
                (trusty_host "1.6.3-0ubuntu1") None initial_state))
  = [c_run "sudo curl None -o /etc/apt/sources.list.d/scylla.list" false;
     c_run "sudo apt-get update" false;
     c_run "sudo apt-cache show scylla" false;
     c_package_management;
     c_run "apt-get -y update" false;
     c_run "apt-get -y -o Dpkg::Options::=--force-confdef upgrade" true]
  (* 1.7.0: the five JRE steps *)
  /\ all_succeed (trusty_host "1.7.0-0ubuntu1") (trace after_show)
                 ubuntu1404_jre_calls
  /\ trace (snd (ScyllaInstallUbuntu1404_setup_ci
                   (trusty_host "1.7.0-0ubuntu1") None initial_state))
     = (trace after_show ++ ubuntu1404_jre_calls
        ++ [c_package_management;
            c_run "apt-get -y update" false;
            c_run "apt-get -y -o Dpkg::Options::=--force-confdef upgrade"
                  true])%list
  (* 1.10.2: smaller than 1.7 as a string, higher as a version *)
  /\ String.ltb "1.10.2" "1.7" = true
  /\ ScyllaInstallUbuntu1404_setup_ci (trusty_host "1.10.2-0ubuntu1") None
                                      initial_state
     = (sw_manager_upgrade (trusty_host "1.10.2-0ubuntu1") ;;
        ret ["scylla"])
         (with_trace after_show
            (trace after_show ++ ubuntu1404_jre_calls)%list).
Proof.
  assert (Hall : forall ver,
             all_succeed (trusty_host ver) (trace after_show)
                         ubuntu1404_jre_calls)
    by (intros ver; repeat split).
  split; [|split; [apply Hall|split; [|split; [reflexivity|]]]].
  - rewrite (proj1 (jre_gate_compares_release_numbers
                      (trusty_host "1.6.3-0ubuntu1") None initial_state
                      after_show
                      (apt_answers "1.6.3-0ubuntu1"
                                   "sudo apt-cache show scylla")
                      "1.6.3" eq_refl eq_refl) eq_refl).
    reflexivity.
  - assert (Hge : at_least_1_7 [1; 7; 0]%N)
      by (right; split; [reflexivity | discriminate]).
    rewrite (proj1 (proj2 (proj2 (jre_gate_compares_release_numbers
                      (trusty_host "1.7.0-0ubuntu1") None initial_state
                      after_show
                      (apt_answers "1.7.0-0ubuntu1"
                                   "sudo apt-cache show scylla")
                      "1.7.0" eq_refl eq_refl) [1; 7; 0]%N eq_refl Hge)
                    (Hall "1.7.0-0ubuntu1"))).
    reflexivity.
  - refine (proj1 (proj2 (proj2 (jre_gate_compares_release_numbers
                      (trusty_host "1.10.2-0ubuntu1") None initial_state
                      after_show
                      (apt_answers "1.10.2-0ubuntu1"
                                   "sudo apt-cache show scylla")
                      "1.10.2" eq_refl eq_refl) [1; 10; 2]%N eq_refl _)
                    (Hall "1.10.2-0ubuntu1"))).
    right. split; [reflexivity | discriminate].
Defined.

End JreGate.

(** ** A run as a whole *)

Module WholeRun.

Lemma advances_installer_run (env : Env) (ami_run : M unit) (v : Variant)
      (sw_repo : option string) (mode : string) :
  v <> ScyllaInstallAMI ->
  advancesM (installer_run env ami_run v sw_repo mode).
Proof.
  intros Hv. destruct v; [congruence | ..]; cbn [installer_run];
    apply Invariants.advancesM_run;
    cbn [setup_ci setup_release new_ScyllaInstallUbuntu1404
         new_ScyllaInstallUbuntu1604 new_ScyllaInstallDebian8
         new_ScyllaInstallFedora22 new_ScyllaInstallCentOS7];
    first [ apply Invariants.advancesM_plain_setup
          | apply Invariants.advancesM_apt_gated_setup
          | apply Invariants.advancesM_ubuntu1404_setup_ci
          | apply Invariants.advancesM_fedora22_setup_release
          | apply Invariants.advancesM_bind;
            [apply Invariants.advancesM_centos_remove
            | intros _; apply Invariants.advancesM_plain_setup] ].
Qed.

(** X5.  Stopping, starting and restarting the services, waiting for
    them, and everything [run] does once the packages are installed (host
    set-up, service start, readiness wait, identifier report,
    verification) leave the scriptlet-failure registry and the resolved
    backend exactly as they were, inspect the package tooling never, and
    do not write the set-up sentinel. *)
Theorem lifecycle_and_verification_are_steady (env : Env) (st : State) :
  steady st (snd (stop_services env st))
  /\ steady st (snd (start_services env st))
  /\ steady st (snd (restart_services env st))
  /\ steady st (snd (wait_services_up env st))
  /\ steady st (snd (setup_and_verify env st)).
Proof.
  split; [apply Invariants.steadyM_stop_services|].
  split; [apply Invariants.steadyM_start_services|].
  split; [apply Invariants.steadyM_restart_services|].
  split; [apply Invariants.steadyM_wait_services_up|].
  apply Invariants.steadyM_setup_and_verify.
Qed.

(** X6.  Whatever the host answers, a run of any of the five package
    installers only appends to the scriptlet-failure registry, inspects
    the package tooling at most once, and does not write the set-up
    sentinel; when a backend is already stored, the run keeps it and does
    not inspect the tooling at all. *)
Theorem run_only_adds_and_resolves_once
        (env : Env) (ami_run : M unit) (v : Variant)
        (sw_repo : option string) (mode : string) (st : State) :
  v <> ScyllaInstallAMI ->
  let out := installer_run env ami_run v sw_repo mode st in
  exists added calls,
    SCRIPTLET_FAILURE_LIST (snd out)
    = (SCRIPTLET_FAILURE_LIST st ++ added)%list
    /\ trace (snd out) = (trace st ++ calls)%list
    /\ existsb is_mknod calls = false
    /\ inspections calls <= 1
    /\ (forall b, sw_manager st = resolved b ->
          sw_manager (snd out) = resolved b /\ inspections calls = 0).
Proof.
  intros Hv out.
  destruct (advances_installer_run env ami_run v sw_repo mode Hv st)
    as [[added Hr] [calls [Ht [Hk Hm]]]].
  exists added, calls. fold out in Hr, Ht, Hm.
  repeat split; try assumption.
  - destruct Hm as [[_ Hi] | [_ [Hi _]]]; lia.
  - destruct Hm as [[Hs _] | [Hu _]]; [congruence|].
    rewrite H in Hu. discriminate Hu.
  - destruct Hm as [[_ Hi] | [Hu _]]; [assumption|].
    rewrite H in Hu. discriminate Hu.
Qed.

Lemma run_only_adds_witness :
  ScyllaInstallFedora22 <> ScyllaInstallAMI
  /\ exists added calls,
      SCRIPTLET_FAILURE_LIST
        (snd (installer_run scriptlet_host (ret tt) ScyllaInstallFedora22
                            None "ci" initial_state))
      = ([] ++ added)%list
      /\ trace (snd (installer_run scriptlet_host (ret tt)
                                   ScyllaInstallFedora22 None "ci"
                                   initial_state))
         = ([] ++ calls)%list
      /\ existsb is_mknod calls = false
      /\ inspections calls <= 1.
Proof.
  assert (Hv : ScyllaInstallFedora22 <> ScyllaInstallAMI) by discriminate.
  split; [exact Hv|].
  destruct (run_only_adds_and_resolves_once
              scriptlet_host (ret tt) ScyllaInstallFedora22 None "ci"
              initial_state Hv)
    as [added [calls [Hr [Ht [Hk [Hi _]]]]]].
  exists added, calls. repeat split; assumption.
Defined.

Lemma inherited_run (env : Env) (b : Backend) (method : string)
      (arg : option string) (st : State) :
  inherited env b method arg st
  = (Ok (Z.eqb (exit_status (run_out env (trace st)
                                     (inherited_command env b method arg)
                                     true)) 0),
     called st (c_run (inherited_command env b method arg) true)).
Proof.
  unfold inherited, except_CmdError. unfold bind at 1.
  destruct (Z.eqb (exit_status (run_out env (trace st)
                                        (inherited_command env b method arg)
                                        true)) 0) eqn:E.
  - now rewrite Backends.process_run_ok by exact E.
  - now rewrite Backends.process_run_fails by exact E.
Qed.

Lemma upgrade_never_succeeds (env : Env) (b : Backend) (polls : nat) :
  b <> ScyllaAptBackend ->
  (forall t, exit_status (run_out env t (inherited_command env b "upgrade" None)
                                  true) <> 0%Z) ->
  forall st,
    wait_for_loop polls (upgrade env b None) 30 st
    = (Ok None,
       with_trace st
         (trace st
          ++ List.concat (List.repeat (upgrade_poll_calls env b) polls))%list).
Proof.
  intros Hb Hfail. induction polls as [|n IH]; intros st.
  - simpl. unfold ret, with_trace. rewrite app_nil_r. now destruct st.
  - cbn [wait_for_loop]. unfold bind at 1.
    assert (E : upgrade env b None st = inherited env b "upgrade" None st)
      by (destruct b; [congruence | reflexivity ..]).
    rewrite E, inherited_run.
    rewrite (proj2 (Z.eqb_neq _ _) (Hfail (trace st))).
    unfold bind at 1. unfold record at 1. rewrite IH.
    cbv [with_trace called].
    cbn [trace SCRIPTLET_FAILURE_LIST sw_manager List.repeat List.concat].
    unfold upgrade_poll_calls at 2.
    repeat rewrite <- app_assoc. reflexivity.
Qed.

(** X13.  On a host whose package tool is not one of the four known, a
    run with a fresh manager stops at once with [NotImplementedError]:
    the inspection of the tooling is its only call, so nothing has been
    upgraded, registered or installed. *)
Theorem run_stops_on_unknown_tool (env : Env) (self : Installer) (st : State) :
  initialized (sw_manager st) = false ->
  (forall b, ~ tool_backend (package_management_out env (trace st)) b) ->
  run env self st
  = (Raise (NotImplementedError
              ("Unimplemented package management system: "
               ++ package_management_out env (trace st) ++ ".")),
     called st c_package_management).
Proof.
  intros Hinit Hnone. unfold run. unfold bind at 1.
  rewrite (Manager.getattr_unrecognized env st Hinit
             (Manager.unrecognized_tool _ Hnone)).
  reflexivity.
Qed.

Lemma run_stops_on_unknown_tool_witness :
  run pacman_host (new_ScyllaInstallFedora22 pacman_host None "ci")
      initial_state
  = (Raise (NotImplementedError
              "Unimplemented package management system: pacman."),
     called initial_state c_package_management).
Proof.
  refine (run_stops_on_unknown_tool
            pacman_host (new_ScyllaInstallFedora22 pacman_host None "ci")
            initial_state eq_refl _).
  intros b Hb. inversion Hb.
Defined.

(** X14.  [run] does not depend on the system upgrade it starts with.
    On a fresh manager and a host whose package tool is yum, dnf or
    zypper, the tooling is inspected once and the backend stored; when
    the backend's upgrade command then fails at every attempt it is tried
    ten times, thirty seconds apart, and the run goes on from there with
    the set-up of the repository, the installs and the verification. *)
Theorem run_continues_after_failed_upgrade
        (env : Env) (b : Backend) (self : Installer) (st : State) :
  initialized (sw_manager st) = false ->
  tool_backend (package_management_out env (trace st)) b ->
  b <> ScyllaAptBackend ->
  (forall t, exit_status (run_out env t (inherited_command env b "upgrade" None)
                                  true) <> 0%Z) ->
  run env self st
  = (pkgs <- (if String.eqb (mode self) "ci"
              then setup_ci self else setup_release self) ;;
     install_packages env pkgs ;;
     setup_and_verify env) (after_failed_upgrades env b st).
Proof.
  intros Hinit Htool Hb Hfail. unfold run. unfold bind at 1.
  rewrite (Manager.getattr_resolves env st b Hinit
             (proj2 (Manager.backend_mapping_table _ _) Htool)).
  unfold bind at 1. unfold wait_for.
  change (polls_within 300 30) with 10.
  rewrite (upgrade_never_succeeds env b 10 Hb Hfail).
  unfold after_failed_upgrades. cbv [with_trace with_manager called].
  cbn [trace SCRIPTLET_FAILURE_LIST sw_manager].
  rewrite <- app_assoc. reflexivity.
Qed.

Lemma run_continues_after_failed_upgrade_witness :
  initialized (sw_manager initial_state) = false
  /\ tool_backend (package_management_out no_upgrade_host []) ScyllaYumBackend
  /\ (forall t,
        exit_status (run_out no_upgrade_host t
                             (inherited_command no_upgrade_host
                                                ScyllaYumBackend "upgrade"
                                                None) true) <> 0%Z)
  /\ fst (run no_upgrade_host
              (new_ScyllaInstallFedora22 no_upgrade_host None "ci")
              initial_state)
     = Ok tt
  /\ firstn 21
       (trace (snd (run no_upgrade_host
                        (new_ScyllaInstallFedora22 no_upgrade_host None "ci")
                        initial_state)))
     = c_package_management
       :: List.concat
            (List.repeat [c_run "yum -y upgrade" true; c_sleep 30] 10).
Proof.
  assert (Hb : ScyllaYumBackend <> ScyllaAptBackend) by discriminate.
  assert (Hfail : forall t,
             exit_status (run_out no_upgrade_host t
                                  (inherited_command no_upgrade_host
                                                     ScyllaYumBackend
                                                     "upgrade" None) true)
             <> 0%Z) by (intros t; discriminate).
  split; [reflexivity|]. split; [constructor|]. split; [exact Hfail|].
  rewrite (run_continues_after_failed_upgrade
             no_upgrade_host ScyllaYumBackend
             (new_ScyllaInstallFedora22 no_upgrade_host None "ci")
             initial_state eq_refl tool_yum Hb Hfail).
  split; reflexivity.
Defined.

Lemma selected_is_not_ami (d : Distro) (v : Variant) :
  select_installer false d = Some v -> v <> ScyllaInstallAMI.
Proof.
  intros H. apply Dispatcher.select_sound in H. inversion H; discriminate.
Qed.

(** X7.  On a host that is not a cloud image, [scylla_setup] writes the
    set-up sentinel exactly when the selected installer's run returned
    normally, and then as its very last call; when the platform is not
    supported or the run raises, no sentinel is written. *)
Theorem sentinel_marks_a_completed_setup
        (env : Env) (ami_run : M unit) (params : Params) (st : State) :
  ami params = false ->
  let out := scylla_setup env ami_run params st in
  exists calls,
    trace (snd out) = (trace st ++ calls)%list
    /\ match fst out with
       | Ok _ =>
           exists before,
             calls = (before ++ [c_mknod (setup_file_done env)])%list
             /\ existsb is_mknod before = false
       | Raise _ => existsb is_mknod calls = false
       end.
Proof.
  intros Hami out.
  assert (E : out
              = match select_installer false (detect_out env (trace st)) with
                | Some v =>
                    (installer_run env ami_run v (sw_repo params)
                                   (param_mode params) ;;
                     record (c_mknod (setup_file_done env)))
                      (called st c_detect)
                | None =>
                    (Raise (TestSkipError
                              ("Unsupported OS: "
                               ++ distro_str env (detect_out env (trace st)))),
                     called st c_detect)
                end).
  { subst out. unfold scylla_setup. unfold bind at 1.
    rewrite Dispatcher.distro_detect_run, Hami.
    now destruct (select_installer false (detect_out env (trace st))). }
  rewrite E. clear E out.
  destruct (select_installer false (detect_out env (trace st)))
    as [v|] eqn:Hsel.
  - pose proof (advances_installer_run env ami_run v (sw_repo params)
                  (param_mode params) (selected_is_not_ami _ _ Hsel)
                  (called st c_detect)) as [_ [calls [Ht [Hk _]]]].
    unfold bind.
    destruct (installer_run env ami_run v (sw_repo params)
                            (param_mode params) (called st c_detect))
      as [[[]|e] st1]; unfold record; cbn [fst snd trace] in *.
    + exists (c_detect :: calls ++ [c_mknod (setup_file_done env)])%list.
      split.
      * rewrite Ht. unfold called, with_trace. cbn [trace].
        now rewrite <- !app_assoc.
      * exists (c_detect :: calls). split; [reflexivity | exact Hk].
    + exists (c_detect :: calls). split; [|exact Hk].
      rewrite Ht. unfold called, with_trace. cbn [trace].
      now rewrite <- app_assoc.
  - exists [c_detect]. split; reflexivity.
Qed.

Lemma sentinel_marks_witness :
  ami release_params = false
  /\ fst (scylla_setup healthy_host (ret tt) release_params initial_state)
     = Ok tt
  /\ fst (scylla_setup arch_host (ret tt) release_params initial_state)
     = Raise (TestSkipError "Unsupported OS: Arch rolling ")
  /\ exists calls,
      trace (snd (scylla_setup arch_host (ret tt) release_params
                               initial_state))
      = ([] ++ calls)%list
      /\ existsb is_mknod calls = false.
Proof.
  split; [reflexivity|]. split; [reflexivity|]. split; [reflexivity|].
  destruct (sentinel_marks_a_completed_setup
              arch_host (ret tt) release_params initial_state eq_refl)
    as [calls [Ht Hk]].
  exists calls. split; [exact Ht | exact Hk].
Defined.

End WholeRun.

(** ** Set-up without a version, and repeated inspections *)

Module EdgeCases.

Lemma no_field_no_version (s : string) :
  version_field s = false ->
  forall skip, Py.findall_version_go skip s = [].
Proof.
  induction s as [|c s IH]; intros H skip; [reflexivity|].
  cbn [version_field] in H. apply orb_false_iff in H as [Hhere Hlater].
  cbn [Py.findall_version_go]. destruct skip as [|k]; [|now apply IH].
  destruct (Py.startswith "Version: " (String c s)); [|now apply IH].
  cbn [andb] in Hhere.
  destruct (Py.drop 9 (String c s)) as [|d rest]; cbn [Py.span].
  - now apply IH.
  - rewrite Hhere. now apply IH.
Qed.

Lemma no_literal_no_version (s : string) :
  Py.contains "Version: " s = false -> Py.re_findall_version_line s = [].
Proof.
  intros H. unfold Py.re_findall_version_line.
  now rewrite (PyFacts.search_false_findall "Version: " s H).
Qed.

(** X8.  The apt set-ups with a version gate need a version in the
    output of [apt-cache show]: when that output holds no [Version: ]
    field (for the Ubuntu 14.04 CI set-up: none followed by a digit or a
    dot), the set-up stops there with [IndexError]; neither the JRE
    steps nor the upgrade are run. *)
Theorem gated_setup_needs_a_version
        (env : Env) (sw_repo : option string) (pkg : string)
        (jre : list string) (st st1 : State) (result : CmdResult) :
  apt_show env sw_repo pkg st = (Ok result, st1) ->
  (Py.contains "Version: " (stdout result) = false ->
   apt_gated_setup env sw_repo pkg jre st = (Raise IndexError, st1))
  /\ (pkg = "scylla" -> version_field (stdout result) = false ->
      ScyllaInstallUbuntu1404_setup_ci env sw_repo st
      = (Raise IndexError, st1)).
Proof.
  intros Hshow. split.
  - intros Hnone.
    transitivity
      (bind (apt_show env sw_repo pkg)
         (fun result =>
            ver <- lift (first_item
                           (Py.re_findall_version_line (stdout result))) ;;
            (if parse_version_ge env ver "1.7~rc0"
             then run_each env jre else ret tt) ;;
            sw_manager_upgrade env ;; ret [pkg]) st).
    + unfold apt_gated_setup, apt_show.
      rewrite Installers.bind_assoc.
      apply Installers.bind_cong; intros ? ?.
      rewrite Installers.bind_assoc. reflexivity.
    + rewrite (Installers.bind_ok _ _ _ _ _ Hshow).
      unfold bind, lift. now rewrite no_literal_no_version.
  - intros -> Hnone.
    transitivity
      (bind (apt_show env sw_repo "scylla")
         (fun result =>
            v <- lift (first_item (Py.re_findall_version (stdout result))) ;;
            (if parse_version_ge env (Py.strip_by Py.is_dot v) "1.7"
             then run_each env ubuntu1404_jre else ret tt) ;;
            sw_manager_upgrade env ;; ret ["scylla"]) st).
    + unfold ScyllaInstallUbuntu1404_setup_ci, apt_show.
      rewrite Installers.bind_assoc.
      apply Installers.bind_cong; intros ? ?.
      rewrite Installers.bind_assoc. reflexivity.
    + rewrite (Installers.bind_ok _ _ _ _ _ Hshow).
      unfold bind, lift, Py.re_findall_version.
      now rewrite no_field_no_version.
Qed.

Lemma gated_setup_needs_a_version_witness :
  apt_gated_setup unknown_package_host None "scylla" debian8_jre
                  initial_state
  = (Raise IndexError, after_show)
  /\ ScyllaInstallUbuntu1404_setup_ci unknown_package_host None initial_state
     = (Raise IndexError, after_show).
Proof.
  destruct (gated_setup_needs_a_version
              unknown_package_host None "scylla" debian8_jre initial_state
              after_show
              (unknown_package_answers "sudo apt-cache show scylla")
              eq_refl) as [Hgated Hci].
  split; [exact (Hgated eq_refl) | exact (Hci eq_refl eq_refl)].
Defined.

(** X9.  The registry is a list, not a set: inspecting one result after
    another appends the findings of the first and then those of the
    second, whatever was recorded before, so a package that fails twice
    is recorded twice. *)
Theorem inspections_accumulate (r1 r2 : CmdResult) (st : State) :
  (_search_scriptlet_failure r1 ;; _search_scriptlet_failure r2) st
  = (Ok tt,
     with_failures st
       (SCRIPTLET_FAILURE_LIST st
        ++ inspector_findings (stdout r1 ++ stderr r1)
        ++ inspector_findings (stdout r2 ++ stderr r2))%list).
Proof.
  unfold bind. rewrite Inspector.inspector_run.
  rewrite Inspector.inspector_run. unfold with_failures.
  cbn [trace SCRIPTLET_FAILURE_LIST sw_manager].
  now rewrite <- app_assoc.
Qed.

End EdgeCases.

(** ** The test methods *)

Module Tests.

Import PyText.

Lemma splitlines_nil (s : string) : splitlines s = [] -> s = EmptyString.
Proof.
  destruct s as [|c s]; [reflexivity|]. cbn [splitlines].
  destruct (Ascii.eqb c Py.newline); [discriminate|].
  destruct (Ascii.eqb c cr); [discriminate|].
  destruct (splitlines s); discriminate.
Qed.

(** The text before the first line end. *)
Lemma splitlines_head (s l : string) (ls : list string) :
  splitlines s = l :: ls -> l = Py.span (fun c => negb (is_break c)) s.
Proof.
  revert l ls. induction s as [|c s IH]; intros l ls; [discriminate|].
  cbn [splitlines Py.span]. unfold is_break.
  destruct (Ascii.eqb c Py.newline); [now intros [= <- _]|].
  destruct (Ascii.eqb c cr); [now intros [= <- _]|].
  cbn [orb negb].
  destruct (splitlines s) as [|l' ls'] eqn:E.
  - intros [= <- _]. now rewrite (splitlines_nil s E).
  - intros [= <- _]. now rewrite (IH l' ls' eq_refl).
Qed.

Lemma startswith_first_line (p : string) :
  no_break p = true ->
  forall s,
    Py.startswith p s
    = Py.startswith p (Py.span (fun c => negb (is_break c)) s).
Proof.
  induction p as [|a p IH]; intros Hp s; [reflexivity|].
  cbn [no_break] in Hp. apply andb_true_iff in Hp as [Ha Hp].
  destruct s as [|b s]; [reflexivity|].
  cbn [Py.span]. destruct (is_break b) eqn:Hb; cbn [negb Py.startswith].
  - destruct (Ascii.eqb_spec a b) as [->|]; [|reflexivity].
    rewrite Hb in Ha. discriminate Ha.
  - now rewrite (IH Hp s).
Qed.

Lemma startswith_at_break (p : string) (c : ascii) (s : string) :
  no_break p = true -> p <> EmptyString -> is_break c = true ->
  Py.startswith p (String c s) = false.
Proof.
  intros Hp Hne Hc. destruct p as [|a p]; [congruence|].
  cbn [no_break] in Hp. apply andb_true_iff in Hp as [Ha _].
  cbn [Py.startswith]. destruct (Ascii.eqb_spec a c) as [->|]; [|reflexivity].
  rewrite Hc in Ha. discriminate Ha.
Qed.

(** A text without line ends occurs in a text exactly when it occurs in
    one of its lines. *)
Lemma contains_by_lines (p : string) :
  no_break p = true -> p <> EmptyString ->
  forall s, existsb (Py.contains p) (splitlines s) = Py.contains p s.
Proof.
  intros Hp Hne.
  assert (Hempty : Py.contains p EmptyString = false).
  { destruct p; [congruence | reflexivity]. }
  induction s as [|c s IH]; [now rewrite Hempty|].
  cbn [splitlines Py.contains].
  destruct (Ascii.eqb c Py.newline) eqn:Hn.
  - rewrite startswith_at_break by (assumption || (unfold is_break; now rewrite Hn)).
    cbn [existsb]. now rewrite Hempty, IH.
  - destruct (Ascii.eqb c cr) eqn:Hr.
    + rewrite startswith_at_break
        by (assumption || (unfold is_break; now rewrite Hr, orb_true_r)).
      cbn [existsb]. rewrite Hempty. cbn [orb]. rewrite <- IH.
      destruct s as [|c' s']; [reflexivity|].
      destruct (Ascii.eqb c' Py.newline) eqn:Hn'; [|reflexivity].
      cbn [splitlines]. rewrite Hn'. cbn [existsb]. now rewrite Hempty.
    + rewrite <- IH.
      destruct (splitlines s) as [|l ls] eqn:E.
      * rewrite (splitlines_nil s E). cbn [existsb].
        change (Py.contains p (String c EmptyString))
          with (Py.startswith p (String c EmptyString)
                || Py.contains p EmptyString).
        rewrite Hempty. now rewrite !orb_false_r.
      * cbn [existsb].
        change (Py.contains p (String c l))
          with (Py.startswith p (String c l) || Py.contains p l).
        rewrite orb_assoc. f_equal. f_equal.
        rewrite (startswith_first_line p Hp (String c s)).
        cbn [Py.span]. unfold is_break at 1. rewrite Hn, Hr. cbn [orb negb].
        now rewrite <- (splitlines_head s l ls E).
Qed.

(** The loop of [check_output] over given lines. *)
Lemma check_lines (lines : list string) (st : State) :
  each lines (fun line =>
    if Py.contains "java.io.IOException" line
    then fail_with (TestFail ("cassandra-stress: " ++ Py.strip line))
    else done tt) st
  = (match List.find (Py.contains "java.io.IOException") lines with
     | Some line => Fails (TestFail ("cassandra-stress: " ++ Py.strip line))
     | None => Done tt
     end, st).
Proof.
  induction lines as [|l ls IH]; [reflexivity|].
  cbn [each find]. unfold and_then at 1.
  destruct (Py.contains "java.io.IOException" l); [reflexivity|].
  unfold done at 1. exact IH.
Qed.

Lemma find_existsb {A} (f : A -> bool) (l : list A) :
  existsb f l = match find f l with Some _ => true | None => false end.
Proof.
  induction l as [|x l IH]; [reflexivity|].
  cbn [existsb find]. now destruct (f x).
Qed.

(** X10.  [check_output] passes exactly when [java.io.IOException] occurs
    nowhere in stdout followed by stderr; otherwise the test fails, citing
    the first line that holds it, stripped of surrounding whitespace.
    Checking changes nothing. *)
Theorem check_output_finds_io_errors (result : CmdResult) (st : State) :
  let output := stdout result ++ stderr result in
  snd (check_output result st) = st
  /\ (fst (check_output result st) = Done tt
      <-> Py.contains "java.io.IOException" output = false)
  /\ (Py.contains "java.io.IOException" output = true ->
      exists line,
        List.find (Py.contains "java.io.IOException") (splitlines output)
        = Some line
        /\ fst (check_output result st)
           = Fails (TestFail ("cassandra-stress: " ++ Py.strip line))).
Proof.
  intros output. unfold check_output. cbv zeta. fold output.
  rewrite check_lines. cbn [fst snd].
  pose proof (contains_by_lines "java.io.IOException" eq_refl
                ltac:(discriminate) output) as H.
  rewrite find_existsb in H.
  destruct (find (Py.contains "java.io.IOException") (splitlines output))
    as [line|]; rewrite <- H.
  - split; [reflexivity|]. split; [split; discriminate|].
    intros _. now exists line.
  - split; [reflexivity|]. split; [split; reflexivity|]. discriminate.
Qed.

Lemma check_output_finds_witness :
  Py.contains "java.io.IOException"
              (stdout stress_io_error ++ stderr stress_io_error) = true
  /\ fst (check_output stress_io_error initial_state)
     = Fails (TestFail
                "cassandra-stress: java.io.IOException: Operation x10 on key(s) [31]").
Proof.
  split; [reflexivity|].
  destruct (check_output_finds_io_errors stress_io_error initial_state)
    as [_ [_ Hfail]].
  destruct (Hfail eq_refl) as [line [Hline Hout]].
  rewrite Hout. vm_compute in Hline. injection Hline as <-. reflexivity.
Defined.

(** *** The verdict of [test_after_install] *)

Lemma and_then_assoc {A B C} (m : T A) (f : A -> T B) (g : B -> T C)
      (st : State) :
  and_then (and_then m f) g st = and_then m (fun a => and_then (f a) g) st.
Proof. unfold and_then. destruct (m st) as [[a|e] st']; reflexivity. Qed.

Lemma keeps_done {A} (a : A) : keeps (done a).
Proof. intros st. apply Invariants.steady_refl. Qed.

Lemma keeps_fail_with {A} (f : Failure) : keeps (@fail_with A f).
Proof. intros st. apply Invariants.steady_refl. Qed.

Lemma keeps_and_then {A B} (m : T A) (k : A -> T B) :
  keeps m -> (forall a, keeps (k a)) -> keeps (and_then m k).
Proof.
  intros Hm Hk st. unfold and_then. specialize (Hm st).
  destruct (m st) as [[a|f] st1]; cbn [snd] in *.
  - eapply Invariants.steady_trans; [exact Hm | apply Hk].
  - exact Hm.
Qed.

Lemma keeps_from_M {A} (m : M A) : steadyM m -> keeps (from_M m).
Proof.
  intros Hm st. unfold from_M. specialize (Hm st).
  now destruct (m st) as [[a|e] st1].
Qed.

Lemma keeps_find_command (fc : list Call -> string -> option string)
      (cmd : string) :
  keeps (find_command fc cmd).
Proof.
  intros st. unfold find_command.
  destruct (fc (trace st) cmd); apply Invariants.steady_refl.
Qed.

Lemma keeps_check_output (result : CmdResult) : keeps (check_output result).
Proof.
  intros st. unfold check_output. cbv zeta. rewrite check_lines.
  apply Invariants.steady_refl.
Qed.

Lemma keeps_run_nodetool (env : Env)
      (fc : list Call -> string -> option string) :
  keeps (run_nodetool env fc).
Proof.
  unfold run_nodetool.
  apply keeps_and_then; [apply keeps_find_command | intros exec].
  cbv zeta. apply keeps_and_then; [|intros _; apply keeps_done].
  apply keeps_from_M, Invariants.steadyM_process_run.
Qed.

Lemma keeps_run_cassandra_stress (env : Env)
      (fc : list Call -> string -> option string) :
  keeps (run_cassandra_stress env fc).
Proof.
  unfold run_cassandra_stress.
  apply keeps_and_then; [apply keeps_find_command | intros exec].
  cbv zeta.
  apply keeps_and_then;
    [apply keeps_from_M, Invariants.steadyM_process_run | intros r1].
  apply keeps_and_then; [apply keeps_check_output | intros _].
  apply keeps_and_then;
    [apply keeps_from_M, Invariants.steadyM_process_run | intros r2].
  apply keeps_check_output.
Qed.

(** X11.  [test_after_install] judges the scriptlet failures that were on
    record when it started, and only after nodetool and cassandra-stress
    have passed: it then fails exactly when the registry is not empty,
    naming the recorded packages in order, separated by commas.  When one
    of the two checks fails, that failure is the outcome.  The registry
    itself is left as it was. *)
Theorem install_test_reports_recorded_failures
        (env : Env) (fc : list Call -> string -> option string)
        (st st1 : State) (o : Outcome unit) :
  (run_nodetool env fc ;; run_cassandra_stress env fc)%test st = (o, st1) ->
  test_after_install env fc st
  = (match o with
     | Done _ =>
         match SCRIPTLET_FAILURE_LIST st with
         | [] => Done tt
         | failures =>
             Fails (TestFail
                      ("RPM scriptlet failure reported for package(s): "
                       ++ Py.join "," failures))
         end
     | Fails f => Fails f
     end, st1)
  /\ SCRIPTLET_FAILURE_LIST st1 = SCRIPTLET_FAILURE_LIST st.
Proof.
  intros Hrun.
  assert (Hkeep : SCRIPTLET_FAILURE_LIST st1 = SCRIPTLET_FAILURE_LIST st).
  { pose proof (keeps_and_then _ _ (keeps_run_nodetool env fc)
                  (fun _ => keeps_run_cassandra_stress env fc) st) as H.
    rewrite Hrun in H. exact (proj1 H). }
  split; [|exact Hkeep].
  unfold test_after_install.
  rewrite <- (and_then_assoc (run_nodetool env fc)
                (fun _ => run_cassandra_stress env fc)).
  unfold and_then at 1. rewrite Hrun.
  destruct o as [[]|f]; [|reflexivity].
  unfold and_then, get_registry. rewrite Hkeep.
  now destruct (SCRIPTLET_FAILURE_LIST st).
Qed.

Lemma install_test_reports_witness :
  (run_nodetool healthy_host in_usr_bin ;;
   run_cassandra_stress healthy_host in_usr_bin)%test two_failures
  = (Done tt,
     with_trace two_failures
       [c_run "/usr/bin/nodetool status" false;
        c_run "/usr/bin/cassandra-stress write n=10000 -mode cql3 native -pop seq=1..10000"
              false;
        c_run "/usr/bin/cassandra-stress mixed duration=1m -mode cql3 native -rate threads=10 -pop seq=1..10000"
              false])
  /\ fst (test_after_install healthy_host in_usr_bin two_failures)
     = Fails (TestFail
                "RPM scriptlet failure reported for package(s): scylla-server,scylla-jmx").
Proof.
  split; [reflexivity|].
  rewrite (proj1 (install_test_reports_recorded_failures
                    healthy_host in_usr_bin two_failures _ _ eq_refl)).
  reflexivity.
Defined.

End Tests.

(** ** The cloud-image installer *)

Module Ami.

Lemma fails_and_then {A B} (m : T A) (k : A -> T B) :
  (forall a st, exists f st', k a st = (Fails f, st')) ->
  forall st, exists f st', and_then m k st = (Fails f, st').
Proof.
  intros Hk st. unfold and_then.
  destruct (m st) as [[a|f] st1]; [apply Hk | now exists f, st1].
Qed.

Lemma enhanced_net_enabled_fails (env : Env) (st : State) :
  exists f st', enhanced_net_enabled env st = (Fails f, st').
Proof.
  unfold enhanced_net_enabled.
  apply fails_and_then; intros result st1.
  apply fails_and_then; intros types st2. cbv zeta.
  apply fails_and_then; intros _ st3.
  apply fails_and_then; intros result' st4.
  apply fails_and_then; intros ver st5.
  now exists (Propagated AttributeError), st5.
Qed.

(** X12.  [ScyllaInstallAMI.run] never returns normally.
    [enhanced_net_enabled] reads the attribute [is_enterprise], which no
    class sets, so on every host it ends in a failure (an earlier error,
    or [AttributeError] at that line); [run] ends with that same failure
    in that same state, so the wait for the services and the identifier
    report are never reached. *)
Theorem ami_run_always_fails (env : Env) (st : State) :
  exists f st',
    enhanced_net_enabled env st = (Fails f, st')
    /\ ScyllaInstallAMI_run env st = (Fails f, st').
Proof.
  destruct (enhanced_net_enabled_fails env st) as [f [st' H]].
  exists f, st'. split; [exact H|].
  unfold ScyllaInstallAMI_run, and_then. now rewrite H.
Qed.

End Ami.

(** ** Readiness *)

Module Readiness.

(** X1.  The readiness wait is decided by port 9042 alone:
    [wait_services_up] returns normally exactly when one of its 180
    polls, five seconds apart, finds the port taken, and raises
    [StartServiceError] otherwise; what the units report to the status
    queries has no part in it. *)
Theorem readiness_is_the_port (env : Env) (st : State) :
  (fst (wait_services_up env st) = Ok tt
   <-> exists k,
        k < 180
        /\ port_free_out env (port_query_trace st k) 9042%Z "localhost"
           = false)
  /\ (fst (wait_services_up env st) <> Ok tt ->
      fst (wait_services_up env st)
      = Raise (StartServiceError
                 "Scylla service does not appear to be up after 900 s")).
Proof.
  rewrite Services.wait_services_up_result.
  destruct (existsb
              (fun k => negb (port_free_out env (port_query_trace st k)
                                            9042%Z "localhost"))
              (seq 0 180)) eqn:E.
  - split; [|congruence]. split; [|reflexivity]. intros _.
    apply existsb_exists in E as [k [Hin Hk]].
    apply in_seq in Hin. apply negb_true_iff in Hk.
    exists k. split; [lia | exact Hk].
  - split; [|reflexivity]. split; [discriminate|].
    intros [k [Hlt Hk]].
    assert (Hex : existsb
                    (fun k => negb (port_free_out env (port_query_trace st k)
                                                  9042%Z "localhost"))
                    (seq 0 180) = true).
    { apply existsb_exists. exists k. split; [apply in_seq; lia|].
      now rewrite Hk. }
    congruence.
Qed.

Lemma readiness_is_the_port_witness :
  fst (wait_services_up stalled_host initial_state) = Ok tt
  /\ fst (wait_services_up (host fedora22 "yum" systemd_answers true true)
                           initial_state)
     = Raise (StartServiceError
                "Scylla service does not appear to be up after 900 s").
Proof.
  split.
  - apply (proj1 (readiness_is_the_port stalled_host initial_state)).
    exists 0. split; [lia | reflexivity].
  - apply (proj2 (readiness_is_the_port
                    (host fedora22 "yum" systemd_answers true true)
                    initial_state)).
    intros H.
    apply (proj1 (proj1 (readiness_is_the_port
                           (host fedora22 "yum" systemd_answers true true)
                           initial_state))) in H.
    destruct H as [k [_ Hk]]. discriminate Hk.
Defined.

End Readiness.

(** ** Removing conflicting packages on CentOS *)

Module Centos.

Lemma manager_remove_run (env : Env) (b : Backend) (pkg : string)
      (st : State) :
  sw_manager st = resolved b ->
  sw_manager_remove env pkg st
  = (Ok (Z.eqb (exit_status (run_out env (trace st)
                                     (inherited_command env b "remove"
                                                        (Some pkg)) true)) 0),
     called st (c_run (inherited_command env b "remove" (Some pkg)) true)).
Proof.
  intros Hm. unfold sw_manager_remove, bind.
  rewrite (Manager.getattr_cached env st b Hm).
  apply WholeRun.inherited_run.
Qed.

(** X15.  [_centos_remove_system_packages] ignores what the removals
    return: with a backend stored it removes boost-thread, boost-system
    and abrt in that order and returns normally, whether or not any of
    the three commands succeeded, so the CentOS set-up always goes on to
    register the repository. *)
Theorem centos_removals_cannot_fail (env : Env) (b : Backend) (st : State) :
  sw_manager st = resolved b ->
  _centos_remove_system_packages env st
  = (Ok tt,
     with_trace st (trace st ++ remove_calls env b centos_conflicts)%list).
Proof.
  intros Hm. unfold _centos_remove_system_packages.
  assert (Hc : forall s c, sw_manager s = resolved b ->
                           sw_manager (called s c) = resolved b)
    by (intros s c H; exact H).
  unfold bind at 1. rewrite (manager_remove_run env b _ st Hm).
  unfold bind at 1.
  rewrite (manager_remove_run env b _ _ (Hc _ _ Hm)).
  unfold bind at 1.
  rewrite (manager_remove_run env b _ _ (Hc _ _ (Hc _ _ Hm))).
  unfold ret, called, with_trace, remove_calls, centos_conflicts.
  cbn [trace SCRIPTLET_FAILURE_LIST sw_manager map].
  repeat rewrite <- app_assoc. reflexivity.
Qed.

Lemma centos_removals_cannot_fail_witness :
  exit_status (run_out failing_host [] "yum -y remove abrt" true) <> 0%Z
  /\ _centos_remove_system_packages failing_host
       (resolved_state ScyllaYumBackend)
     = (Ok tt,
        with_trace (resolved_state ScyllaYumBackend)
          [c_run "yum -y remove boost-thread" true;
           c_run "yum -y remove boost-system" true;
           c_run "yum -y remove abrt" true]).
Proof.
  split; [discriminate|].
  exact (centos_removals_cannot_fail
           failing_host ScyllaYumBackend (resolved_state ScyllaYumBackend)
           eq_refl).
Defined.

End Centos.
